(** * KoBo upload: batch dispatch of spreadsheet rows to a submission API

    A shallow embedding of [main.py] and [mainv2.py].  The two scripts are
    near-identical pipelines; each is kept in a module of its own
    ([Main], [MainV2]) with the source's function names, and what they
    borrow from pandas, numpy, urllib3 and requests is modelled once, in
    the modules named after those libraries. *)

From Stdlib Require Import ZArith QArith Lia.
From stdpp Require Import base strings list gmap sorting pretty.

Local Open Scope Z_scope.

(** Exceptions that leave a function of the scripts. *)
Inductive exn : Type :=
  | KeyError (key : string)
  | ValueError (msg : string)
  | FileNotFoundError (path : string)
  | OverflowError (msg : string).

(** ** pandas / numpy: cells, rows, frames and [groupby] *)

(** A spreadsheet cell as [read_excel] delivers it.  The three missing
    markers are the scalars [pd.isna] answers [True] for.  A float that is
    not NaN is carried with the text [str] gives for it: float formatting
    is not modelled. *)
Inductive cell : Type :=
  | CNone
  | CNaN
  | CNaT
  | CStr (s : string)
  | CInt (z : Z)
  | CFloat (repr : string).

(** A row ([pd.Series]): column label to cell.  A frame: its rows in
    order. *)
Abbreviation Series := (gmap string cell).
Abbreviation DataFrame := (list (gmap string cell)).

Module pd.

Definition isna (v : cell) : bool :=
  match v with
  | CNone | CNaN | CNaT => true
  | CStr _ | CInt _ | CFloat _ => false
  end.

(** Python's [str] on a cell. *)
Definition str (v : cell) : string :=
  match v with
  | CNone => "None"
  | CNaN => "nan"
  | CNaT => "NaT"
  | CStr s => s
  | CInt z => pretty z
  | CFloat repr => repr
  end.

(** [insert_key k l]: [k] put at its place in the ascending,
    duplicate-free list [l]. *)
Fixpoint insert_key (k : Z) (l : list Z) : list Z :=
  match l with
  | [] => [k]
  | x :: t =>
      if k <? x then k :: l
      else if k =? x then l
      else x :: insert_key k t
  end.

(** The distinct group keys, ascending ([groupby] sorts its keys). *)
Definition unique_sorted (keys : list Z) : list Z :=
  foldr insert_key [] keys.

(** [df.groupby(keys)] with an array of keys, one per row: the groups in
    ascending key order, each with its rows in frame order. *)
Definition groupby {A : Type} (keys : list Z) (rows : list A)
  : list (Z * list A) :=
  let labelled := zip keys rows in
  map (fun k => (k, map snd (filter (fun kr => kr.1 = k) labelled)))
      (unique_sorted keys).

End pd.

Module np.

(** [np.arange(n)] *)
Definition arange (n : nat) : list Z := map Z.of_nat (seq 0 n).

(** The range of [int64], the dtype of [np.arange(n)]. *)
Definition INT64_MIN : Z := -9223372036854775808.
Definition INT64_MAX : Z := 9223372036854775807.

(** [a // b] on an int64 array and a Python int.  numpy, from version 2
    on, first takes the int to the dtype of the array and raises
    [OverflowError] when it does not fit; then it divides, rounding
    down, and gives 0 (and a warning, no exception) where the divisor is
    0, which is what [Z.div] computes.  The elements of [a] here are
    indices, so no quotient leaves the range. *)
Definition floor_divide (a : list Z) (b : Z) : exn + list Z :=
  if (INT64_MIN <=? b) && (b <=? INT64_MAX)
  then inr (map (fun i => i / b) a)
  else inl (OverflowError ("Python integer " +:+ pretty b
                           +:+ " out of bounds for int64")).

End np.

(** The batches of [main]'s loop header,
    [df_root.groupby(np.arange(len(df_root)) // batch_size)], in the order
    the loop visits them, or the exception the header raises. *)
Definition batches {A : Type} (df_root : list A) (batch_size : Z)
  : exn + list (list A) :=
  match np.floor_divide (np.arange (length df_root)) batch_size with
  | inr keys => inr (map snd (pd.groupby keys df_root))
  | inl e => inl e
  end.

(** Ceiling of N/B for B >= 1. *)
Definition ceil_div (n : nat) (b : Z) : Z := (Z.of_nat n + b - 1) / b.

(** ** The process and its surroundings *)

(** The JSON document both scripts post: the project id, the form's
    [formhub] uuid, the mapped answers in the order of the dict literal,
    the [__version__] tag and [meta.instanceID]. *)
Record Payload : Type := mkPayload {
  payload_id : string;
  formhub_uuid : string;
  answers : list (string * string);
  version : string;
  instanceID : string
}.

Record Request : Type := mkRequest {
  url : string;
  headers : list (string * string);
  json : Payload
}.

Record Response : Type := mkResponse {
  status_code : Z;
  has_retry_after : bool
}.

(** What one transmission of a request meets: an HTTP response, or a
    transport failure (refused connection, reset, broken read).  Every
    transmission is taken to end in one of the two: the scripts set no
    timeout, and a transmission that never ends would stall the run.
    A response is kept as its status and whether it has a [Retry-After]
    header.  A redirect, which the session would follow, is outside the
    model: where it matters, the statuses of a redirect are excluded by
    hypothesis. *)
Inductive reply : Type :=
  | Answer (r : Response)
  | Dropped.

(** [requests.RequestException], the three kinds these scripts can see:
    a transport failure after the last attempt, a retry budget used up
    on a status of the force list, and what [raise_for_status] raises. *)
Inductive RequestException : Type :=
  | ConnectionError
  | RetryError
  | HTTPError (status : Z).

(** A line of [app.log].  Two kinds of lines carry text that a library
    composes and that is not spelled out here:
    [ERROR_request_failed e] is the line of
    [logging.error(f'Request failed: {e}')], whose tail is [str(e)];
    [WARNING_retrying req left] is the warning urllib3 logs when it
    retries [req] after a broken connection, with [left] retries
    remaining ([basicConfig] routes it to the same file). *)
Inductive log_record : Type :=
  | INFO (msg : string)
  | ERROR (msg : string)
  | ERROR_request_failed (e : RequestException)
  | WARNING_retrying (req : Request) (left : nat).

(** [config.json] after [json.load]: a dict; [None] is an absent key. *)
Record Config : Type := mkConfig {
  parent_data_path : option string;
  batch_size : option Z;
  concurrency_level : option Z;
  project_uuid : option string;
  api_token_map : option (gmap string string);
  dynamic_sleep_interval : option Z
}.

(** What the process touches.  [uuid_next] counts the draws of
    [uuid.uuid4] so far; [sent] lists the requests put on the wire, one
    entry per transmission; [log] is [app.log]; [slept] the pauses of
    [time.sleep].  Work that the thread pool runs concurrently is
    entered in [sent] and [log] future by future, in submission order:
    one of the interleavings the pool admits. *)
Record world : Type := mkWorld {
  uuid_next : nat;
  sent : list Request;
  log : list log_record;
  slept : list Z
}.

Definition init_world : world := mkWorld 0 [] [] [].

(** State and exceptions: a raise keeps the state reached. *)
Definition M (A : Type) : Type := world -> (exn + A) * world.

Definition ret {A : Type} (a : A) : M A := fun w => (inr a, w).

Definition raise {A : Type} (e : exn) : M A := fun w => (inl e, w).

Definition bind {A B : Type} (m : M A) (k : A -> M B) : M B :=
  fun w =>
    match m w with
    | (inl e, w') => (inl e, w')
    | (inr a, w') => k a w'
    end.

Notation "x <~ m ;; k" := (bind m (fun x => k))
  (at level 100, m at next level, right associativity).
Notation "m ;;; k" := (bind m (fun _ => k))
  (at level 100, right associativity).

(** [d[key]] on a dict with string keys. *)
Definition getitem {A : Type} (name : string) (v : option A) : M A :=
  match v with
  | Some a => ret a
  | None => raise (KeyError name)
  end.

Definition logging_info (msg : string) : M unit :=
  fun w => (inr tt, mkWorld (uuid_next w) (sent w) (log w ++ [INFO msg]) (slept w)).

Definition logging_error (msg : string) : M unit :=
  fun w => (inr tt, mkWorld (uuid_next w) (sent w) (log w ++ [ERROR msg]) (slept w)).

(** A record appended to the log by a library, or with a library's text. *)
Definition logging_record (r : log_record) : M unit :=
  fun w => (inr tt, mkWorld (uuid_next w) (sent w) (log w ++ [r]) (slept w)).

(** A value or an exception, as a step of the process. *)
Definition lift {A : Type} (r : exn + A) : M A := fun w => (r, w).

(** [time.sleep]: a negative length raises. *)
Definition time_sleep (secs : Z) : M unit :=
  fun w =>
    if secs <? 0 then (inl (ValueError "sleep length must be non-negative"), w)
    else (inr tt, mkWorld (uuid_next w) (sent w) (log w) (slept w ++ [secs])).

(** A [for] loop over a list. *)
Fixpoint for_each {A : Type} (l : list A) (body : A -> M unit) : M unit :=
  match l with
  | [] => ret tt
  | a :: t => body a ;;; for_each t body
  end.

(** A list comprehension whose element expression has effects. *)
Fixpoint comprehension {A B : Type} (l : list A) (f : A -> M B) : M (list B) :=
  match l with
  | [] => ret []
  | a :: t => b <~ f a ;; bs <~ comprehension t f ;; ret (b :: bs)
  end.

(** ** uuid, urllib3, requests, concurrent.futures *)

Module uuid.

(** [uuid.uuid4()]: the text of the next identifier of the process.
    [text k] is the identifier of the k-th draw; that draws do not
    repeat is an assumption stated where it is used. *)
Definition uuid4 (text : nat -> string) : M string :=
  fun w =>
    (inr (text (uuid_next w)),
     mkWorld (S (uuid_next w)) (sent w) (log w) (slept w)).

End uuid.

Module urllib3.

(** [Retry(total, backoff_factor, status_forcelist, allowed_methods)];
    the other counters keep their default [None].  The backoff only
    sets how long a retry waits, which is not modelled. *)
Record Retry : Type := mkRetry {
  total : nat;
  backoff_factor : Q;
  status_forcelist : list Z;
  allowed_methods : list string
}.

Definition RETRY_AFTER_STATUS_CODES : list Z := [413; 429; 503].

(** [Retry.is_retry], with [left] the value of [total] at this point. *)
Definition is_retry (r : Retry) (left : nat) (method : string)
    (status : Z) (retry_after : bool) : bool :=
  if negb (bool_decide (method ∈ allowed_methods r)) then false
  else if bool_decide (status ∈ status_forcelist r) then true
  else negb (Nat.eqb left 0) && retry_after
       && bool_decide (status ∈ RETRY_AFTER_STATUS_CODES).

Section Pool.

(** The remote end: its reply to the n-th transmission (from 0) of a
    request. *)
Variable server : Request -> nat -> reply.

Definition transmit (req : Request) (n : nat) : M reply :=
  fun w =>
    (inr (server req n),
     mkWorld (uuid_next w) (sent w ++ [req]) (log w) (slept w)).

(** [HTTPConnectionPool.urlopen] under a [Retry] with [left] retries
    remaining, [n] transmissions made so far.  [Retry.increment]
    lowers [total] and raises [MaxRetryError] below zero; requests
    turns that into [RetryError] for a status and [ConnectionError]
    for a transport failure.  A transport failure is retried for a
    method the policy allows, and for a failure to connect whatever the
    method; the scripts only post, under policies with no retry left or
    with POST allowed.  Before it retries after a transport failure
    urllib3 logs a warning; a retry after a status is logged at debug
    level, below the level of [app.log]. *)
Fixpoint urlopen (r : Retry) (left : nat) (method : string)
    (req : Request) (n : nat) : M (RequestException + Response) :=
  a <~ transmit req n ;;
  match a with
  | Dropped =>
      match left with
      | O => ret (inl ConnectionError)
      | S left' =>
          logging_record (WARNING_retrying req left') ;;;
          urlopen r left' method req (S n)
      end
  | Answer resp =>
      if is_retry r left method (status_code resp) (has_retry_after resp)
      then match left with
           | O => ret (inl RetryError)
           | S left' => urlopen r left' method req (S n)
           end
      else ret (inr resp)
  end.

End Pool.

End urllib3.

Module requests.

(** [Response.ok], which is also the truth value of a response. *)
Definition ok (resp : Response) : bool :=
  negb ((400 <=? status_code resp) && (status_code resp <? 600)).

Definition raise_for_status (resp : Response) : RequestException + unit :=
  if (400 <=? status_code resp) && (status_code resp <? 600)
  then inl (HTTPError (status_code resp))
  else inr tt.

(** [Response.is_redirect] asks for a [Location] header and one of these
    statuses. *)
Definition REDIRECT_STATI : list Z := [301; 302; 303; 307; 308].

(** [str.lower] on the letters A to Z. *)
Definition lower_ascii (c : Ascii.ascii) : Ascii.ascii :=
  let n := Ascii.nat_of_ascii c in
  if (65 <=? n)%nat && (n <=? 90)%nat then Ascii.ascii_of_nat (n + 32) else c.

Fixpoint lower (s : string) : string :=
  match s with
  | EmptyString => EmptyString
  | String c s' => String (lower_ascii c) (lower s')
  end.

(** The adapter a session uses for a URL, found by prefix on the URL in
    lower case: the one mounted on ["https://"], else the default one
    of a session, [Retry(0, read=False)], which does not retry.  The
    scripts pass one URL, [ENDPOINT]; a URL with another scheme than
    http or https, which requests refuses, is not modelled. *)
Definition get_adapter (mounted : urllib3.Retry) (u : string) : urllib3.Retry :=
  if String.prefix "https://" (lower u) then mounted
  else urllib3.mkRetry 0 0%Q []
         ["DELETE"; "GET"; "HEAD"; "OPTIONS"; "PUT"; "TRACE"].

(** [session.post(endpoint, headers=headers, json=payload)] on a
    session with [mounted] on ["https://"]: the response, or the
    exception raised.  The session follows redirects, which an endpoint
    of the kind modelled never asks for. *)
Definition post (server : Request -> nat -> reply)
    (mounted : urllib3.Retry) (endpoint : string)
    (hdrs : list (string * string)) (payload : Payload)
  : M (RequestException + Response) :=
  let r := get_adapter mounted endpoint in
  urllib3.urlopen server r (urllib3.total r) "POST"
                  (mkRequest endpoint hdrs payload) 0.

End requests.

(** What [future.result()] gives for a submitted
    [send_request_with_retry]. *)
Abbreviation Future := (option Response).

(** [ThreadPoolExecutor(max_workers=n)] *)
Definition ThreadPoolExecutor (max_workers : Z) : M unit :=
  if max_workers <=? 0
  then raise (ValueError "max_workers must be greater than 0")
  else ret tt.

(** The host the script runs on: the parsed [config.json] if it can be
    read, the workbooks [pd.read_excel] can open by path, and the
    environment variables. *)
Record Host : Type := mkHost {
  config_json : option Config;
  workbooks : gmap string (list (gmap string cell));
  environ : gmap string string
}.

Definition CONFIG_FILE : string := "config.json".

Definition load_config (h : Host) (config_file : string) : M Config :=
  match config_json h with
  | Some c => ret c
  | None => raise (FileNotFoundError config_file)
  end.

Definition read_excel (h : Host) (path : string) : M DataFrame :=
  match workbooks h !! path with
  | Some df => ret df
  | None => raise (FileNotFoundError path)
  end.

(** [logging.basicConfig(..., filemode='w')]: the log starts empty. *)
Definition configure_logging : M unit :=
  fun w => (inr tt, mkWorld (uuid_next w) (sent w) [] (slept w)).

(** The terminal result of one record. *)
Inductive Outcome : Type := Success | Failure.

Definition outcome_of_record (r : log_record) : option Outcome :=
  match r with
  | INFO msg => if String.eqb msg "Submission success" then Some Success else None
  | ERROR msg => if String.eqb msg "Submission failed" then Some Failure else None
  | ERROR_request_failed _ | WARNING_retrying _ _ => None
  end.

(** The outcomes a log records, in log order. *)
Definition outcomes (l : list log_record) : list Outcome :=
  omap outcome_of_record l.

Definition ENDPOINT : string := "https://kobocat.unhcr.org/api/v1/submissions".

(** ** main.py *)

Module Main.

Definition get_api_token (config : Config) (user_value : string) : M string :=
  let token_key := default ∅ (api_token_map config) !! user_value in
  match token_key with
  | Some (String c s) => ret (String c s)
  | Some EmptyString | None =>
      logging_error ("Unknown user value: " +:+ user_value) ;;;
      raise (ValueError ("Unknown user value: " +:+ user_value))
  end.

Definition safe_str (value : cell) : string :=
  if pd.isna value then "" else pd.str value.

(** Whether a future's result counts as delivered:
    [response and response.status_code == 201]. *)
Definition delivered (response : Future) : bool :=
  match response with
  | Some r => requests.ok r && (status_code r =? 201)
  | None => false
  end.

Section Run.

Variable uuid4_text : nat -> string.
Variable server : Request -> nat -> reply.
Variable as_completed : list Future -> list Future.

Definition send_request_with_retry (endpoint : string)
    (hdrs : list (string * string)) (payload : Payload)
    (max_retries : nat) (backoff_factor : Q) : M Future :=
  let retries :=
    urllib3.mkRetry max_retries backoff_factor [500; 502; 503; 504] ["POST"] in
  r <~ requests.post server retries endpoint hdrs payload ;;
  match r with
  | inr response => ret (Some response)
  | inl e =>
      logging_record (ERROR_request_failed e) ;;;
      ret None
  end.

Definition create_payload (parent_row : Series) (project_uuid : string)
  : M Payload :=
  Process_Status <~ getitem "Process_Status" (parent_row !! "Process_Status") ;;
  Reception_ID <~ getitem "Reception_ID" (parent_row !! "Reception_ID") ;;
  Full_Name <~ getitem "Full_Name" (parent_row !! "Full_Name") ;;
  Sex <~ getitem "Sex" (parent_row !! "Sex") ;;
  Date_of_Birth <~ getitem "Date_of_Birth" (parent_row !! "Date_of_Birth") ;;
  Arrival_Date <~ getitem "Arrival_Date" (parent_row !! "Arrival_Date") ;;
  Ethnicity <~ getitem "Ethnicity" (parent_row !! "Ethnicity") ;;
  Group_Size <~ getitem "Group_Size" (parent_row !! "Group_Size") ;;
  Reception_Location <~ getitem "Reception_Location" (parent_row !! "Reception_Location") ;;
  u <~ uuid.uuid4 uuid4_text ;;
  ret (mkPayload project_uuid
         "6c18862e8a0442f5b04e957541bb223d"
         [("Process_Status", safe_str Process_Status);
          ("Reception_ID", safe_str Reception_ID);
          ("Full_Name", safe_str Full_Name);
          ("Sex", safe_str Sex);
          ("Date_of_Birth", safe_str Date_of_Birth);
          ("Arrival_Date", safe_str Arrival_Date);
          ("Ethnicity", safe_str Ethnicity);
          ("Group_Size", safe_str Group_Size);
          ("Reception_Location", safe_str Reception_Location)]
         "vHgTnHiEdARTknHYRTLR2x"
         ("uuid:" +:+ u)).

(** The body of the loop over [as_completed]. *)
Definition record_outcome (response : Future) : M unit :=
  if delivered response then logging_info "Submission success"
  else logging_error "Submission failed".

(** The pool runs the submitted calls concurrently.  Here each call is
    run when it is submitted: one of the schedules the pool admits.  The
    payloads are built by the submitting thread, in row order, in every
    schedule; the order of the requests of a batch in [sent], and of
    the lines the calls log, is that of this schedule only. *)
Definition process_batch (batch_df : DataFrame) (config : Config)
    (endpoint : string) (hdrs : list (string * string)) : M unit :=
  max_workers <~ getitem "concurrency_level" (concurrency_level config) ;;
  ThreadPoolExecutor max_workers ;;;
  future_to_row <~ comprehension batch_df (fun row =>
      project <~ getitem "project_uuid" (project_uuid config) ;;
      payload <~ create_payload row project ;;
      future <~ send_request_with_retry endpoint hdrs payload 3 (3 # 10)%Q ;;
      ret (future, row)) ;;
  for_each (as_completed (map fst future_to_row)) record_outcome.

Definition main (h : Host) : M unit :=
  configure_logging ;;;
  config <~ load_config h CONFIG_FILE ;;
  path <~ getitem "parent_data_path" (parent_data_path config) ;;
  df_root <~ read_excel h path ;;
  api_token <~ get_api_token config "unhcr_prod" ;;
  let hdrs := [("Authorization", "Token " +:+ api_token);
               ("Content-Type", "application/json")] in
  size <~ getitem "batch_size" (batch_size config) ;;
  groups <~ lift (batches df_root size) ;;
  for_each groups (fun batch_df =>
    process_batch batch_df config ENDPOINT hdrs ;;;
    time_sleep (default 5 (dynamic_sleep_interval config))).

End Run.

End Main.

(** ** mainv2.py *)

Module MainV2.

(** [API_TOKEN = os.getenv("API_TOKEN")] *)
Definition API_TOKEN (h : Host) : option string := environ h !! "API_TOKEN".

(** An f-string field holding a value that may be [None]. *)
Definition format_optional (v : option string) : string :=
  match v with
  | Some s => s
  | None => "None"
  end.

Definition get_headers (api_token : option string) : list (string * string) :=
  [("Authorization", "Token " +:+ format_optional api_token);
   ("Content-Type", "application/json")].

Definition safe_str (value : cell) : string :=
  if pd.isna value then "" else pd.str value.

Definition delivered (response : Future) : bool :=
  match response with
  | Some r => requests.ok r && (status_code r =? 201)
  | None => false
  end.

Section Run.

Variable uuid4_text : nat -> string.
Variable server : Request -> nat -> reply.
Variable as_completed : list Future -> list Future.

Definition send_request_with_retry (endpoint : string)
    (hdrs : list (string * string)) (payload : Payload)
    (max_retries : nat) (backoff_factor : Q) : M Future :=
  let retries :=
    urllib3.mkRetry max_retries backoff_factor [500; 502; 503; 504] ["POST"] in
  r <~ requests.post server retries endpoint hdrs payload ;;
  match r with
  | inr response =>
      match requests.raise_for_status response with
      | inr _ => ret (Some response)
      | inl e =>
          logging_record (ERROR_request_failed e) ;;;
          ret None
      end
  | inl e =>
      logging_record (ERROR_request_failed e) ;;;
      ret None
  end.

Definition create_payload (row : Series) (project_uuid : string)
  : M Payload :=
  Reception_ID <~ getitem "Reception_ID" (row !! "Reception_ID") ;;
  Type_ <~ getitem "Type" (row !! "Type") ;;
  Group_Size <~ getitem "Group_Size" (row !! "Group_Size") ;;
  u <~ uuid.uuid4 uuid4_text ;;
  ret (mkPayload project_uuid
         "ba58ebec6e0948788e3b6069a1e2f19f"
         [("Reception_ID", safe_str Reception_ID);
          ("Type", safe_str Type_);
          ("Group_Size", safe_str Group_Size)]
         "v6aBj5Nyn7GUydpo5kXjsv"
         ("uuid:" +:+ u)).

Definition record_outcome (response : Future) : M unit :=
  if delivered response then logging_info "Submission success"
  else logging_error "Submission failed".

(** The calls are run as they are submitted, as in [Main.process_batch]. *)
Definition process_batch (batch_df : DataFrame) (endpoint : string)
    (hdrs : list (string * string)) (project_uuid : string)
    (max_workers : Z) : M unit :=
  ThreadPoolExecutor max_workers ;;;
  futures <~ comprehension batch_df (fun row =>
      payload <~ create_payload row project_uuid ;;
      send_request_with_retry endpoint hdrs payload 3 (3 # 10)%Q) ;;
  for_each (as_completed futures) record_outcome.

Definition main (h : Host) : M unit :=
  configure_logging ;;;
  config <~ load_config h CONFIG_FILE ;;
  let hdrs := get_headers (API_TOKEN h) in
  project <~ getitem "project_uuid" (project_uuid config) ;;
  let max_workers := default 5 (concurrency_level config) in
  path <~ getitem "parent_data_path" (parent_data_path config) ;;
  df_root <~ read_excel h path ;;
  size <~ getitem "batch_size" (batch_size config) ;;
  groups <~ lift (batches df_root size) ;;
  for_each groups (fun batch_df =>
    process_batch batch_df ENDPOINT hdrs project max_workers ;;;
    time_sleep (default 5 (dynamic_sleep_interval config))).

End Run.

End MainV2.

(** * Vocabulary of the properties *)

(** [extends w w' draws reqs outs naps]: from [w] to [w'] the process drew
    [draws] uuids, put [reqs] on the wire, recorded the outcomes [outs]
    and slept [naps]. *)
Record extends (w w' : world) (draws : nat) (reqs : list Request)
    (outs : list Outcome) (naps : list Z) : Prop := mkExtends {
  ext_uuid : uuid_next w' = (uuid_next w + draws)%nat;
  ext_sent : sent w' = sent w ++ reqs;
  ext_outcomes : outcomes (log w') = outcomes (log w) ++ outs;
  ext_slept : slept w' = slept w ++ naps
}.

Definition POLICY (max_retries : nat) (bf : Q) : urllib3.Retry :=
  urllib3.mkRetry max_retries bf [500; 502; 503; 504] ["POST"].

(** The groups that [batches] gives for a batch size that fits int64. *)
Definition groups_of {A : Type} (df_root : list A) (batch_size : Z)
  : list (list A) :=
  map snd (pd.groupby (map (fun i => i / batch_size)
                           (np.arange (length df_root))) df_root).

(** The request built for each record of a list, in order: record [i]
    carries the identifier of draw [u + i]. *)
Definition requests_of (build : Series -> string -> string -> Payload)
    (endpoint : string) (hdrs : list (string * string)) (project : string)
    (text : nat -> string) (u : nat) (rows : list Series) : list Request :=
  imap (fun i row => mkRequest endpoint hdrs (build row project (text (u + i)%nat)))
       rows.

(** An endpoint that never answers with the status of a redirect. *)
Definition never_redirects (server : Request -> nat -> reply) : Prop :=
  forall req n resp,
    server req n = Answer resp -> status_code resp ∉ requests.REDIRECT_STATI.

(** The first column of a list that a row lacks. *)
Fixpoint first_absent (columns : list string) (row : Series) : option string :=
  match columns with
  | [] => None
  | c :: columns' =>
      match row !! c with
      | Some _ => first_absent columns' row
      | None => Some c
      end
  end.

(** The warnings urllib3 logs for a request whose transmissions all
    break, under a budget of [left] retries. *)
Definition retry_warnings (req : Request) (left : nat) : list log_record :=
  WARNING_retrying req <$> rev (seq 0 left).

(** The outcome the loop of [process_batch] records for a future. *)
Definition outcome_of (delivered : Future -> bool) (f : Future) : Outcome :=
  if delivered f then Success else Failure.

(** One record end to end, as [process_batch] handles it: send the
    payload, then record the outcome of the future. *)
Definition submit_v1 (server : Request -> nat -> reply)
    (hdrs : list (string * string)) (payload : Payload)
    (max_retries : nat) (bf : Q) : M unit :=
  future <~ Main.send_request_with_retry server ENDPOINT hdrs payload max_retries bf ;;
  Main.record_outcome future.

Definition submit_v2 (server : Request -> nat -> reply)
    (hdrs : list (string * string)) (payload : Payload)
    (max_retries : nat) (bf : Q) : M unit :=
  future <~ MainV2.send_request_with_retry server ENDPOINT hdrs payload max_retries bf ;;
  MainV2.record_outcome future.

(** Two servers to read [retry_policy] at: one that always answers 500,
    one that answers 503 twice and then 201. *)
Definition always_500 : Request -> nat -> reply :=
  fun _ _ => Answer (mkResponse 500 false).

Definition flaky_then_201 : Request -> nat -> reply :=
  fun _ n => if (n <? 2)%nat then Answer (mkResponse 503 false)
             else Answer (mkResponse 201 false).

Definition sample_payload : Payload :=
  mkPayload "project" "form" [("Reception_ID", "R-1")] "v1" "uuid:0".

(** The columns [create_payload] reads, in the order it reads them. *)
Definition COLUMNS_V1 : list string :=
  ["Process_Status"; "Reception_ID"; "Full_Name"; "Sex"; "Date_of_Birth";
   "Arrival_Date"; "Ethnicity"; "Group_Size"; "Reception_Location"].

Definition COLUMNS_V2 : list string := ["Reception_ID"; "Type"; "Group_Size"].

(** A row carries every column of the list. *)
Definition complete (columns : list string) (row : Series) : Prop :=
  forall c, c ∈ columns -> is_Some (row !! c).

Global Instance complete_dec columns row : Decision (complete columns row).
Proof.
  refine (cast_if (decide (Forall (fun c => is_Some (row !! c)) columns)));
    unfold complete; by rewrite ?Forall_forall in *.
Defined.

(** The mapped answers of a row: each column with [safe_str] of its cell. *)
Definition mapped (columns : list string) (row : Series) : list (string * string) :=
  map (fun c => (c, Main.safe_str (default CNone (row !! c)))) columns.

Definition payload_v1 (row : Series) (project : string) (u : string) : Payload :=
  mkPayload project "6c18862e8a0442f5b04e957541bb223d" (mapped COLUMNS_V1 row)
            "vHgTnHiEdARTknHYRTLR2x" ("uuid:" +:+ u).

Definition payload_v2 (row : Series) (project : string) (u : string) : Payload :=
  mkPayload project "ba58ebec6e0948788e3b6069a1e2f19f" (mapped COLUMNS_V2 row)
            "v6aBj5Nyn7GUydpo5kXjsv" ("uuid:" +:+ u).

(** A payload with its instance identifier blanked. *)
Definition without_instanceID (p : Payload) : Payload :=
  mkPayload (payload_id p) (formhub_uuid p) (answers p) (version p) "".

(** Sample inputs: a generator of identifiers that numbers its draws, a
    row of [main.py]'s form with two missing cells, and the same row
    without its [Sex] column. *)
Definition serial_uuid : nat -> string := pretty.

Definition sample_row : Series :=
  list_to_map
    [("Process_Status", CStr "Registered"); ("Reception_ID", CStr "R-17");
     ("Full_Name", CStr "A. N. Other"); ("Sex", CNaN);
     ("Date_of_Birth", CNaT); ("Arrival_Date", CStr "2024-01-05");
     ("Ethnicity", CNone); ("Group_Size", CInt 4);
     ("Reception_Location", CStr "North gate"); ("Type", CStr "Family")].

Definition sample_row_without_sex : Series := delete "Sex" sample_row.

(** The requests a batch puts on the wire: record by record, [S k] copies
    of the one request built for the record, whose payload carries the
    identifier of draw [u], [u + 1], ... *)
Fixpoint wire (build : Series -> string -> string -> Payload)
    (endpoint : string) (hdrs : list (string * string)) (project : string)
    (text : nat -> string) (u : nat) (rows : list Series) (ks : list nat)
  : list Request :=
  match rows, ks with
  | row :: rows', k :: ks' =>
      replicate (S k) (mkRequest endpoint hdrs (build row project (text u)))
      ++ wire build endpoint hdrs project text (S u) rows' ks'
  | _, _ => []
  end.

(** What [main] of [main.py] needs from its host to get as far as the
    loop and through it: a readable configuration with the keys the
    script reads, the workbook, a token for ['unhcr_prod'], a worker count
    the thread pool accepts and a pause [time.sleep] accepts.  The batch
    size is any integer that numpy takes as an int64. *)
Definition setup_v1 (h : Host) (config : Config) (df_root : DataFrame)
    (size : Z) (project token : string) : Prop :=
  config_json h = Some config
  /\ (exists path, parent_data_path config = Some path
                   /\ workbooks h !! path = Some df_root)
  /\ default ∅ (api_token_map config) !! "unhcr_prod" = Some token
  /\ token <> ""
  /\ batch_size config = Some size
  /\ np.INT64_MIN <= size <= np.INT64_MAX
  /\ (exists workers, concurrency_level config = Some workers /\ 0 < workers)
  /\ project_uuid config = Some project
  /\ 0 <= default 5 (dynamic_sleep_interval config).

(** The same for [mainv2.py], which takes its token from the environment
    and does not look at it. *)
Definition setup_v2 (h : Host) (config : Config) (df_root : DataFrame)
    (size : Z) (project : string) : Prop :=
  config_json h = Some config
  /\ (exists path, parent_data_path config = Some path
                   /\ workbooks h !! path = Some df_root)
  /\ batch_size config = Some size
  /\ np.INT64_MIN <= size <= np.INT64_MAX
  /\ 0 < default 5 (concurrency_level config)
  /\ project_uuid config = Some project
  /\ 0 <= default 5 (dynamic_sleep_interval config).

(** Sample hosts: a configuration of [main.py]'s kind over a workbook of
    three rows, with the batch size left open; a server that accepts
    everything. *)
Definition sample_config (size : Z) : Config :=
  mkConfig (Some "data.xlsx") (Some size) (Some 5) (Some "project")
           (Some {["unhcr_prod" := "secret"]}) None.

Definition sample_host (size : Z) (df_root : DataFrame) : Host :=
  mkHost (Some (sample_config size)) {["data.xlsx" := df_root]} ∅.

Definition sample_frame : DataFrame := [sample_row; sample_row; sample_row].

Definition always_201 : Request -> nat -> reply :=
  fun _ _ => Answer (mkResponse 201 false).

Definition in_order : list Future -> list Future := fun l => l.

(** A host of [mainv2.py]'s kind whose environment has no [API_TOKEN]. *)
Definition host_without_token : Host :=
  mkHost (Some (mkConfig (Some "data.xlsx") (Some 5) (Some 5) (Some "project")
                         None None))
         {["data.xlsx" := [sample_row]]} ∅.

(** What of a world does not depend on how the endpoint answers: the
    number of identifiers drawn, the number of outcomes recorded, the
    pauses taken. *)
Definition shape (w : world) : nat * nat * list Z :=
  (uuid_next w, length (outcomes (log w)), slept w).

(** Two results agree: the worlds have the same shape and either both
    raise the same exception or both return, with related values. *)
Definition agree {A B : Type} (R : A -> B -> Prop)
    (x : (exn + A) * world) (y : (exn + B) * world) : Prop :=
  shape x.2 = shape y.2
  /\ match x.1, y.1 with
     | inl e1, inl e2 => e1 = e2
     | inr a, inr b => R a b
     | _, _ => False
     end.

Definition sim {A B : Type} (R : A -> B -> Prop) (m1 : M A) (m2 : M B) : Prop :=
  forall w1 w2, shape w1 = shape w2 -> agree R (m1 w1) (m2 w2).

Definition any {A B : Type} : A -> B -> Prop := fun _ _ => True.

(** The outcome that the terminal result of [session.post] stands for:
    Success for a response with status 201, Failure for any other
    response and for an exception. *)
Definition verdict (res : RequestException + Response) : Outcome :=
  match res with
  | inr response => if status_code response =? 201 then Success else Failure
  | inl _ => Failure
  end.

(** The fate of a request under the policy [process_batch] sends it
    with: the outcome that what [session.post] ends in stands for,
    against an endpoint that does not redirect.  It is the same at
    every state of the process. *)
Definition fate (server : Request -> nat -> reply) (req : Request) : Outcome :=
  match (requests.post server (POLICY 3 (3 # 10)%Q)
                       (url req) (headers req) (json req) init_world).1 with
  | inr res => verdict res
  | inl _ => Failure
  end.

(** More sample servers: one that answers 404, one that drops every
    transmission. *)
Definition answers_404 : Request -> nat -> reply :=
  fun _ _ => Answer (mkResponse 404 false).

Definition always_dropped : Request -> nat -> reply := fun _ _ => Dropped.

(** A host whose configuration has only the keys [main] itself reads,
    over an empty workbook. *)
Definition bare_config : Config :=
  mkConfig (Some "data.xlsx") (Some 5) None None
           (Some {["unhcr_prod" := "secret"]}) None.

Definition bare_host : Host :=
  mkHost (Some bare_config) {["data.xlsx" := []]} ∅.

(** A host whose configuration asks for no workers and a negative pause,
    over a workbook of one row. *)
Definition lazy_config : Config :=
  mkConfig (Some "data.xlsx") (Some 5) (Some 0) (Some "project")
           (Some {["unhcr_prod" := "secret"]}) (Some (-1)).

Definition lazy_host : Host :=
  mkHost (Some lazy_config) {["data.xlsx" := [sample_row]]} ∅.

(** A host whose configuration asks for a negative pause, over the sample
    workbook in batches of two. *)
Definition hasty_config : Config :=
  mkConfig (Some "data.xlsx") (Some 2) (Some 5) (Some "project")
           (Some {["unhcr_prod" := "secret"]}) (Some (-1)).

Definition hasty_host : Host :=
  mkHost (Some hasty_config) {["data.xlsx" := sample_frame]} ∅.

(** * Properties *)

Example batches_12_5 :
  batches (seq 0 12) 5 = inr [[0;1;2;3;4]; [5;6;7;8;9]; [10;11]]%nat.
Proof. reflexivity. Qed.

Example batches_zero : batches (seq 0 3) 0 = inr [[0;1;2]]%nat.
Proof. reflexivity. Qed.

Example batches_negative :
  batches (seq 0 5) (-2) = inr [[3;4]; [1;2]; [0]]%nat.
Proof. reflexivity. Qed.

Example batches_beyond_int64 :
  batches (seq 0 3) (2 ^ 63)
  = inl (OverflowError
           "Python integer 9223372036854775808 out of bounds for int64").
Proof. reflexivity. Qed.

(** A batch size that fits int64 passes the loop header, and no other
    does. *)
Lemma batches_fits {A : Type} (df_root : list A) (size : Z) :
  np.INT64_MIN <= size <= np.INT64_MAX ->
  batches df_root size = inr (groups_of df_root size).
Proof.
  intros [Hlo Hhi]. unfold batches, np.floor_divide.
  apply Z.leb_le in Hlo, Hhi. by rewrite Hlo, Hhi.
Qed.

Lemma batches_inr {A : Type} (df_root : list A) (size : Z) (bs : list (list A)) :
  batches df_root size = inr bs ->
  np.INT64_MIN <= size <= np.INT64_MAX /\ bs = groups_of df_root size.
Proof.
  unfold batches, np.floor_divide.
  destruct (Z.leb_spec np.INT64_MIN size), (Z.leb_spec size np.INT64_MAX);
    cbn; intros [= <-]; done.
Qed.

(** ** Partition into batches *)

Section Partition.

Local Open Scope nat_scope.

Context {A : Type}.
Variable b : nat.
Hypothesis b_pos : (1 <= b)%nat.

Local Abbreviation key := (fun i : nat => Z.of_nat (i / b)).

Lemma div_succ_cases (s : nat) :
  (S s / b = s / b \/ S s / b = S (s / b))%nat.
Proof.
  pose proof (Nat.div_mod_eq s b) as Hs.
  pose proof (Nat.mod_upper_bound s b ltac:(lia)) as Hr.
  destruct (decide (S (s mod b) < b)%nat) as [Hlt|Hge].
  - left. symmetry. apply (Nat.div_unique (S s) b (s / b) (S (s mod b))); lia.
  - right. symmetry. apply (Nat.div_unique (S s) b (S (s / b)) 0); lia.
Qed.

Lemma unique_sorted_keys (len s : nat) :
  pd.unique_sorted (map key (seq s (S len)))
  = map Z.of_nat (seq (s / b) (S ((s + len) / b - s / b))).
Proof.
  revert s. induction len as [|len IH]; intros s.
  - rewrite Nat.add_0_r, Nat.sub_diag. reflexivity.
  - change (pd.unique_sorted (map key (seq s (S (S len)))))
      with (pd.insert_key (key s) (pd.unique_sorted (map key (seq (S s) (S len))))).
    rewrite IH. replace (S s + len)%nat with (s + S len)%nat by lia.
    assert (s / b <= (s + S len) / b)%nat as Hmono
      by (apply Nat.Div0.div_le_mono; lia).
    assert (S s / b <= (s + S len) / b)%nat as Hmono'
      by (apply Nat.Div0.div_le_mono; lia).
    destruct (div_succ_cases s) as [Heq|Heq]; rewrite Heq in *.
    + cbn [seq map pd.insert_key].
      rewrite Z.ltb_irrefl, Z.eqb_refl. reflexivity.
    + replace (S ((s + S len) / b - s / b))
        with (S (S ((s + S len) / b - S (s / b)))) by lia.
      cbn [seq map pd.insert_key].
      replace (Z.ltb (Z.of_nat (s / b)) (Z.of_nat (S (s / b)))) with true
        by (symmetry; apply Z.ltb_lt; lia).
      reflexivity.
Qed.

(** The rows whose index lies in the window of group [k], read off a
    frame that starts at index [s]. *)
Lemma group_slice (rows : list A) (s k : nat) :
  map snd (filter (fun kr : Z * A => kr.1 = Z.of_nat k)
                  (zip (map key (seq s (length rows))) rows))
  = take ((k + 1) * b - Nat.max (k * b) s) (drop (k * b - s) rows).
Proof.
  revert s. induction rows as [|r rows IH]; intros s.
  - by rewrite drop_nil, take_nil.
  - cbn [length seq map zip zip_with].
    assert (s / b = k <-> k * b <= s < (k + 1) * b)%nat as Hwin.
    { pose proof (Nat.div_mod_eq s b). pose proof (Nat.mod_upper_bound s b ltac:(lia)).
      split; [intros <-; nia | intros [? ?]].
      symmetry. apply (Nat.div_unique s b k (s - k * b)); lia. }
    destruct (decide (s / b = k)) as [Hk|Hk].
    + rewrite filter_cons_True by (cbn; congruence).
      apply Hwin in Hk. cbn [map snd]. rewrite IH.
      replace (k * b - s)%nat with 0%nat by lia.
      replace (k * b - S s)%nat with 0%nat by lia.
      replace ((k + 1) * b - Nat.max (k * b) s)%nat
        with (S ((k + 1) * b - Nat.max (k * b) (S s))) by lia.
      reflexivity.
    + rewrite filter_cons_False by (cbn; lia). rewrite IH.
      destruct (decide (s < k * b)%nat) as [Hlo|Hhi].
      * replace (k * b - s)%nat with (S (k * b - S s)) by lia.
        cbn [drop]. f_equal. lia.
      * assert ((k + 1) * b <= s)%nat by (apply Nat.nlt_ge; intros ?; apply Hk, Hwin; lia).
        replace ((k + 1) * b - Nat.max (k * b) (S s))%nat with 0%nat by lia.
        replace ((k + 1) * b - Nat.max (k * b) s)%nat with 0%nat by lia.
        by rewrite !take_0.
Qed.


End Partition.

Lemma ceil_div_succ (len : nat) (B : Z) :
  1 <= B -> Z.to_nat (ceil_div (S len) B) = S (len / Z.to_nat B)%nat.
Proof.
  intros HB. unfold ceil_div.
  replace (Z.of_nat (S len) + B - 1) with (Z.of_nat len + 1 * B) by lia.
  rewrite Z.div_add by lia.
  rewrite <- (Z2Nat.id B) at 1 by lia.
  rewrite <- Nat2Z.inj_div. lia.
Qed.

(** For a batch size of at least one, the loop of [main] visits the
    consecutive windows of that width. *)
Lemma batches_windows {A : Type} (records : list A) (B : Z) :
  1 <= B ->
  groups_of records B
  = map (fun k => take (Z.to_nat B) (drop (k * Z.to_nat B) records))
        (seq 0 (Z.to_nat (ceil_div (length records) B))).
Proof.
  intros HB. set (b := Z.to_nat B). assert (1 <= b)%nat as Hb by lia.
  unfold groups_of, pd.groupby, np.arange.
  assert (forall n, map (fun i => i / B) (map Z.of_nat (seq 0 n))
                    = map (fun i : nat => Z.of_nat (i / b)) (seq 0 n)) as ->.
  { intros n. rewrite map_map. apply map_ext. intros i.
    rewrite Nat2Z.inj_div. unfold b. by rewrite Z2Nat.id by lia. }
  destruct records as [|r records].
  - cbn [length]. replace (Z.to_nat (ceil_div 0 B)) with 0%nat; [done|].
    unfold ceil_div. rewrite Z.div_small by lia. done.
  - remember (r :: records) as rows eqn:Hrows.
    assert (length rows = S (length records)) as Hlen by (by subst rows).
    rewrite Hlen. rewrite ceil_div_succ by done. fold b.
    rewrite unique_sorted_keys by done.
    rewrite Nat.Div0.div_0_l, Nat.add_0_l, Nat.sub_0_r.
    rewrite !map_map. apply map_ext. intros k. cbn [snd].
    rewrite <- Hlen, group_slice by done.
    f_equal; [lia | f_equal; lia].
Qed.



(** ** [groupby] with arbitrary keys *)

Lemma insert_key_sorted (k : Z) (l : list Z) :
  StronglySorted Z.lt l ->
  StronglySorted Z.lt (pd.insert_key k l)
  /\ (forall x, x ∈ pd.insert_key k l <-> x = k \/ x ∈ l).
Proof.
  induction 1 as [|x t Ht IH Hx]; cbn [pd.insert_key].
  - split; [repeat constructor | intros y; rewrite !elem_of_cons; tauto].
  - destruct (Z.ltb_spec k x) as [Hlt|Hge].
    + split; [|intros y; rewrite !elem_of_cons; tauto].
      constructor; [by constructor|]. constructor; [done|].
      eapply Forall_impl; [exact Hx|]. intros; cbn in *; lia.
    + destruct (Z.eqb_spec k x) as [->|Hne].
      * split; [by constructor | intros y; rewrite !elem_of_cons; tauto].
      * destruct IH as [IHs IHe]. split; [|intros y; rewrite !elem_of_cons, IHe; tauto].
        constructor; [done|]. apply Forall_forall. intros y Hy.
        apply IHe in Hy as [->|Hy]; [lia|].
        by eapply Forall_forall in Hx.
Qed.

Lemma unique_sorted_spec (keys : list Z) :
  StronglySorted Z.lt (pd.unique_sorted keys)
  /\ (forall x, x ∈ pd.unique_sorted keys <-> x ∈ keys).
Proof.
  induction keys as [|k keys [IHs IHe]]; [split; [constructor|done]|].
  cbn [pd.unique_sorted foldr].
  destruct (insert_key_sorted k _ IHs) as [Hs He]. split; [done|].
  intros x. rewrite He, elem_of_cons. fold (pd.unique_sorted keys).
  by rewrite IHe.
Qed.

Lemma unique_sorted_NoDup (keys : list Z) : NoDup (pd.unique_sorted keys).
Proof.
  destruct (unique_sorted_spec keys) as [Hs _].
  induction Hs as [|x t _ IH Hx]; constructor; [|done].
  intros Hin. eapply Forall_forall in Hx; [|done]. lia.
Qed.

(** Groups taken for distinct keys that cover every row hold each row
    once. *)
Lemma groups_permutation {A : Type} (ks : list Z) (labelled : list (Z * A)) :
  NoDup ks ->
  (forall kr, kr ∈ labelled -> kr.1 ∈ ks) ->
  concat (map (fun k => filter (fun kr : Z * A => kr.1 = k) labelled) ks)
  ≡ₚ labelled.
Proof.
  intros Hnd. revert labelled.
  induction Hnd as [|k ks Hk Hnd IH]; intros labelled Hcover.
  - destruct labelled as [|kr ?]; [done|].
    specialize (Hcover kr ltac:(left)). by apply elem_of_nil in Hcover.
  - cbn [map concat].
    etrans; [|apply (filter_app_complement (fun kr : Z * A => kr.1 = k))].
    apply Permutation_app; [done|].
    etrans; [|apply IH].
    + apply reflexive_eq. f_equal. apply map_ext_in. intros k' Hk'.
      rewrite list_filter_filter. apply list_filter_iff.
      intros kr. split; [|tauto]. intros ->. split; [done|].
      intros ->. apply Hk. by apply list_elem_of_In.
    + intros kr [Hne Hin]%list_elem_of_filter.
      apply Hcover in Hin. apply elem_of_cons in Hin as [?|?]; done.
Qed.

(** Whatever the divisor, the groups hold every record once. *)
Lemma batches_permutation {A : Type} (records : list A) (B : Z) :
  concat (groups_of records B) ≡ₚ records.
Proof.
  unfold groups_of, pd.groupby.
  set (keys := map (fun i => i / B) (np.arange (length records))).
  assert (length keys = length records) as Hlen.
  { unfold keys, np.arange. by rewrite !length_map, length_seq. }
  rewrite map_map. cbn [snd].
  trans ((zip keys records).*2); [|by rewrite snd_zip by lia].
  set (group := fun k => filter (fun kr : Z * A => kr.1 = k) (zip keys records)).
  assert (forall ks, concat (map (fun k => map snd (group k)) ks)
                     = (concat (map group ks)).*2) as ->.
  { induction ks as [|k ks IH]; [done|].
    cbn [map concat]. rewrite fmap_app. by f_equal. }
  apply fmap_Permutation, groups_permutation.
  - apply unique_sorted_NoDup.
  - intros [k r] Hin. apply unique_sorted_spec. cbn.
    by apply elem_of_zip_l in Hin.
Qed.

Lemma batches_total_length {A : Type} (records : list A) (B : Z) :
  sum_list (length <$> groups_of records B) = length records.
Proof. by rewrite <- length_concat, batches_permutation. Qed.

(** ** Reasoning about runs *)

Lemma bind_inr {A B : Type} (m : M A) (k : A -> M B) (w w' : world) (a : A) :
  m w = (inr a, w') -> bind m k w = k a w'.
Proof. unfold bind. by intros ->. Qed.

Lemma bind_inl {A B : Type} (m : M A) (k : A -> M B) (w w' : world) (e : exn) :
  m w = (inl e, w') -> bind m k w = (inl e, w').
Proof. unfold bind. by intros ->. Qed.

Lemma extends_refl (w : world) : extends w w 0 [] [] [].
Proof. split; by rewrite ?Nat.add_0_r, ?app_nil_r. Qed.

Lemma extends_trans (w1 w2 w3 : world) d d' reqs reqs' outs outs' naps naps' :
  extends w1 w2 d reqs outs naps ->
  extends w2 w3 d' reqs' outs' naps' ->
  extends w1 w3 (d + d') (reqs ++ reqs') (outs ++ outs') (naps ++ naps').
Proof.
  intros [H1 H2 H3 H4] [H1' H2' H3' H4']. split.
  - rewrite H1', H1. lia.
  - by rewrite H2', H2, <- app_assoc.
  - by rewrite H3', H3, <- app_assoc.
  - by rewrite H4', H4, <- app_assoc.
Qed.

Lemma outcomes_app (l1 l2 : list log_record) :
  outcomes (l1 ++ l2) = outcomes l1 ++ outcomes l2.
Proof. apply omap_app. Qed.

Lemma outcomes_request_failed (l : list log_record) (e : RequestException) :
  outcomes (l ++ [ERROR_request_failed e]) = outcomes l.
Proof. rewrite outcomes_app. cbn. by rewrite app_nil_r. Qed.

Lemma outcomes_silent (l ws : list log_record) :
  outcomes ws = [] -> outcomes (l ++ ws) = outcomes l.
Proof. intros Hws. by rewrite outcomes_app, Hws, app_nil_r. Qed.

Lemma outcomes_retry_warnings (req : Request) (left : nat) :
  outcomes (retry_warnings req left) = [].
Proof.
  unfold retry_warnings. induction (rev (seq 0 left)) as [|x l IH]; [done|].
  exact IH.
Qed.

Lemma retry_warnings_S (req : Request) (left : nat) :
  retry_warnings req (S left) = WARNING_retrying req left :: retry_warnings req left.
Proof. unfold retry_warnings. by rewrite seq_S, rev_app_distr. Qed.

(** *** The retry loop *)

Lemma is_retry_forced (max_retries : nat) (bf : Q) (left : nat) (status : Z)
    (ra : bool) :
  status ∈ [500; 502; 503; 504] ->
  urllib3.is_retry (POLICY max_retries bf) left "POST" status ra = true.
Proof.
  intros Hin. unfold urllib3.is_retry, POLICY. cbn.
  by rewrite (bool_decide_eq_true_2 _ Hin).
Qed.

Lemma is_retry_201 (max_retries : nat) (bf : Q) (left : nat) (ra : bool) :
  urllib3.is_retry (POLICY max_retries bf) left "POST" 201 ra = false.
Proof. unfold urllib3.is_retry, POLICY. cbn. by rewrite andb_false_r. Qed.

Section Wire.

Variable server : Request -> nat -> reply.

(** One round of [urlopen]. *)
Lemma urlopen_unfold (r : urllib3.Retry) (left : nat) (method : string)
    (req : Request) (n : nat) (w : world) :
  let w1 := mkWorld (uuid_next w) (sent w ++ [req]) (log w) (slept w) in
  urllib3.urlopen server r left method req n w
  = match server req n with
    | Dropped =>
        match left with
        | O => (inr (inl ConnectionError), w1)
        | S left' =>
            urllib3.urlopen server r left' method req (S n)
              (mkWorld (uuid_next w) (sent w ++ [req])
                       (log w ++ [WARNING_retrying req left']) (slept w))
        end
    | Answer resp =>
        if urllib3.is_retry r left method (status_code resp)
                            (has_retry_after resp)
        then match left with
             | O => (inr (inl RetryError), w1)
             | S left' => urllib3.urlopen server r left' method req (S n) w1
             end
        else (inr (inr resp), w1)
    end.
Proof.
  destruct left; cbn; destruct (server req n) as [resp|]; try done;
    by destruct (urllib3.is_retry _ _ _ _ _).
Qed.

(** Every call of [urlopen] returns, having transmitted the same request
    between once and [left + 1] times; what it adds to the log are
    warnings, no outcome; it touches nothing else. *)
Lemma urlopen_returns (r : urllib3.Retry) (left : nat) (method : string)
    (req : Request) (n : nat) (w : world) :
  exists res k ws,
    (k <= left)%nat
    /\ outcomes ws = []
    /\ urllib3.urlopen server r left method req n w
       = (inr res, mkWorld (uuid_next w) (sent w ++ replicate (S k) req)
                           (log w ++ ws) (slept w)).
Proof.
  revert n w. induction left as [|left IH]; intros n w;
    rewrite urlopen_unfold; cbn zeta.
  - destruct (server req n) as [resp|];
      [|exists (inl ConnectionError), 0%nat, []; by rewrite app_nil_r].
    destruct (urllib3.is_retry _ _ _ _ _);
      [exists (inl RetryError), 0%nat, [] | exists (inr resp), 0%nat, []];
      by rewrite app_nil_r.
  - assert (forall (w0 : world) (pre : list log_record),
      outcomes pre = [] ->
      exists res k ws, (k <= S left)%nat
        /\ outcomes ws = []
        /\ urllib3.urlopen server r left method req (S n)
             (mkWorld (uuid_next w0) (sent w0 ++ [req]) (log w0 ++ pre) (slept w0))
           = (inr res, mkWorld (uuid_next w0) (sent w0 ++ replicate (S k) req)
                               (log w0 ++ ws) (slept w0))) as Hagain.
    { intros w0 pre Hpre.
      destruct (IH (S n) (mkWorld (uuid_next w0) (sent w0 ++ [req])
                                  (log w0 ++ pre) (slept w0)))
        as (res & k & ws & Hk & Hws & ->).
      exists res, (S k), (pre ++ ws). split; [lia|].
      split; [by rewrite outcomes_app, Hpre, Hws|].
      cbn. by rewrite <- !app_assoc. }
    destruct (server req n) as [resp|]; [|by apply Hagain].
    destruct (urllib3.is_retry _ _ _ _ _).
    + specialize (Hagain w [] eq_refl). by rewrite app_nil_r in Hagain.
    + exists (inr resp), 0%nat, []. rewrite app_nil_r. split; [lia|done].
Qed.

(** An endpoint that answers every transmission with a status of the
    force list uses up the retries. *)
Lemma urlopen_exhausted (max_retries : nat) (bf : Q) (left : nat)
    (req : Request) (n : nat) (w : world) :
  (forall i, exists resp, server req i = Answer resp
                          /\ status_code resp ∈ [500; 502; 503; 504]) ->
  urllib3.urlopen server (POLICY max_retries bf) left "POST" req n w
  = (inr (inl RetryError),
     mkWorld (uuid_next w) (sent w ++ replicate (S left) req) (log w) (slept w)).
Proof.
  intros Hsrv. revert n w. induction left as [|left IH]; intros n w;
    rewrite urlopen_unfold; cbn zeta;
    destruct (Hsrv n) as (resp & -> & Hst);
    rewrite is_retry_forced by done; [done|].
  rewrite IH. cbn. by rewrite <- app_assoc.
Qed.

(** [K] forced statuses, then a 201: the 201 is returned after [K + 1]
    transmissions, provided [K] retries are available. *)
Lemma urlopen_recovers (max_retries : nat) (bf : Q) (K left : nat)
    (req : Request) (n : nat) (w : world) (r201 : Response) :
  (K <= left)%nat ->
  (forall i, (i < K)%nat ->
     exists resp, server req (n + i) = Answer resp
                  /\ status_code resp ∈ [500; 502; 503; 504]) ->
  server req (n + K) = Answer r201 ->
  status_code r201 = 201 ->
  urllib3.urlopen server (POLICY max_retries bf) left "POST" req n w
  = (inr (inr r201),
     mkWorld (uuid_next w) (sent w ++ replicate (S K) req) (log w) (slept w)).
Proof.
  revert left n w. induction K as [|K IH]; intros left n w HK Hfail Hok H201;
    rewrite urlopen_unfold; cbn zeta.
  - rewrite Nat.add_0_r in Hok. by rewrite Hok, H201, is_retry_201.
  - destruct left as [|left]; [lia|].
    destruct (Hfail 0%nat ltac:(lia)) as (resp & Hresp & Hst).
    rewrite Nat.add_0_r in Hresp. rewrite Hresp, is_retry_forced by done.
    rewrite (IH left (S n)); [cbn; by rewrite <- app_assoc|lia| |by rewrite <- Hok; f_equal; lia|done].
    intros i Hi. destruct (Hfail (S i) ltac:(lia)) as (resp' & Hresp' & Hst').
    exists resp'. split; [|done]. rewrite <- Hresp'. f_equal. lia.
Qed.

End Wire.

(** *** One submission *)

Lemma get_adapter_total (mounted : urllib3.Retry) (u : string) :
  (urllib3.total (requests.get_adapter mounted u) <= urllib3.total mounted)%nat.
Proof. unfold requests.get_adapter. destruct (String.prefix _ _); cbn; lia. Qed.

Lemma get_adapter_ENDPOINT (mounted : urllib3.Retry) :
  requests.get_adapter mounted ENDPOINT = mounted.
Proof. reflexivity. Qed.

(** [session.post] returns, after at most [total + 1] transmissions of the
    one request it was given. *)
Lemma post_returns (server : Request -> nat -> reply) (mounted : urllib3.Retry)
    (endpoint : string) (hdrs : list (string * string)) (payload : Payload)
    (w : world) :
  exists res k ws,
    (k <= urllib3.total mounted)%nat
    /\ outcomes ws = []
    /\ requests.post server mounted endpoint hdrs payload w
       = (inr res,
          mkWorld (uuid_next w)
                  (sent w ++ replicate (S k) (mkRequest endpoint hdrs payload))
                  (log w ++ ws) (slept w)).
Proof.
  unfold requests.post.
  destruct (urlopen_returns server (requests.get_adapter mounted endpoint)
              (urllib3.total (requests.get_adapter mounted endpoint)) "POST"
              (mkRequest endpoint hdrs payload) 0 w) as (res & k & ws & Hk & Hws & Heq).
  exists res, k, ws. split; [|done].
  pose proof (get_adapter_total mounted endpoint). lia.
Qed.

Lemma delivered_201 (f : Future) :
  Main.delivered f = true
  <-> exists resp, f = Some resp /\ status_code resp = 201.
Proof.
  unfold Main.delivered, requests.ok. split.
  - destruct f as [resp|]; [|done]. intros [_ H]%andb_true_iff.
    exists resp. split; [done|lia].
  - intros (resp & -> & ->). done.
Qed.

Lemma delivered_v2_201 (f : Future) :
  MainV2.delivered f = true
  <-> exists resp, f = Some resp /\ status_code resp = 201.
Proof. apply delivered_201. Qed.

Section Submission.

Variable server : Request -> nat -> reply.

(** What [send_request_with_retry] of [main.py] returns, read off the
    result of [session.post]. *)
Lemma send_v1_post endpoint hdrs payload max_retries bf w res w1 :
  requests.post server (POLICY max_retries bf) endpoint hdrs payload w
  = (inr res, w1) ->
  Main.send_request_with_retry server endpoint hdrs payload max_retries bf w
  = match res with
    | inr response => (inr (Some response), w1)
    | inl e => (inr None,
                mkWorld (uuid_next w1) (sent w1)
                        (log w1 ++ [ERROR_request_failed e]) (slept w1))
    end.
Proof.
  intros Hpost. unfold Main.send_request_with_retry.
  rewrite (bind_inr _ _ _ _ _ Hpost). by destruct res.
Qed.

(** The same for [mainv2.py], where [raise_for_status] turns a 4xx or
    5xx response into an exception. *)
Lemma send_v2_post endpoint hdrs payload max_retries bf w res w1 :
  requests.post server (POLICY max_retries bf) endpoint hdrs payload w
  = (inr res, w1) ->
  MainV2.send_request_with_retry server endpoint hdrs payload max_retries bf w
  = match res with
    | inr response =>
        if (400 <=? status_code response) && (status_code response <? 600)
        then (inr None,
              mkWorld (uuid_next w1) (sent w1)
                (log w1 ++ [ERROR_request_failed (HTTPError (status_code response))])
                (slept w1))
        else (inr (Some response), w1)
    | inl e => (inr None,
                mkWorld (uuid_next w1) (sent w1)
                        (log w1 ++ [ERROR_request_failed e]) (slept w1))
    end.
Proof.
  intros Hpost. unfold MainV2.send_request_with_retry.
  rewrite (bind_inr _ _ _ _ _ Hpost). destruct res as [e|response]; [done|].
  unfold requests.raise_for_status.
  by destruct ((400 <=? status_code response) && (status_code response <? 600)).
Qed.

Lemma send_v1_returns endpoint hdrs payload max_retries bf w :
  exists fut k w',
    (k <= max_retries)%nat
    /\ Main.send_request_with_retry server endpoint hdrs payload max_retries bf w
       = (inr fut, w')
    /\ extends w w' 0 (replicate (S k) (mkRequest endpoint hdrs payload)) [] [].
Proof.
  destruct (post_returns server (POLICY max_retries bf) endpoint hdrs payload w)
    as (res & k & ws & Hk & Hws & Hpost).
  rewrite (send_v1_post _ _ _ _ _ _ _ _ Hpost).
  destruct res as [e|response]; eexists _, k, _; (split; [exact Hk|]);
    (split; [reflexivity|]); split; cbn;
    rewrite ?outcomes_request_failed, ?(outcomes_silent _ _ Hws), ?app_nil_r;
    done || lia.
Qed.

Lemma send_v2_returns endpoint hdrs payload max_retries bf w :
  exists fut k w',
    (k <= max_retries)%nat
    /\ MainV2.send_request_with_retry server endpoint hdrs payload max_retries bf w
       = (inr fut, w')
    /\ extends w w' 0 (replicate (S k) (mkRequest endpoint hdrs payload)) [] [].
Proof.
  destruct (post_returns server (POLICY max_retries bf) endpoint hdrs payload w)
    as (res & k & ws & Hk & Hws & Hpost).
  rewrite (send_v2_post _ _ _ _ _ _ _ _ Hpost).
  destruct res as [e|response];
    [|destruct ((400 <=? status_code response) && (status_code response <? 600))];
    eexists _, k, _; (split; [exact Hk|]);
    (split; [reflexivity|]); split; cbn;
    rewrite ?outcomes_request_failed, ?(outcomes_silent _ _ Hws), ?app_nil_r;
    done || lia.
Qed.

End Submission.

Lemma record_outcome_v1 (f : Future) (w : world) :
  exists w', Main.record_outcome f w = (inr tt, w')
             /\ extends w w' 0 [] [outcome_of Main.delivered f] [].
Proof.
  unfold Main.record_outcome, outcome_of.
  destruct (Main.delivered f); eexists; (split; [reflexivity|]);
    split; cbn; rewrite ?outcomes_app, ?app_nil_r; done || lia.
Qed.

Lemma record_outcome_v2 (f : Future) (w : world) :
  exists w', MainV2.record_outcome f w = (inr tt, w')
             /\ extends w w' 0 [] [outcome_of MainV2.delivered f] [].
Proof. apply record_outcome_v1. Qed.

Lemma post_exhausted server hdrs payload max_retries bf w :
  (forall n, exists resp,
      server (mkRequest ENDPOINT hdrs payload) n = Answer resp
      /\ status_code resp = 500) ->
  requests.post server (POLICY max_retries bf) ENDPOINT hdrs payload w
  = (inr (inl RetryError),
     mkWorld (uuid_next w)
             (sent w ++ replicate (S max_retries) (mkRequest ENDPOINT hdrs payload))
             (log w) (slept w)).
Proof.
  intros Hsrv. unfold requests.post. rewrite get_adapter_ENDPOINT.
  apply urlopen_exhausted. intros i.
  destruct (Hsrv i) as (resp & Hresp & Hst). exists resp.
  split; [done|]. rewrite Hst. set_solver.
Qed.

Lemma post_recovers server hdrs payload max_retries bf w K r201 :
  (K < max_retries)%nat ->
  (forall i, (i < K)%nat -> exists resp,
      server (mkRequest ENDPOINT hdrs payload) i = Answer resp
      /\ status_code resp = 503) ->
  server (mkRequest ENDPOINT hdrs payload) K = Answer r201 ->
  status_code r201 = 201 ->
  requests.post server (POLICY max_retries bf) ENDPOINT hdrs payload w
  = (inr (inr r201),
     mkWorld (uuid_next w)
             (sent w ++ replicate (S K) (mkRequest ENDPOINT hdrs payload))
             (log w) (slept w)).
Proof.
  intros HK Hfail Hok H201. unfold requests.post. rewrite get_adapter_ENDPOINT.
  apply urlopen_recovers; cbn; [lia| |done|done].
  intros i Hi. destruct (Hfail i Hi) as (resp & Hresp & Hst). exists resp.
  split; [done|]. rewrite Hst. set_solver.
Qed.

(** C4: under the retry policy of [send_request_with_retry], in both
    scripts: an endpoint that always answers 500 is tried exactly
    [max_retries + 1] times and the record's outcome is Failure; an
    endpoint that answers 503 exactly [K] times, [K < max_retries], and
    then 201 is tried exactly [K + 1] times and the outcome is Success. *)
Theorem retry_policy (server : Request -> nat -> reply)
    (hdrs : list (string * string)) (payload : Payload)
    (max_retries : nat) (bf : Q) (w : world) :
  let req := mkRequest ENDPOINT hdrs payload in
  ((forall n, exists resp, server req n = Answer resp /\ status_code resp = 500) ->
   exists w1 w2,
     submit_v1 server hdrs payload max_retries bf w = (inr tt, w1)
     /\ submit_v2 server hdrs payload max_retries bf w = (inr tt, w2)
     /\ sent w1 = sent w ++ replicate (max_retries + 1) req
     /\ sent w2 = sent w ++ replicate (max_retries + 1) req
     /\ outcomes (log w1) = outcomes (log w) ++ [Failure]
     /\ outcomes (log w2) = outcomes (log w) ++ [Failure])
  /\ (forall (K : nat) (r201 : Response),
        (K < max_retries)%nat ->
        (forall i, (i < K)%nat ->
           exists resp, server req i = Answer resp /\ status_code resp = 503) ->
        server req K = Answer r201 ->
        status_code r201 = 201 ->
        exists w1 w2,
          submit_v1 server hdrs payload max_retries bf w = (inr tt, w1)
          /\ submit_v2 server hdrs payload max_retries bf w = (inr tt, w2)
          /\ sent w1 = sent w ++ replicate (K + 1) req
          /\ sent w2 = sent w ++ replicate (K + 1) req
          /\ outcomes (log w1) = outcomes (log w) ++ [Success]
          /\ outcomes (log w2) = outcomes (log w) ++ [Success]).
Proof.
  intros req. split.
  - intros Hsrv.
    pose proof (post_exhausted server hdrs payload max_retries bf w Hsrv) as Hpost.
    unfold submit_v1, submit_v2.
    rewrite (bind_inr _ _ _ _ _ (send_v1_post _ _ _ _ _ _ _ _ _ Hpost)).
    rewrite (bind_inr _ _ _ _ _ (send_v2_post _ _ _ _ _ _ _ _ _ Hpost)).
    do 2 eexists. do 2 (split; [reflexivity|]). cbn.
    rewrite !outcomes_app, Nat.add_1_r. cbn. by rewrite app_nil_r.
  - intros K r201 HK Hfail Hok H201.
    pose proof (post_recovers server hdrs payload max_retries bf w K r201
                  HK Hfail Hok H201) as Hpost.
    pose proof (send_v1_post _ _ _ _ _ _ _ _ _ Hpost) as Hv1.
    pose proof (send_v2_post _ _ _ _ _ _ _ _ _ Hpost) as Hv2.
    cbn beta iota in Hv1, Hv2. rewrite H201 in Hv2.
    change ((400 <=? 201) && (201 <? 600)) with false in Hv2. cbn iota in Hv2.
    unfold submit_v1, submit_v2.
    rewrite (bind_inr _ _ _ _ _ Hv1), (bind_inr _ _ _ _ _ Hv2).
    unfold Main.record_outcome, MainV2.record_outcome, Main.delivered,
      MainV2.delivered, requests.ok. rewrite H201. cbn.
    do 2 eexists. do 2 (split; [reflexivity|]). cbn.
    rewrite !outcomes_app, Nat.add_1_r. cbn. done.
Qed.

Lemma retry_policy_witness :
  (exists w1 w2,
     submit_v1 always_500 [] sample_payload 3 (3 # 10)%Q init_world = (inr tt, w1)
     /\ submit_v2 always_500 [] sample_payload 3 (3 # 10)%Q init_world = (inr tt, w2)
     /\ sent w1 = sent init_world
                  ++ replicate (3 + 1) (mkRequest ENDPOINT [] sample_payload)
     /\ sent w2 = sent init_world
                  ++ replicate (3 + 1) (mkRequest ENDPOINT [] sample_payload)
     /\ outcomes (log w1) = outcomes (log init_world) ++ [Failure]
     /\ outcomes (log w2) = outcomes (log init_world) ++ [Failure])
  /\ (exists w1 w2,
        submit_v1 flaky_then_201 [] sample_payload 3 (3 # 10)%Q init_world = (inr tt, w1)
        /\ submit_v2 flaky_then_201 [] sample_payload 3 (3 # 10)%Q init_world = (inr tt, w2)
        /\ sent w1 = sent init_world
                     ++ replicate (2 + 1) (mkRequest ENDPOINT [] sample_payload)
        /\ sent w2 = sent init_world
                     ++ replicate (2 + 1) (mkRequest ENDPOINT [] sample_payload)
        /\ outcomes (log w1) = outcomes (log init_world) ++ [Success]
        /\ outcomes (log w2) = outcomes (log init_world) ++ [Success]).
Proof.
  split.
  - apply (proj1 (retry_policy always_500 [] sample_payload 3 (3 # 10)%Q init_world)).
    intros n. by eexists.
  - apply (proj2 (retry_policy flaky_then_201 [] sample_payload 3 (3 # 10)%Q init_world)
             2%nat (mkResponse 201 false)); [lia| |reflexivity|reflexivity].
    intros [|[|i]] Hi; [by eexists..|lia].
Defined.

(** *** Building a payload *)

Ltac read_column row c :=
  destruct (row !! c) eqn:?;
  [cbn beta iota
  |right; exists c; split; [set_solver|]; split; [done|]; intros; reflexivity].

Ltac recall_columns row :=
  repeat match goal with
         | H : row !! _ = Some _ |- _ => rewrite H; clear H
         end.

Ltac all_present :=
  let c := fresh "c" in
  let Hc := fresh "Hc" in
  intros c Hc;
  repeat (apply elem_of_cons in Hc as [->|Hc]; [eauto|]);
  by apply elem_of_nil in Hc.

(** [create_payload] of [main.py]: either the row carries the nine columns
    and the payload is built with one draw of [uuid4], or the first column
    that is absent raises [KeyError] and nothing is drawn. *)
Lemma create_payload_v1_cases (row : Series) (project : string) :
  (complete COLUMNS_V1 row
   /\ forall (uuid4_text : nat -> string) (w : world),
        Main.create_payload uuid4_text row project w
        = (inr (payload_v1 row project (uuid4_text (uuid_next w))),
           mkWorld (S (uuid_next w)) (sent w) (log w) (slept w)))
  \/ (exists c, c ∈ COLUMNS_V1 /\ row !! c = None
                /\ forall (uuid4_text : nat -> string) (w : world),
                     Main.create_payload uuid4_text row project w
                     = (inl (KeyError c), w)).
Proof.
  unfold Main.create_payload, bind, getitem, ret, raise, uuid.uuid4.
  read_column row "Process_Status". read_column row "Reception_ID".
  read_column row "Full_Name". read_column row "Sex".
  read_column row "Date_of_Birth". read_column row "Arrival_Date".
  read_column row "Ethnicity". read_column row "Group_Size".
  read_column row "Reception_Location".
  left. split; [all_present|]. intros uuid4_text w.
  unfold payload_v1, mapped, COLUMNS_V1. cbn [map].
  recall_columns row. reflexivity.
Qed.

Lemma create_payload_v2_cases (row : Series) (project : string) :
  (complete COLUMNS_V2 row
   /\ forall (uuid4_text : nat -> string) (w : world),
        MainV2.create_payload uuid4_text row project w
        = (inr (payload_v2 row project (uuid4_text (uuid_next w))),
           mkWorld (S (uuid_next w)) (sent w) (log w) (slept w)))
  \/ (exists c, c ∈ COLUMNS_V2 /\ row !! c = None
                /\ forall (uuid4_text : nat -> string) (w : world),
                     MainV2.create_payload uuid4_text row project w
                     = (inl (KeyError c), w)).
Proof.
  unfold MainV2.create_payload, bind, getitem, ret, raise, uuid.uuid4.
  read_column row "Reception_ID". read_column row "Type".
  read_column row "Group_Size".
  left. split; [all_present|]. intros uuid4_text w.
  unfold payload_v2, mapped, COLUMNS_V2. cbn [map].
  recall_columns row. reflexivity.
Qed.

Lemma complete_not_absent (columns : list string) (row : Series) (c : string) :
  complete columns row -> c ∈ columns -> row !! c = None -> False.
Proof. intros Hc Hin Hnone. destruct (Hc c Hin) as [v Hv]. congruence. Qed.

Lemma create_payload_v1_complete (row : Series) (project : string)
    (uuid4_text : nat -> string) (w : world) :
  complete COLUMNS_V1 row ->
  Main.create_payload uuid4_text row project w
  = (inr (payload_v1 row project (uuid4_text (uuid_next w))),
     mkWorld (S (uuid_next w)) (sent w) (log w) (slept w)).
Proof.
  intros Hc. destruct (create_payload_v1_cases row project)
    as [[_ H]|(c & Hin & Hnone & _)]; [done|].
  destruct (complete_not_absent _ _ _ Hc Hin Hnone).
Qed.

Lemma create_payload_v2_complete (row : Series) (project : string)
    (uuid4_text : nat -> string) (w : world) :
  complete COLUMNS_V2 row ->
  MainV2.create_payload uuid4_text row project w
  = (inr (payload_v2 row project (uuid4_text (uuid_next w))),
     mkWorld (S (uuid_next w)) (sent w) (log w) (slept w)).
Proof.
  intros Hc. destruct (create_payload_v2_cases row project)
    as [[_ H]|(c & Hin & Hnone & _)]; [done|].
  destruct (complete_not_absent _ _ _ Hc Hin Hnone).
Qed.

Lemma mapped_answer (columns : list string) (row : Series) (c : string) (v : cell) :
  c ∈ columns -> row !! c = Some v ->
  (c, if pd.isna v then "" else pd.str v) ∈ mapped columns row.
Proof.
  intros Hin Hv. unfold mapped. apply list_elem_of_fmap.
  exists c. split; [|done]. by rewrite Hv.
Qed.

Example create_payload_sample :
  (Main.create_payload serial_uuid sample_row "project" init_world).1
  = inr (mkPayload "project" "6c18862e8a0442f5b04e957541bb223d"
           [("Process_Status", "Registered"); ("Reception_ID", "R-17");
            ("Full_Name", "A. N. Other"); ("Sex", "");
            ("Date_of_Birth", ""); ("Arrival_Date", "2024-01-05");
            ("Ethnicity", ""); ("Group_Size", "4");
            ("Reception_Location", "North gate")]
           "vHgTnHiEdARTknHYRTLR2x" "uuid:0").
Proof. vm_compute. reflexivity. Qed.

(** C7, as stated, fails: a record without one of the mapped columns makes
    the payload builder raise [KeyError]. *)
Lemma create_payload_absent_column_raises :
  (Main.create_payload serial_uuid sample_row_without_sex "project" init_world).1
  = inl (KeyError "Sex")
  /\ (MainV2.create_payload serial_uuid (delete "Type" sample_row) "project"
        init_world).1
     = inl (KeyError "Type").
Proof. split; vm_compute; reflexivity. Qed.

(** C7, amended: on a record that carries every column the mapping reads,
    the payload builder of either script returns a payload, and every
    mapped cell that is missing (None, NaN, NaT) is the empty string
    there, every other one its text. *)
Theorem create_payload_coerces_missing (uuid4_text : nat -> string)
    (row : Series) (project : string) (w : world) :
  (complete COLUMNS_V1 row ->
   exists payload w',
     Main.create_payload uuid4_text row project w = (inr payload, w')
     /\ forall c v, c ∈ COLUMNS_V1 -> row !! c = Some v ->
          (c, if pd.isna v then "" else pd.str v) ∈ answers payload)
  /\ (complete COLUMNS_V2 row ->
      exists payload w',
        MainV2.create_payload uuid4_text row project w = (inr payload, w')
        /\ forall c v, c ∈ COLUMNS_V2 -> row !! c = Some v ->
             (c, if pd.isna v then "" else pd.str v) ∈ answers payload).
Proof.
  split; intros Hc; eexists _, _.
  - rewrite create_payload_v1_complete by done. split; [reflexivity|].
    intros c v. apply mapped_answer.
  - rewrite create_payload_v2_complete by done. split; [reflexivity|].
    intros c v. apply mapped_answer.
Qed.

Lemma create_payload_coerces_missing_witness :
  (exists payload w',
     Main.create_payload serial_uuid sample_row "project" init_world
     = (inr payload, w')
     /\ forall c v, c ∈ COLUMNS_V1 -> sample_row !! c = Some v ->
          (c, if pd.isna v then "" else pd.str v) ∈ answers payload)
  /\ (exists payload w',
        MainV2.create_payload serial_uuid sample_row "project" init_world
        = (inr payload, w')
        /\ forall c v, c ∈ COLUMNS_V2 -> sample_row !! c = Some v ->
             (c, if pd.isna v then "" else pd.str v) ∈ answers payload).
Proof.
  split.
  - apply (proj1 (create_payload_coerces_missing serial_uuid sample_row
                    "project" init_world)).
    apply (bool_decide_unpack _). vm_compute. exact I.
  - apply (proj2 (create_payload_coerces_missing serial_uuid sample_row
                    "project" init_world)).
    apply (bool_decide_unpack _). vm_compute. exact I.
Defined.

(** C8: two calls of the payload builder on the same record and project
    identifier, at any two states of the process and even with different
    sources of identifiers, either both raise the same [KeyError] or
    return payloads equal in every field but [meta.instanceID]. *)
Theorem create_payload_repeatable (text1 text2 : nat -> string)
    (row : Series) (project : string) (w1 w2 : world) :
  match (Main.create_payload text1 row project w1).1,
        (Main.create_payload text2 row project w2).1 with
  | inr p1, inr p2 => without_instanceID p1 = without_instanceID p2
  | inl e1, inl e2 => e1 = e2
  | _, _ => False
  end
  /\ match (MainV2.create_payload text1 row project w1).1,
           (MainV2.create_payload text2 row project w2).1 with
     | inr p1, inr p2 => without_instanceID p1 = without_instanceID p2
     | inl e1, inl e2 => e1 = e2
     | _, _ => False
     end.
Proof.
  split.
  - destruct (create_payload_v1_cases row project)
      as [[_ H]|(c & _ & _ & H)]; by rewrite !H.
  - destruct (create_payload_v2_cases row project)
      as [[_ H]|(c & _ & _ & H)]; by rewrite !H.
Qed.

(** *** A batch *)

Lemma wire_app build endpoint hdrs project text u rows1 rows2 ks1 ks2 :
  length ks1 = length rows1 ->
  wire build endpoint hdrs project text u (rows1 ++ rows2) (ks1 ++ ks2)
  = wire build endpoint hdrs project text u rows1 ks1
    ++ wire build endpoint hdrs project text (u + length rows1) rows2 ks2.
Proof.
  revert u ks1. induction rows1 as [|row rows1 IH]; intros u [|k ks1] Hlen;
    try done.
  - cbn. by rewrite Nat.add_0_r.
  - cbn [app wire length]. rewrite IH by (cbn in Hlen; lia).
    rewrite <- app_assoc. do 3 f_equal. lia.
Qed.

Lemma for_each_record_outcome_v1 (l : list Future) (w : world) :
  exists w', for_each l Main.record_outcome w = (inr tt, w')
             /\ extends w w' 0 [] (map (outcome_of Main.delivered) l) [].
Proof.
  revert w. induction l as [|f l IH]; intros w.
  - exists w. split; [done|apply extends_refl].
  - destruct (record_outcome_v1 f w) as (w1 & Hrec & Hext1).
    destruct (IH w1) as (w2 & Hrest & Hext2).
    exists w2. cbn [for_each]. rewrite (bind_inr _ _ _ _ _ Hrec). split; [done|].
    apply (extends_trans _ _ _ _ _ _ _ _ _ _ _ Hext1 Hext2).
Qed.

Lemma for_each_record_outcome_v2 (l : list Future) (w : world) :
  exists w', for_each l MainV2.record_outcome w = (inr tt, w')
             /\ extends w w' 0 [] (map (outcome_of MainV2.delivered) l) [].
Proof. apply for_each_record_outcome_v1. Qed.

Section Batch.

Variable uuid4_text : nat -> string.
Variable server : Request -> nat -> reply.
Variable as_completed : list Future -> list Future.

(** The futures of a batch of [mainv2.py] whose rows carry the mapped
    columns. *)
Lemma futures_v2 (batch_df : DataFrame) (endpoint : string)
    (hdrs : list (string * string)) (project : string) (w : world) :
  Forall (complete COLUMNS_V2) batch_df ->
  exists futures ks w',
    comprehension batch_df (fun row =>
      payload <~ MainV2.create_payload uuid4_text row project ;;
      MainV2.send_request_with_retry server endpoint hdrs payload 3 (3 # 10)%Q) w
    = (inr futures, w')
    /\ length futures = length batch_df
    /\ length ks = length batch_df
    /\ Forall (fun k => (k <= 3)%nat) ks
    /\ extends w w' (length batch_df)
         (wire payload_v2 endpoint hdrs project uuid4_text (uuid_next w)
               batch_df ks) [] [].
Proof.
  intros Hall. revert w. induction Hall as [|row rows Hrow Hrows IH]; intros w.
  - exists [], [], w. repeat split; try done; cbn; by rewrite ?Nat.add_0_r, ?app_nil_r.
  - cbn [comprehension].
    pose proof (create_payload_v2_complete row project uuid4_text w Hrow) as Hp.
    set (w1 := mkWorld (S (uuid_next w)) (sent w) (log w) (slept w)) in *.
    destruct (send_v2_returns server endpoint hdrs
                (payload_v2 row project (uuid4_text (uuid_next w))) 3 (3 # 10)%Q w1)
      as (fut & k & w2 & Hk & Hsend & Hext).
    destruct (IH w2) as (futs & ks & w3 & Hcomp & Hlf & Hlk & Hks & Hext').
    exists (fut :: futs), (k :: ks), w3.
    rewrite (bind_inr _ _ _ _ _
               (eq_trans (bind_inr _ _ _ _ _ Hp) Hsend)).
    rewrite (bind_inr _ _ _ _ _ Hcomp).
    split; [done|]. split; [cbn; lia|]. split; [cbn; lia|].
    split; [by constructor|].
    destruct Hext as [E1 E2 E3 E4], Hext' as [E1' E2' E3' E4'].
    cbn in E1, E2, E3, E4. split; cbn [length wire].
    + rewrite E1', E1. lia.
    + rewrite E2', E2, E1, Nat.add_0_r, <- app_assoc. done.
    + rewrite E3', E3, !app_nil_r. done.
    + rewrite E4', E4, !app_nil_r. done.
Qed.

(** The futures of a batch of [main.py]. *)
Lemma futures_v1 (batch_df : DataFrame) (config : Config) (endpoint : string)
    (hdrs : list (string * string)) (project : string) (w : world) :
  project_uuid config = Some project ->
  Forall (complete COLUMNS_V1) batch_df ->
  exists future_to_row ks w',
    comprehension batch_df (fun row =>
      project <~ getitem "project_uuid" (project_uuid config) ;;
      payload <~ Main.create_payload uuid4_text row project ;;
      future <~ Main.send_request_with_retry server endpoint hdrs payload 3 (3 # 10)%Q ;;
      ret (future, row)) w
    = (inr future_to_row, w')
    /\ map snd future_to_row = batch_df
    /\ length ks = length batch_df
    /\ Forall (fun k => (k <= 3)%nat) ks
    /\ extends w w' (length batch_df)
         (wire payload_v1 endpoint hdrs project uuid4_text (uuid_next w)
               batch_df ks) [] [].
Proof.
  intros Hproj Hall. rewrite Hproj. cbn [getitem].
  revert w. induction Hall as [|row rows Hrow Hrows IH]; intros w.
  - exists [], [], w. repeat split; try done; cbn; by rewrite ?Nat.add_0_r, ?app_nil_r.
  - cbn [comprehension].
    pose proof (create_payload_v1_complete row project uuid4_text w Hrow) as Hp.
    set (w1 := mkWorld (S (uuid_next w)) (sent w) (log w) (slept w)) in *.
    destruct (send_v1_returns server endpoint hdrs
                (payload_v1 row project (uuid4_text (uuid_next w))) 3 (3 # 10)%Q w1)
      as (fut & k & w2 & Hk & Hsend & Hext).
    destruct (IH w2) as (futs & ks & w3 & Hcomp & Hlf & Hlk & Hks & Hext').
    exists ((fut, row) :: futs), (k :: ks), w3.
    assert ((project0 <~ ret project ;;
             payload <~ Main.create_payload uuid4_text row project0 ;;
             future <~ Main.send_request_with_retry server endpoint hdrs payload 3 (3 # 10)%Q ;;
             ret (future, row)) w = (inr (fut, row), w2)) as Hbody.
    { rewrite (bind_inr _ _ _ _ _ (eq_refl : ret project w = (inr project, w))).
      rewrite (bind_inr _ _ _ _ _ Hp), (bind_inr _ _ _ _ _ Hsend). done. }
    rewrite (bind_inr _ _ _ _ _ Hbody), (bind_inr _ _ _ _ _ Hcomp).
    split; [done|]. split; [cbn; by f_equal|]. split; [cbn; lia|].
    split; [by constructor|].
    destruct Hext as [E1 E2 E3 E4], Hext' as [E1' E2' E3' E4'].
    cbn in E1, E2, E3, E4. split; cbn [length wire].
    + rewrite E1', E1. lia.
    + rewrite E2', E2, E1, Nat.add_0_r, <- app_assoc. done.
    + rewrite E3', E3, !app_nil_r. done.
    + rewrite E4', E4, !app_nil_r. done.
Qed.

End Batch.

Section Dispatch.

Variable uuid4_text : nat -> string.
Variable server : Request -> nat -> reply.
Variable as_completed : list Future -> list Future.
Hypothesis as_completed_perm : forall l, as_completed l ≡ₚ l.

(** [process_batch] of [mainv2.py] on rows that carry the mapped
    columns: it returns, with one outcome recorded per row. *)
Lemma process_batch_v2_spec (batch_df : DataFrame) (endpoint : string)
    (hdrs : list (string * string)) (project : string) (max_workers : Z)
    (w : world) :
  0 < max_workers ->
  Forall (complete COLUMNS_V2) batch_df ->
  exists futures ks w',
    MainV2.process_batch uuid4_text server as_completed batch_df endpoint
                         hdrs project max_workers w = (inr tt, w')
    /\ length futures = length batch_df
    /\ length ks = length batch_df
    /\ extends w w' (length batch_df)
         (wire payload_v2 endpoint hdrs project uuid4_text (uuid_next w)
               batch_df ks)
         (map (outcome_of MainV2.delivered) (as_completed futures)) [].
Proof.
  intros Hmw Hall. unfold MainV2.process_batch, ThreadPoolExecutor.
  replace (max_workers <=? 0) with false by (symmetry; apply Z.leb_gt; lia).
  rewrite (bind_inr _ _ _ _ _ (eq_refl : ret tt w = (inr tt, w))).
  destruct (futures_v2 uuid4_text server batch_df endpoint hdrs project w Hall)
    as (futures & ks & w1 & Hcomp & Hlf & Hlk & _ & Hext).
  rewrite (bind_inr _ _ _ _ _ Hcomp).
  destruct (for_each_record_outcome_v2 (as_completed futures) w1)
    as (w2 & Hloop & Hext').
  exists futures, ks, w2. split; [done|]. split; [done|]. split; [done|].
  pose proof (extends_trans _ _ _ _ _ _ _ _ _ _ _ Hext Hext') as Ht.
  by rewrite Nat.add_0_r, !app_nil_r in Ht.
Qed.

Lemma process_batch_v1_spec (batch_df : DataFrame) (config : Config)
    (endpoint : string) (hdrs : list (string * string)) (project : string)
    (max_workers : Z) (w : world) :
  concurrency_level config = Some max_workers ->
  0 < max_workers ->
  project_uuid config = Some project ->
  Forall (complete COLUMNS_V1) batch_df ->
  exists futures ks w',
    Main.process_batch uuid4_text server as_completed batch_df config
                       endpoint hdrs w = (inr tt, w')
    /\ length futures = length batch_df
    /\ length ks = length batch_df
    /\ extends w w' (length batch_df)
         (wire payload_v1 endpoint hdrs project uuid4_text (uuid_next w)
               batch_df ks)
         (map (outcome_of Main.delivered) (as_completed futures)) [].
Proof.
  intros Hcl Hmw Hproj Hall. unfold Main.process_batch, ThreadPoolExecutor.
  rewrite Hcl. cbn [getitem].
  rewrite (bind_inr _ _ _ _ _ (eq_refl : ret max_workers w = (inr max_workers, w))).
  replace (max_workers <=? 0) with false by (symmetry; apply Z.leb_gt; lia).
  rewrite (bind_inr _ _ _ _ _ (eq_refl : ret tt w = (inr tt, w))).
  destruct (futures_v1 uuid4_text server batch_df config endpoint hdrs project w
              Hproj Hall)
    as (ftr & ks & w1 & Hcomp & Hrows & Hlk & _ & Hext).
  rewrite (bind_inr _ _ _ _ _ Hcomp).
  destruct (for_each_record_outcome_v1 (as_completed (map fst ftr)) w1)
    as (w2 & Hloop & Hext').
  exists (map fst ftr), ks, w2. split; [done|].
  split; [by rewrite <- Hrows, !length_map|]. split; [done|].
  pose proof (extends_trans _ _ _ _ _ _ _ _ _ _ _ Hext Hext') as Ht.
  by rewrite Nat.add_0_r, !app_nil_r in Ht.
Qed.

(** The loop of [main] over the batches, for a body that behaves as
    [process_batch] does on complete rows. *)
Lemma batch_loop (build : Series -> string -> string -> Payload)
    (body : DataFrame -> M unit) (hdrs : list (string * string))
    (project : string) (pause : Z) (bs : list DataFrame) (w : world) :
  0 <= pause ->
  (forall batch_df w0, batch_df ∈ bs ->
     exists outs ks w',
       body batch_df w0 = (inr tt, w')
       /\ length outs = length batch_df
       /\ length ks = length batch_df
       /\ extends w0 w' (length batch_df)
            (wire build ENDPOINT hdrs project uuid4_text (uuid_next w0)
                  batch_df ks) outs []) ->
  exists outs ks w',
    for_each bs (fun batch_df => body batch_df ;;; time_sleep pause) w
    = (inr tt, w')
    /\ length outs = length (concat bs)
    /\ length ks = length (concat bs)
    /\ extends w w' (length (concat bs))
         (wire build ENDPOINT hdrs project uuid4_text (uuid_next w)
               (concat bs) ks)
         outs (replicate (length bs) pause).
Proof.
  intros Hpause. revert w. induction bs as [|b bs IH]; intros w Hbody.
  - exists [], [], w. split; [done|]. split; [done|]. split; [done|].
    apply extends_refl.
  - destruct (Hbody b w ltac:(left)) as (outs1 & ks1 & w1 & Hb & Hlo & Hlk & Hext1).
    set (w1' := mkWorld (uuid_next w1) (sent w1) (log w1) (slept w1 ++ [pause])).
    assert ((body b ;;; time_sleep pause) w = (inr tt, w1')) as Hstep.
    { rewrite (bind_inr _ _ _ _ _ Hb). unfold time_sleep.
      by replace (pause <? 0) with false by (symmetry; apply Z.ltb_ge; lia). }
    destruct (IH w1') as (outs2 & ks2 & w2 & Hrest & Hlo2 & Hlk2 & Hext2).
    { intros b' w0 Hin. apply Hbody. by right. }
    exists (outs1 ++ outs2), (ks1 ++ ks2), w2.
    cbn [for_each]. rewrite (bind_inr _ _ _ _ _ Hstep).
    split; [done|]. cbn [concat]. rewrite !length_app.
    split; [lia|]. split; [lia|].
    destruct Hext1 as [E1 E2 E3 E4], Hext2 as [E1' E2' E3' E4'].
    subst w1'. cbn [uuid_next sent log slept] in E1', E2', E3', E4'.
    rewrite wire_app by done. split.
    + rewrite E1', E1. lia.
    + rewrite E2', E2, E1, <- app_assoc. done.
    + rewrite E3', E3, <- app_assoc. done.
    + rewrite E4', E4, <- !app_assoc. done.
Qed.

End Dispatch.

(** *** A whole run *)

Lemma batches_Forall {A : Type} (P : A -> Prop) (records : list A) (B : Z)
    (batch : list A) :
  Forall P records -> batch ∈ groups_of records B -> Forall P batch.
Proof.
  intros Hall Hin. rewrite <- (batches_permutation records B) in Hall.
  apply Forall_concat in Hall. by eapply Forall_forall in Hall.
Qed.

Lemma bind_ret {A B : Type} (a : A) (k : A -> M B) (w : world) :
  bind (ret a) k w = k a w.
Proof. reflexivity. Qed.

Lemma bind_raise {A B : Type} (e : exn) (k : A -> M B) (w : world) :
  bind (raise e) k w = (inl e, w).
Proof. reflexivity. Qed.

Section Runs.

Variable uuid4_text : nat -> string.
Variable server : Request -> nat -> reply.
Variable as_completed : list Future -> list Future.
Hypothesis as_completed_perm : forall l, as_completed l ≡ₚ l.

Lemma main_v1_spec (h : Host) (config : Config) (df_root : DataFrame)
    (size : Z) (project token : string) (w : world) :
  setup_v1 h config df_root size project token ->
  Forall (complete COLUMNS_V1) df_root ->
  exists ks w',
    Main.main uuid4_text server as_completed h w = (inr tt, w')
    /\ length (outcomes (log w')) = length df_root
    /\ length ks = length df_root
    /\ uuid_next w' = (uuid_next w + length df_root)%nat
    /\ sent w' = sent w
         ++ wire payload_v1 ENDPOINT
              [("Authorization", "Token " +:+ token);
               ("Content-Type", "application/json")]
              project uuid4_text (uuid_next w)
              (concat (groups_of df_root size)) ks
    /\ slept w' = slept w
         ++ replicate (length (groups_of df_root size))
                      (default 5 (dynamic_sleep_interval config)).
Proof.
  intros (Hcfg & (path & Hpath & Hbook) & Htok & Hne & Hsize & Hfits
          & (workers & Hworkers & Hpos) & Hproj & Hpause) Hall.
  unfold Main.main.
  set (w0 := mkWorld (uuid_next w) (sent w) [] (slept w)).
  rewrite (bind_inr configure_logging _ w w0 tt eq_refl).
  unfold load_config at 1. rewrite Hcfg, bind_ret.
  rewrite Hpath. cbn [getitem]. rewrite bind_ret.
  unfold read_excel at 1. rewrite Hbook, bind_ret.
  unfold Main.get_api_token. rewrite Htok.
  destruct token as [|c token]; [done|]. rewrite bind_ret.
  rewrite Hsize. cbn [getitem]. rewrite bind_ret.
  rewrite (batches_fits df_root size Hfits). change (lift (inr ?x)) with (ret x).
  rewrite bind_ret.
  set (hdrs := [("Authorization", "Token " +:+ String c token);
                ("Content-Type", "application/json")]).
  destruct (batch_loop uuid4_text payload_v1
              (fun batch_df => Main.process_batch uuid4_text server as_completed
                                 batch_df config ENDPOINT hdrs)
              hdrs project (default 5 (dynamic_sleep_interval config))
              (groups_of df_root size) w0 Hpause)
    as (outs & ks & w' & Hloop & Hlo & Hlk & [E1 E2 E3 E4]).
  { intros batch_df w1 Hin.
    destruct (process_batch_v1_spec uuid4_text server as_completed batch_df
                config ENDPOINT hdrs project workers w1 Hworkers Hpos Hproj
                (batches_Forall _ _ _ _ Hall Hin))
      as (futures & ks & w2 & Hrun & Hlf & Hlk & Hext).
    eexists _, ks, w2. split; [done|]. split; [|done].
    by rewrite length_map, as_completed_perm. }
  assert (length (concat (groups_of df_root size)) = length df_root) as Hcount
    by (by rewrite batches_permutation).
  exists ks, w'. split; [done|]. rewrite Hcount in *.
  cbn [uuid_next sent log slept] in E1, E2, E3, E4.
  split; [by rewrite E3|]. done.
Qed.

Lemma main_v2_spec (h : Host) (config : Config) (df_root : DataFrame)
    (size : Z) (project : string) (w : world) :
  setup_v2 h config df_root size project ->
  Forall (complete COLUMNS_V2) df_root ->
  exists ks w',
    MainV2.main uuid4_text server as_completed h w = (inr tt, w')
    /\ length (outcomes (log w')) = length df_root
    /\ length ks = length df_root
    /\ uuid_next w' = (uuid_next w + length df_root)%nat
    /\ sent w' = sent w
         ++ wire payload_v2 ENDPOINT (MainV2.get_headers (MainV2.API_TOKEN h))
              project uuid4_text (uuid_next w)
              (concat (groups_of df_root size)) ks
    /\ slept w' = slept w
         ++ replicate (length (groups_of df_root size))
                      (default 5 (dynamic_sleep_interval config)).
Proof.
  intros (Hcfg & (path & Hpath & Hbook) & Hsize & Hfits & Hpos & Hproj & Hpause)
    Hall.
  unfold MainV2.main.
  set (w0 := mkWorld (uuid_next w) (sent w) [] (slept w)).
  rewrite (bind_inr configure_logging _ w w0 tt eq_refl).
  unfold load_config at 1. rewrite Hcfg, bind_ret.
  rewrite Hproj. cbn [getitem]. rewrite bind_ret.
  rewrite Hpath. cbn [getitem]. rewrite bind_ret.
  unfold read_excel at 1. rewrite Hbook, bind_ret.
  rewrite Hsize. cbn [getitem]. rewrite bind_ret.
  rewrite (batches_fits df_root size Hfits). change (lift (inr ?x)) with (ret x).
  rewrite bind_ret.
  set (hdrs := MainV2.get_headers (MainV2.API_TOKEN h)).
  destruct (batch_loop uuid4_text payload_v2
              (fun batch_df => MainV2.process_batch uuid4_text server as_completed
                                 batch_df ENDPOINT hdrs project
                                 (default 5 (concurrency_level config)))
              hdrs project (default 5 (dynamic_sleep_interval config))
              (groups_of df_root size) w0 Hpause)
    as (outs & ks & w' & Hloop & Hlo & Hlk & [E1 E2 E3 E4]).
  { intros batch_df w1 Hin.
    destruct (process_batch_v2_spec uuid4_text server as_completed batch_df
                ENDPOINT hdrs project _ w1 Hpos
                (batches_Forall _ _ _ _ Hall Hin))
      as (futures & ks & w2 & Hrun & Hlf & Hlk & Hext).
    eexists _, ks, w2. split; [done|]. split; [|done].
    by rewrite length_map, as_completed_perm. }
  assert (length (concat (groups_of df_root size)) = length df_root) as Hcount
    by (by rewrite batches_permutation).
  exists ks, w'. split; [done|]. rewrite Hcount in *.
  cbn [uuid_next sent log slept] in E1, E2, E3, E4.
  split; [by rewrite E3|]. done.
Qed.

End Runs.

Lemma in_order_perm (l : list Future) : in_order l ≡ₚ l.
Proof. done. Qed.

Lemma sample_setup_v1 (size : Z) (df_root : DataFrame) :
  np.INT64_MIN <= size <= np.INT64_MAX ->
  setup_v1 (sample_host size df_root) (sample_config size) df_root size
           "project" "secret".
Proof.
  intros Hfits.
  split; [done|]. split; [by exists "data.xlsx"|]. split; [done|].
  split; [done|]. split; [done|]. split; [done|]. split; [by exists 5|]. done.
Qed.

Lemma sample_setup_v2 (size : Z) (df_root : DataFrame) :
  np.INT64_MIN <= size <= np.INT64_MAX ->
  setup_v2 (sample_host size df_root) (sample_config size) df_root size "project".
Proof.
  intros Hfits.
  split; [done|]. split; [by exists "data.xlsx"|]. split; [done|]. done.
Qed.

Lemma fits_int64 (size : Z) :
  -1000 <= size <= 1000 -> np.INT64_MIN <= size <= np.INT64_MAX.
Proof. unfold np.INT64_MIN, np.INT64_MAX. lia. Qed.

Lemma sample_frame_complete :
  Forall (complete COLUMNS_V1) sample_frame
  /\ Forall (complete COLUMNS_V2) sample_frame.
Proof.
  split; repeat constructor; apply (bool_decide_unpack _); vm_compute; exact I.
Qed.




(** *** Instance identifiers *)

(** C1, as stated, fails: the payload of a record is built once, before
    the request is handed to the retrying session, so the four attempts
    made for a record against an endpoint that always answers 500 all
    carry the same [meta.instanceID]. *)
Lemma retries_repeat_instance_id :
  let run := Main.process_batch serial_uuid always_500 in_order [sample_row]
               (sample_config 5) ENDPOINT [] init_world in
  let run2 := MainV2.process_batch serial_uuid always_500 in_order [sample_row]
                ENDPOINT [] "project" 5 init_world in
  map (fun r => instanceID (json r)) (sent run.2)
  = ["uuid:0"; "uuid:0"; "uuid:0"; "uuid:0"]
  /\ map (fun r => instanceID (json r)) (sent run2.2)
     = ["uuid:0"; "uuid:0"; "uuid:0"; "uuid:0"].
Proof. vm_compute. split; reflexivity. Qed.

Lemma wire_instance_ids build endpoint hdrs project text u rows ks r :
  (forall row p t, instanceID (build row p t) = "uuid:" +:+ t) ->
  r ∈ wire build endpoint hdrs project text u rows ks ->
  exists (i : nat) row,
    rows !! i = Some row
    /\ r = mkRequest endpoint hdrs (build row project (text (u + i)%nat))
    /\ instanceID (json r) = "uuid:" +:+ text (u + i)%nat.
Proof.
  intros Hid. revert u ks. induction rows as [|row rows IH]; intros u [|k ks] Hin;
    try by apply elem_of_nil in Hin.
  cbn [wire] in Hin. apply elem_of_app in Hin as [Hin|Hin].
  - apply elem_of_replicate in Hin as [-> _].
    exists 0%nat, row. rewrite Nat.add_0_r. cbn. by rewrite Hid.
  - destruct (IH _ _ Hin) as (i & row' & Hrow & -> & Hinst).
    exists (S i), row'. replace (u + S i)%nat with (S u + i)%nat by lia. done.
Qed.

(** C1, amended: each record gets one fresh instance identifier, drawn
    when its payload is built, before dispatch.  The requests a batch
    puts on the wire are, record by record, one or more copies of that
    one request: every attempt for a record, first or retried,
    carries the record's [meta.instanceID], and the identifiers of
    different records differ as long as [uuid4] does not repeat. *)
Theorem instance_id_per_record (uuid4_text : nat -> string)
    (server : Request -> nat -> reply)
    (as_completed : list Future -> list Future) :
  (forall i j, uuid4_text i = uuid4_text j -> i = j) ->
  (forall batch_df config endpoint hdrs project workers w,
     concurrency_level config = Some workers -> 0 < workers ->
     project_uuid config = Some project ->
     Forall (complete COLUMNS_V1) batch_df ->
     exists ks w',
       Main.process_batch uuid4_text server as_completed batch_df config
                          endpoint hdrs w = (inr tt, w')
       /\ length ks = length batch_df
       /\ sent w' = sent w
            ++ wire payload_v1 endpoint hdrs project uuid4_text (uuid_next w)
                    batch_df ks)
  /\ (forall batch_df endpoint hdrs project workers w,
        0 < workers ->
        Forall (complete COLUMNS_V2) batch_df ->
        exists ks w',
          MainV2.process_batch uuid4_text server as_completed batch_df
                               endpoint hdrs project workers w = (inr tt, w')
          /\ length ks = length batch_df
          /\ sent w' = sent w
               ++ wire payload_v2 endpoint hdrs project uuid4_text (uuid_next w)
                       batch_df ks)
  /\ (forall row row' project project' i j,
        i <> j ->
        instanceID (payload_v1 row project (uuid4_text i))
        <> instanceID (payload_v1 row' project' (uuid4_text j))
        /\ instanceID (payload_v2 row project (uuid4_text i))
           <> instanceID (payload_v2 row' project' (uuid4_text j))).
Proof.
  intros Hfresh. split; [|split].
  - intros batch_df config endpoint hdrs project workers w Hcl Hpos Hproj Hall.
    destruct (process_batch_v1_spec uuid4_text server as_completed batch_df
                config endpoint hdrs project workers w Hcl Hpos Hproj Hall)
      as (futures & ks & w' & Hrun & _ & Hlk & [_ E2 _ _]).
    by exists ks, w'.
  - intros batch_df endpoint hdrs project workers w Hpos Hall.
    destruct (process_batch_v2_spec uuid4_text server as_completed batch_df
                endpoint hdrs project workers w Hpos Hall)
      as (futures & ks & w' & Hrun & _ & Hlk & [_ E2 _ _]).
    by exists ks, w'.
  - intros row row' project project' i j Hij.
    split; intros Heq; apply Hij, Hfresh; cbn in Heq; by simplify_eq.
Qed.

Lemma instance_id_per_record_witness :
  (forall i j, serial_uuid i = serial_uuid j -> i = j)
  /\ (exists ks w',
        Main.process_batch serial_uuid always_500 in_order sample_frame
                           (sample_config 5) ENDPOINT [] init_world = (inr tt, w')
        /\ length ks = length sample_frame
        /\ sent w' = sent init_world
             ++ wire payload_v1 ENDPOINT [] "project" serial_uuid
                     (uuid_next init_world) sample_frame ks).
Proof.
  assert (forall i j, serial_uuid i = serial_uuid j -> i = j) as Hinj
    by (intros i j; apply (inj pretty)).
  split; [exact Hinj|].
  apply (proj1 (instance_id_per_record serial_uuid always_500 in_order Hinj)
           sample_frame (sample_config 5) ENDPOINT [] "project" 5 init_world);
    [reflexivity|lia|reflexivity|apply sample_frame_complete].
Defined.

(** *** Batch sizes below one *)

Lemma unique_sorted_zeros (n : nat) : pd.unique_sorted (replicate (S n) 0) = [0].
Proof.
  induction n as [|n IH]; [done|].
  change (replicate (S (S n)) 0) with (0 :: replicate (S n) 0).
  unfold pd.unique_sorted. cbn [foldr].
  fold (pd.unique_sorted (replicate (S n) 0)). by rewrite IH.
Qed.

Lemma batches_count {A : Type} (records : list A) (B : Z) :
  1 <= B -> Z.of_nat (length (groups_of records B)) = ceil_div (length records) B.
Proof.
  intros HB. rewrite batches_windows, length_map, length_seq by done.
  apply Z2Nat.id. unfold ceil_div. apply Z.div_pos; lia.
Qed.

Lemma filter_all {A : Type} (P : A -> Prop) `{forall x, Decision (P x)}
    (l : list A) :
  Forall P l -> filter P l = l.
Proof.
  induction 1 as [|x l Hx _ IH]; [done|].
  by rewrite filter_cons_True, IH.
Qed.

(** A batch size of zero: numpy's floor division gives the key 0 to every
    row, so the loop sees one batch with all the records. *)
Lemma batches_zero_all {A : Type} (records : list A) :
  records <> [] -> groups_of records 0 = [records].
Proof.
  intros Hne. unfold groups_of, pd.groupby, np.arange.
  assert (map (fun i => i / 0) (map Z.of_nat (seq 0 (length records)))
          = replicate (length records) 0) as ->.
  { rewrite map_map. generalize (length records), 0%nat.
    induction n as [|n IH]; intros s; [done|].
    cbn [seq map replicate]. by rewrite Z.div_0_r, IH. }
  destruct records as [|r records]; [done|]. cbn [length].
  rewrite unique_sorted_zeros. cbn [map snd]. f_equal.
  rewrite filter_all.
  - apply snd_zip. by rewrite length_replicate.
  - apply Forall_forall. intros [k x] Hin.
    apply elem_of_zip_l, elem_of_replicate in Hin. by destruct Hin.
Qed.

(** C6, as stated, fails: with a batch size of 0 or of -2 the run raises
    no error at all and submits every record. *)
Lemma run_accepts_batch_size_below_one :
  let run0 := Main.main serial_uuid always_201 in_order
                (sample_host 0 sample_frame) init_world in
  let run_neg := MainV2.main serial_uuid always_201 in_order
                   (sample_host (-2) sample_frame) init_world in
  run0.1 = inr tt /\ length (sent run0.2) = 3%nat
  /\ run_neg.1 = inr tt /\ length (sent run_neg.2) = 3%nat.
Proof. vm_compute. repeat split; reflexivity. Qed.

(** C6, amended: the scheduler does not check the batch size.  For every
    integer batch size that numpy takes as an int64, below one or not,
    no configuration error is raised: the loop header gives batches that
    hold every record once, and a run that passes the rest of setup goes
    through them and builds and submits one payload per record.  A
    batch size of zero gives a single batch with all the records; a
    batch size of at least one gives ceil(N/B) batches. *)
Theorem batch_size_unchecked (uuid4_text : nat -> string)
    (server : Request -> nat -> reply)
    (as_completed : list Future -> list Future) :
  (forall l, as_completed l ≡ₚ l) ->
  (forall h config df_root size project token w,
     setup_v1 h config df_root size project token ->
     Forall (complete COLUMNS_V1) df_root ->
     exists bs w',
       batches df_root size = inr bs
       /\ concat bs ≡ₚ df_root
       /\ Main.main uuid4_text server as_completed h w = (inr tt, w')
       /\ uuid_next w' = (uuid_next w + length df_root)%nat
       /\ (length df_root <= length (sent w') - length (sent w))%nat)
  /\ (forall h config df_root size project w,
        setup_v2 h config df_root size project ->
        Forall (complete COLUMNS_V2) df_root ->
        exists bs w',
          batches df_root size = inr bs
          /\ concat bs ≡ₚ df_root
          /\ MainV2.main uuid4_text server as_completed h w = (inr tt, w')
          /\ uuid_next w' = (uuid_next w + length df_root)%nat
          /\ (length df_root <= length (sent w') - length (sent w))%nat)
  /\ (forall (df_root : DataFrame),
        df_root <> [] -> batches df_root 0 = inr [df_root])
  /\ (forall (df_root : DataFrame) size,
        1 <= size <= np.INT64_MAX ->
        exists bs,
          batches df_root size = inr bs
          /\ Z.of_nat (length bs) = ceil_div (length df_root) size).
Proof.
  assert (forall build endpoint hdrs project text u rows ks,
            length ks = length rows ->
            (length rows <= length (wire build endpoint hdrs project text u rows ks))%nat)
    as Hwire.
  { intros build endpoint hdrs project text u rows.
    revert u. induction rows as [|row rows IH]; intros u [|k ks] Hlen;
      try done; cbn [wire length]. rewrite length_app, length_replicate.
    specialize (IH (S u) ks ltac:(cbn in Hlen; lia)). cbn [length]. lia. }
  intros Hperm. split; [|split; [|split]].
  - intros h config df_root size project token w Hsetup Hall.
    destruct (main_v1_spec uuid4_text server as_completed Hperm h config df_root
                size project token w Hsetup Hall)
      as (ks & w' & Hrun & _ & Hlk & Hu & Hsent & _).
    exists (groups_of df_root size), w'.
    split; [apply batches_fits, Hsetup|]. split; [apply batches_permutation|].
    split; [done|]. split; [done|].
    rewrite Hsent, length_app.
    pose proof (Hwire payload_v1 ENDPOINT
                  [("Authorization", "Token " +:+ token);
                   ("Content-Type", "application/json")]
                  project uuid4_text (uuid_next w)
                  (concat (groups_of df_root size)) ks) as Hw.
    rewrite batches_permutation in Hw at 1 2. specialize (Hw Hlk). lia.
  - intros h config df_root size project w Hsetup Hall.
    destruct (main_v2_spec uuid4_text server as_completed Hperm h config df_root
                size project w Hsetup Hall)
      as (ks & w' & Hrun & _ & Hlk & Hu & Hsent & _).
    exists (groups_of df_root size), w'.
    split; [apply batches_fits, Hsetup|]. split; [apply batches_permutation|].
    split; [done|]. split; [done|].
    rewrite Hsent, length_app.
    pose proof (Hwire payload_v2 ENDPOINT (MainV2.get_headers (MainV2.API_TOKEN h))
                  project uuid4_text (uuid_next w)
                  (concat (groups_of df_root size)) ks) as Hw.
    rewrite batches_permutation in Hw at 1 2. specialize (Hw Hlk). lia.
  - intros df_root Hne. rewrite batches_fits by done. f_equal.
    by apply batches_zero_all.
  - intros df_root size [Hsize Hmax]. exists (groups_of df_root size).
    split; [apply batches_fits; unfold np.INT64_MIN; lia|].
    by apply batches_count.
Qed.

Lemma batch_size_unchecked_witness :
  (forall l, in_order l ≡ₚ l)
  /\ (exists bs w',
        batches sample_frame 0 = inr bs
        /\ concat bs ≡ₚ sample_frame
        /\ Main.main serial_uuid always_201 in_order
                     (sample_host 0 sample_frame) init_world = (inr tt, w')
        /\ uuid_next w' = (uuid_next init_world + length sample_frame)%nat
        /\ (length sample_frame <= length (sent w') - length (sent init_world))%nat).
Proof.
  split; [exact in_order_perm|].
  apply (proj1 (batch_size_unchecked serial_uuid always_201 in_order in_order_perm)
           (sample_host 0 sample_frame) (sample_config 0) sample_frame 0
           "project" "secret" init_world
           (sample_setup_v1 0 sample_frame (fits_int64 0 ltac:(lia)))).
  apply sample_frame_complete.
Defined.

(** *** Credentials *)

(** [main.py]: a lookup key that is absent from the token mapping, or
    mapped to an empty token, ends the run with [ValueError] once the
    workbook is read, before anything is sent. *)
Lemma main_v1_unknown_token (uuid4_text : nat -> string)
    (server : Request -> nat -> reply)
    (as_completed : list Future -> list Future)
    (h : Host) (config : Config) (path : string) (df_root : DataFrame)
    (w : world) :
  config_json h = Some config ->
  parent_data_path config = Some path ->
  workbooks h !! path = Some df_root ->
  default ∅ (api_token_map config) !! "unhcr_prod" = None
  \/ default ∅ (api_token_map config) !! "unhcr_prod" = Some "" ->
  exists w',
    Main.main uuid4_text server as_completed h w
    = (inl (ValueError "Unknown user value: unhcr_prod"), w')
    /\ sent w' = sent w.
Proof.
  intros Hcfg Hpath Hbook Htok. unfold Main.main.
  set (w0 := mkWorld (uuid_next w) (sent w) [] (slept w)).
  rewrite (bind_inr configure_logging _ w w0 tt eq_refl).
  unfold load_config at 1. rewrite Hcfg, bind_ret.
  rewrite Hpath. cbn [getitem]. rewrite bind_ret.
  unfold read_excel at 1. rewrite Hbook, bind_ret.
  unfold Main.get_api_token. eexists.
  destruct Htok as [-> | ->]; split; reflexivity.
Qed.

(** C9 at the failing input: with [API_TOKEN] unset, [mainv2.py] does not
    stop; it completes and posts the record with the header
    [Authorization: Token None]. *)
Theorem main_v2_sends_without_token :
  let run := MainV2.main serial_uuid always_201 in_order host_without_token
               init_world in
  MainV2.API_TOKEN host_without_token = None
  /\ run.1 = inr tt
  /\ map headers (sent run.2)
     = [[("Authorization", "Token None"); ("Content-Type", "application/json")]]
  /\ outcomes (log run.2) = [Success].
Proof. vm_compute. repeat split; reflexivity. Qed.

(** *** Two runs side by side *)

Lemma sim_ret {A B : Type} (R : A -> B -> Prop) (a : A) (b : B) :
  R a b -> sim R (ret a) (ret b).
Proof. intros HR w1 w2 Hs. by split. Qed.

Lemma sim_raise {A B : Type} (R : A -> B -> Prop) (e : exn) :
  sim R (raise e) (raise e).
Proof. intros w1 w2 Hs. by split. Qed.

Lemma sim_bind {A B C D : Type} (R : A -> B -> Prop) (S : C -> D -> Prop)
    (m1 : M A) (m2 : M B) (k1 : A -> M C) (k2 : B -> M D) :
  sim R m1 m2 ->
  (forall a b, R a b -> sim S (k1 a) (k2 b)) ->
  sim S (bind m1 k1) (bind m2 k2).
Proof.
  intros Hm Hk w1 w2 Hs. specialize (Hm w1 w2 Hs). unfold bind.
  destruct (m1 w1) as [[e1|a] w1'], (m2 w2) as [[e2|b] w2'];
    destruct Hm as [Hs' HR]; cbn in *; try done.
  by apply Hk.
Qed.

Lemma sim_lift {A : Type} (r : exn + A) : sim eq (lift r) (lift r).
Proof. intros w1 w2 Hs. split; [done|]. by destruct r. Qed.

Lemma sim_getitem {A : Type} (name : string) (v : option A) :
  sim eq (getitem name v) (getitem name v).
Proof. destruct v; [by apply sim_ret | apply sim_raise]. Qed.

Lemma sim_weaken {A B : Type} (R S : A -> B -> Prop) (m1 : M A) (m2 : M B) :
  (forall a b, R a b -> S a b) -> sim R m1 m2 -> sim S m1 m2.
Proof.
  intros HRS Hm w1 w2 Hs. destruct (Hm w1 w2 Hs) as [Hs' HR]. split; [done|].
  destruct (m1 w1).1, (m2 w2).1; auto.
Qed.

Lemma sim_for_each {A B : Type} (R : A -> B -> Prop) (l1 : list A) (l2 : list B)
    (f : A -> M unit) (g : B -> M unit) :
  Forall2 R l1 l2 ->
  (forall a b, R a b -> sim any (f a) (g b)) ->
  sim any (for_each l1 f) (for_each l2 g).
Proof.
  intros Hl Hfg. induction Hl as [|a b l1 l2 Hab _ IH]; cbn [for_each].
  - by apply sim_ret.
  - eapply sim_bind; [by apply Hfg|]. intros _ _ _. exact IH.
Qed.

Lemma sim_comprehension {A B C : Type} (R : B -> C -> Prop) (l : list A)
    (f : A -> M B) (g : A -> M C) :
  (forall a, sim R (f a) (g a)) ->
  sim (Forall2 R) (comprehension l f) (comprehension l g).
Proof.
  intros Hfg. induction l as [|a l IH]; cbn [comprehension].
  - apply sim_ret. constructor.
  - eapply sim_bind; [apply Hfg|]. intros b c Hbc.
    eapply sim_bind; [apply IH|]. intros bs cs Hbs.
    apply sim_ret. by constructor.
Qed.

Lemma extends_shape (w w' : world) (d : nat) (reqs : list Request)
    (outs : list Outcome) (naps : list Z) :
  extends w w' d reqs outs naps ->
  shape w' = ((uuid_next w + d)%nat,
              (length (outcomes (log w)) + length outs)%nat,
              slept w ++ naps).
Proof. intros [E1 E2 E3 E4]. unfold shape. by rewrite E1, E3, E4, length_app. Qed.

Lemma shape_inv (w1 w2 : world) :
  shape w1 = shape w2 ->
  uuid_next w1 = uuid_next w2
  /\ length (outcomes (log w1)) = length (outcomes (log w2))
  /\ slept w1 = slept w2.
Proof. unfold shape. intros [= -> -> ->]. done. Qed.

Lemma sim_send_v1 (s1 s2 : Request -> nat -> reply) endpoint hdrs p1 p2 mr bf :
  sim any (Main.send_request_with_retry s1 endpoint hdrs p1 mr bf)
          (Main.send_request_with_retry s2 endpoint hdrs p2 mr bf).
Proof.
  intros w1 w2 Hs.
  destruct (send_v1_returns s1 endpoint hdrs p1 mr bf w1)
    as (f1 & k1 & w1' & _ & -> & Hext1).
  destruct (send_v1_returns s2 endpoint hdrs p2 mr bf w2)
    as (f2 & k2 & w2' & _ & -> & Hext2).
  split; [|done]. cbn. apply shape_inv in Hs as (Hu & Hl & Hz).
  rewrite (extends_shape _ _ _ _ _ _ Hext1), (extends_shape _ _ _ _ _ _ Hext2).
  by rewrite Hu, Hl, Hz.
Qed.

Lemma sim_send_v2 (s1 s2 : Request -> nat -> reply) endpoint hdrs p1 p2 mr bf :
  sim any (MainV2.send_request_with_retry s1 endpoint hdrs p1 mr bf)
          (MainV2.send_request_with_retry s2 endpoint hdrs p2 mr bf).
Proof.
  intros w1 w2 Hs.
  destruct (send_v2_returns s1 endpoint hdrs p1 mr bf w1)
    as (f1 & k1 & w1' & _ & -> & Hext1).
  destruct (send_v2_returns s2 endpoint hdrs p2 mr bf w2)
    as (f2 & k2 & w2' & _ & -> & Hext2).
  split; [|done]. cbn. apply shape_inv in Hs as (Hu & Hl & Hz).
  rewrite (extends_shape _ _ _ _ _ _ Hext1), (extends_shape _ _ _ _ _ _ Hext2).
  by rewrite Hu, Hl, Hz.
Qed.

Lemma sim_record_outcome_v1 (f1 f2 : Future) :
  sim any (Main.record_outcome f1) (Main.record_outcome f2).
Proof.
  intros w1 w2 Hs.
  destruct (record_outcome_v1 f1 w1) as (w1' & -> & Hext1).
  destruct (record_outcome_v1 f2 w2) as (w2' & -> & Hext2).
  split; [|done]. cbn. apply shape_inv in Hs as (Hu & Hl & Hz).
  rewrite (extends_shape _ _ _ _ _ _ Hext1), (extends_shape _ _ _ _ _ _ Hext2).
  by rewrite Hu, Hl, Hz.
Qed.

Lemma sim_create_payload_v1 (text : nat -> string) (row : Series) (project : string) :
  sim any (Main.create_payload text row project)
          (Main.create_payload text row project).
Proof.
  intros w1 w2 Hs. apply shape_inv in Hs as (Hu & Hl & Hz).
  destruct (create_payload_v1_cases row project)
    as [[_ H]|(c & _ & _ & H)]; rewrite !H; (split; [|done]);
    unfold shape; cbn [fst snd uuid_next log slept]; by rewrite Hu, Hl, Hz.
Qed.

Lemma sim_create_payload_v2 (text : nat -> string) (row : Series) (project : string) :
  sim any (MainV2.create_payload text row project)
          (MainV2.create_payload text row project).
Proof.
  intros w1 w2 Hs. apply shape_inv in Hs as (Hu & Hl & Hz).
  destruct (create_payload_v2_cases row project)
    as [[_ H]|(c & _ & _ & H)]; rewrite !H; (split; [|done]);
    unfold shape; cbn [fst snd uuid_next log slept]; by rewrite Hu, Hl, Hz.
Qed.

Lemma sim_time_sleep (secs : Z) : sim any (time_sleep secs) (time_sleep secs).
Proof.
  intros w1 w2 Hs. apply shape_inv in Hs as (Hu & Hl & Hz).
  unfold time_sleep. destruct (secs <? 0); (split; [|done]);
    unfold shape; cbn [fst snd uuid_next log slept]; by rewrite Hu, Hl, Hz.
Qed.

Lemma sim_ThreadPoolExecutor (n : Z) :
  sim any (ThreadPoolExecutor n) (ThreadPoolExecutor n).
Proof.
  unfold ThreadPoolExecutor. destruct (n <=? 0); [apply sim_raise|by apply sim_ret].
Qed.

Lemma sim_configure_logging : sim any configure_logging configure_logging.
Proof.
  intros w1 w2 Hs. apply shape_inv in Hs as (Hu & Hl & Hz).
  split; [|done]. unfold shape. cbn. by rewrite Hu, Hz.
Qed.

Lemma sim_load_config (h : Host) (file : string) :
  sim eq (load_config h file) (load_config h file).
Proof.
  unfold load_config. destruct (config_json h); [by apply sim_ret|apply sim_raise].
Qed.

Lemma sim_read_excel (h : Host) (path : string) :
  sim eq (read_excel h path) (read_excel h path).
Proof.
  unfold read_excel. destruct (workbooks h !! path); [by apply sim_ret|apply sim_raise].
Qed.

Lemma sim_get_api_token (config : Config) (user_value : string) :
  sim eq (Main.get_api_token config user_value)
         (Main.get_api_token config user_value).
Proof.
  assert (sim eq (logging_error ("Unknown user value: " +:+ user_value) ;;;
                  raise (A := string)
                        (ValueError ("Unknown user value: " +:+ user_value)))
                 (logging_error ("Unknown user value: " +:+ user_value) ;;;
                  raise (ValueError ("Unknown user value: " +:+ user_value))))
    as Hunknown.
  { intros w1 w2 Hs. apply shape_inv in Hs as (Hu & Hl & Hz).
    split; [|done]. unfold shape. cbn [bind logging_error raise fst snd
                                        uuid_next log slept].
    rewrite !outcomes_app. cbn. by rewrite !app_nil_r, Hu, Hl, Hz. }
  unfold Main.get_api_token.
  destruct (default ∅ (api_token_map config) !! user_value) as [[|c s]|];
    [done| by apply sim_ret | done].
Qed.

Lemma Forall2_any {A B : Type} (l1 : list A) (l2 : list B) :
  length l1 = length l2 -> Forall2 any l1 l2.
Proof. by apply Forall2_true. Qed.

Section SideBySide.

Variable uuid4_text : nat -> string.
Variables s1 s2 : Request -> nat -> reply.
Variables ac1 ac2 : list Future -> list Future.
Hypothesis ac1_perm : forall l, ac1 l ≡ₚ l.
Hypothesis ac2_perm : forall l, ac2 l ≡ₚ l.

Lemma completed_alike (l1 l2 : list Future) :
  length l1 = length l2 -> Forall2 any (ac1 l1) (ac2 l2).
Proof. intros Hlen. apply Forall2_any. by rewrite ac1_perm, ac2_perm. Qed.

Lemma sim_process_batch_v1 (batch_df : DataFrame) (config : Config)
    (endpoint : string) (hdrs : list (string * string)) :
  sim any (Main.process_batch uuid4_text s1 ac1 batch_df config endpoint hdrs)
          (Main.process_batch uuid4_text s2 ac2 batch_df config endpoint hdrs).
Proof.
  unfold Main.process_batch.
  eapply sim_bind; [apply sim_getitem|]. intros workers _ <-.
  eapply sim_bind; [apply sim_ThreadPoolExecutor|]. intros _ _ _.
  eapply sim_bind.
  - apply (sim_comprehension any). intros row.
    eapply sim_bind; [apply sim_getitem|]. intros project _ <-.
    eapply sim_bind; [apply sim_create_payload_v1|]. intros p1 p2 _.
    eapply sim_bind; [apply sim_send_v1|]. intros f1 f2 _.
    by apply sim_ret.
  - intros ftr1 ftr2 Hftr.
    apply (sim_for_each any); [|intros; apply sim_record_outcome_v1].
    apply completed_alike. rewrite !length_map.
    by eapply Forall2_length.
Qed.

Lemma sim_process_batch_v2 (batch_df : DataFrame) (endpoint : string)
    (hdrs : list (string * string)) (project : string) (workers : Z) :
  sim any (MainV2.process_batch uuid4_text s1 ac1 batch_df endpoint hdrs
                                project workers)
          (MainV2.process_batch uuid4_text s2 ac2 batch_df endpoint hdrs
                                project workers).
Proof.
  unfold MainV2.process_batch.
  eapply sim_bind; [apply sim_ThreadPoolExecutor|]. intros _ _ _.
  eapply sim_bind.
  - apply (sim_comprehension any). intros row.
    eapply sim_bind; [apply sim_create_payload_v2|]. intros p1 p2 _.
    apply sim_send_v2.
  - intros f1 f2 Hf.
    apply (sim_for_each any); [|intros; apply sim_record_outcome_v1].
    apply completed_alike. by eapply Forall2_length.
Qed.

Lemma sim_main_v1 (h : Host) :
  sim any (Main.main uuid4_text s1 ac1 h) (Main.main uuid4_text s2 ac2 h).
Proof.
  unfold Main.main.
  eapply sim_bind; [apply sim_configure_logging|]. intros _ _ _.
  eapply sim_bind; [apply sim_load_config|]. intros config _ <-.
  eapply sim_bind; [apply sim_getitem|]. intros path _ <-.
  eapply sim_bind; [apply sim_read_excel|]. intros df_root _ <-.
  eapply sim_bind; [apply sim_get_api_token|]. intros token _ <-.
  eapply sim_bind; [apply sim_getitem|]. intros size _ <-.
  eapply sim_bind; [apply sim_lift|]. intros groups _ <-.
  apply (sim_for_each eq); [by apply Forall_Forall2_diag, Forall_true|].
  intros batch_df _ <-.
  eapply sim_bind; [apply sim_process_batch_v1|]. intros _ _ _.
  apply sim_time_sleep.
Qed.

Lemma sim_main_v2 (h : Host) :
  sim any (MainV2.main uuid4_text s1 ac1 h) (MainV2.main uuid4_text s2 ac2 h).
Proof.
  unfold MainV2.main.
  eapply sim_bind; [apply sim_configure_logging|]. intros _ _ _.
  eapply sim_bind; [apply sim_load_config|]. intros config _ <-.
  eapply sim_bind; [apply sim_getitem|]. intros project _ <-.
  eapply sim_bind; [apply sim_getitem|]. intros path _ <-.
  eapply sim_bind; [apply sim_read_excel|]. intros df_root _ <-.
  eapply sim_bind; [apply sim_getitem|]. intros size _ <-.
  eapply sim_bind; [apply sim_lift|]. intros groups _ <-.
  apply (sim_for_each eq); [by apply Forall_Forall2_diag, Forall_true|].
  intros batch_df _ <-.
  eapply sim_bind; [apply sim_process_batch_v2|]. intros _ _ _.
  apply sim_time_sleep.
Qed.

End SideBySide.

(** *** Classification *)

Lemma delivered_verdict (response : Response) :
  outcome_of Main.delivered (Some response) = verdict (inr response).
Proof.
  unfold outcome_of, Main.delivered, requests.ok, verdict.
  destruct (Z.eqb_spec (status_code response) 201) as [->|Hne]; [done|].
  by rewrite andb_false_r.
Qed.

Section Classification.

Variable server : Request -> nat -> reply.

Lemma send_v1_verdict endpoint hdrs payload max_retries bf w res w0 :
  requests.post server (POLICY max_retries bf) endpoint hdrs payload w
  = (inr res, w0) ->
  exists f w1,
    Main.send_request_with_retry server endpoint hdrs payload max_retries bf w
    = (inr f, w1)
    /\ outcome_of Main.delivered f = verdict res
    /\ sent w1 = sent w0 /\ uuid_next w1 = uuid_next w0.
Proof.
  intros Hpost. rewrite (send_v1_post _ _ _ _ _ _ _ _ _ Hpost).
  destruct res as [e|response]; eexists _, _; (split; [reflexivity|]).
  - done.
  - split; [apply delivered_verdict|done].
Qed.

Lemma send_v2_verdict endpoint hdrs payload max_retries bf w res w0 :
  requests.post server (POLICY max_retries bf) endpoint hdrs payload w
  = (inr res, w0) ->
  exists f w1,
    MainV2.send_request_with_retry server endpoint hdrs payload max_retries bf w
    = (inr f, w1)
    /\ outcome_of MainV2.delivered f = verdict res
    /\ sent w1 = sent w0 /\ uuid_next w1 = uuid_next w0.
Proof.
  intros Hpost. rewrite (send_v2_post _ _ _ _ _ _ _ _ _ Hpost).
  destruct res as [e|response].
  - eexists _, _. split; [reflexivity|]. done.
  - destruct ((400 <=? status_code response) && (status_code response <? 600))
      eqn:Herr; eexists _, _; (split; [reflexivity|]).
    + split; [|done]. unfold verdict.
      destruct (Z.eqb_spec (status_code response) 201) as [H201|]; [|done].
      rewrite H201 in Herr. done.
    + split; [apply delivered_verdict|done].
Qed.

End Classification.

(** C10: whatever a request ends in (a response of any status, a retry
    budget used up, a transport failure), [send_request_with_retry] and
    the success test of [process_batch] give the same Success or Failure
    in [main.py], which hands the raw response on, and in [mainv2.py],
    which calls [raise_for_status] first; the two also put the same
    requests on the wire and write the same outcome line. *)
Theorem variants_classify_alike (server : Request -> nat -> reply)
    (endpoint : string) (hdrs : list (string * string)) (payload : Payload)
    (max_retries : nat) (bf : Q) (w : world) :
  exists f1 w1 f2 w2,
    Main.send_request_with_retry server endpoint hdrs payload max_retries bf w
    = (inr f1, w1)
    /\ MainV2.send_request_with_retry server endpoint hdrs payload max_retries bf w
       = (inr f2, w2)
    /\ outcome_of Main.delivered f1 = outcome_of MainV2.delivered f2
    /\ sent w1 = sent w2
    /\ outcomes (log (Main.record_outcome f1 w1).2)
       = outcomes (log (MainV2.record_outcome f2 w2).2).
Proof.
  destruct (post_returns server (POLICY max_retries bf) endpoint hdrs payload w)
    as (res & k & ws & _ & _ & Hpost).
  destruct (send_v1_verdict server _ _ _ _ _ _ _ _ Hpost)
    as (f1 & w1 & Hs1 & Hv1 & Hsent1 & _).
  destruct (send_v2_verdict server _ _ _ _ _ _ _ _ Hpost)
    as (f2 & w2 & Hs2 & Hv2 & Hsent2 & _).
  exists f1, w1, f2, w2. split; [done|]. split; [done|].
  split; [by rewrite Hv1, Hv2|]. split; [by rewrite Hsent1, Hsent2|].
  destruct (record_outcome_v1 f1 w1) as (w1' & -> & [_ _ E1 _]).
  destruct (record_outcome_v2 f2 w2) as (w2' & -> & [_ _ E2 _]).
  cbn [snd]. rewrite E1, E2, Hv1, Hv2. f_equal.
  pose proof (send_v1_returns server endpoint hdrs payload max_retries bf w)
    as (f1' & k1 & w1'' & _ & Hs1' & [_ _ L1 _]).
  pose proof (send_v2_returns server endpoint hdrs payload max_retries bf w)
    as (f2' & k2 & w2'' & _ & Hs2' & [_ _ L2 _]).
  rewrite Hs1 in Hs1'. rewrite Hs2 in Hs2'.
  injection Hs1' as <- <-. injection Hs2' as <- <-.
  by rewrite L1, L2.
Qed.

(** ** Runs described submission by submission *)

Lemma requests_of_cons build endpoint hdrs project text u row rows :
  requests_of build endpoint hdrs project text u (row :: rows)
  = mkRequest endpoint hdrs (build row project (text u))
    :: requests_of build endpoint hdrs project text (S u) rows.
Proof.
  unfold requests_of. cbn [imap]. rewrite Nat.add_0_r. f_equal.
  apply imap_ext. intros i x _. cbn. do 3 f_equal. lia.
Qed.

Lemma requests_of_app build endpoint hdrs project text u rows1 rows2 :
  requests_of build endpoint hdrs project text u (rows1 ++ rows2)
  = requests_of build endpoint hdrs project text u rows1
    ++ requests_of build endpoint hdrs project text (u + length rows1) rows2.
Proof.
  unfold requests_of. rewrite imap_app. f_equal.
  apply imap_ext. intros i x _. cbn. do 3 f_equal. lia.
Qed.

Lemma length_requests_of build endpoint hdrs project text u rows :
  length (requests_of build endpoint hdrs project text u rows) = length rows.
Proof. apply length_imap. Qed.

Section Each.

Variable uuid4_text : nat -> string.
Variable server : Request -> nat -> reply.
Variable as_completed : list Future -> list Future.
Hypothesis as_completed_perm : forall l, as_completed l ≡ₚ l.

(** What is known of every submission: [Sub req k f] relates the request
    submitted, the number [k] of retries it took and the future [f] it
    left. *)
Variable Sub : Request -> nat -> Future -> Prop.

Lemma comprehension_each {X : Type} (body : Series -> M X) (fut : X -> Future)
    (build : Series -> string -> string -> Payload) (columns : list string)
    (endpoint : string) (hdrs : list (string * string)) (project : string)
    (batch_df : DataFrame) (w : world) :
  (forall row w0, complete columns row ->
     exists x k w1,
       body row w0 = (inr x, w1)
       /\ Sub (mkRequest endpoint hdrs
                 (build row project (uuid4_text (uuid_next w0)))) k (fut x)
       /\ extends w0 w1 1
            (replicate (S k)
               (mkRequest endpoint hdrs
                          (build row project (uuid4_text (uuid_next w0)))))
            [] []) ->
  Forall (complete columns) batch_df ->
  exists xs ks w',
    comprehension batch_df body w = (inr xs, w')
    /\ length xs = length batch_df
    /\ Forall3 Sub
         (requests_of build endpoint hdrs project uuid4_text (uuid_next w) batch_df)
         ks (map fut xs)
    /\ extends w w' (length batch_df)
         (wire build endpoint hdrs project uuid4_text (uuid_next w) batch_df ks)
         [] [].
Proof.
  intros Hbody Hall. revert w.
  induction Hall as [|row rows Hrow Hrows IH]; intros w.
  - exists [], [], w. split; [done|]. split; [done|]. split; [constructor|].
    apply extends_refl.
  - destruct (Hbody row w Hrow) as (x & k & w1 & Hx & Hsub & [E1 E2 E3 E4]).
    destruct (IH w1) as (xs & ks & w2 & Hxs & Hlen & Hsubs & [E1' E2' E3' E4']).
    exists (x :: xs), (k :: ks), w2. cbn [comprehension].
    rewrite (bind_inr _ _ _ _ _ Hx), (bind_inr _ _ _ _ _ Hxs).
    split; [done|]. split; [cbn; lia|]. split.
    { rewrite requests_of_cons. cbn [map]. constructor; [done|].
      by rewrite E1, Nat.add_1_r in Hsubs. }
    split; cbn [length wire].
    + rewrite E1', E1. lia.
    + rewrite E2', E2, E1, Nat.add_1_r, <- app_assoc. done.
    + rewrite E3', E3, !app_nil_r. done.
    + rewrite E4', E4, !app_nil_r. done.
Qed.

Lemma process_batch_v1_each (batch_df : DataFrame) (config : Config)
    (endpoint : string) (hdrs : list (string * string)) (project : string)
    (workers : Z) (w : world) :
  (forall payload w0, exists fut k w1,
     Main.send_request_with_retry server endpoint hdrs payload 3 (3 # 10)%Q w0
     = (inr fut, w1)
     /\ Sub (mkRequest endpoint hdrs payload) k fut
     /\ extends w0 w1 0 (replicate (S k) (mkRequest endpoint hdrs payload)) [] []) ->
  concurrency_level config = Some workers -> 0 < workers ->
  project_uuid config = Some project ->
  Forall (complete COLUMNS_V1) batch_df ->
  exists futures ks w',
    Main.process_batch uuid4_text server as_completed batch_df config
                       endpoint hdrs w = (inr tt, w')
    /\ Forall3 Sub
         (requests_of payload_v1 endpoint hdrs project uuid4_text (uuid_next w)
                      batch_df)
         ks futures
    /\ length futures = length batch_df
    /\ extends w w' (length batch_df)
         (wire payload_v1 endpoint hdrs project uuid4_text (uuid_next w)
               batch_df ks)
         (map (outcome_of Main.delivered) (as_completed futures)) [].
Proof.
  intros Hsend Hcl Hpos Hproj Hall. unfold Main.process_batch, ThreadPoolExecutor.
  rewrite Hcl. cbn [getitem]. rewrite bind_ret.
  replace (workers <=? 0) with false by (symmetry; apply Z.leb_gt; lia).
  rewrite bind_ret.
  destruct (comprehension_each
              (fun row =>
                 project <~ getitem "project_uuid" (project_uuid config) ;;
                 payload <~ Main.create_payload uuid4_text row project ;;
                 future <~ Main.send_request_with_retry server endpoint hdrs
                             payload 3 (3 # 10)%Q ;;
                 ret (future, row))
              fst payload_v1 COLUMNS_V1 endpoint hdrs project batch_df w)
    as (ftr & ks & w1 & Hcomp & Hlen & Hsubs & Hext); [|done|].
  { intros row w0 Hrow. rewrite Hproj. cbn [getitem]. rewrite bind_ret.
    rewrite (bind_inr _ _ _ _ _
               (create_payload_v1_complete row project uuid4_text w0 Hrow)).
    destruct (Hsend (payload_v1 row project (uuid4_text (uuid_next w0)))
                (mkWorld (S (uuid_next w0)) (sent w0) (log w0) (slept w0)))
      as (fut & k & w1 & Hs & Hsub & [E1 E2 E3 E4]).
    exists (fut, row), k, w1. rewrite (bind_inr _ _ _ _ _ Hs).
    split; [done|]. split; [done|].
    cbn [uuid_next sent log slept] in E1, E2, E3, E4.
    split; [lia|done..]. }
  rewrite (bind_inr _ _ _ _ _ Hcomp).
  destruct (for_each_record_outcome_v1 (as_completed (map fst ftr)) w1)
    as (w2 & Hloop & Hext').
  exists (map fst ftr), ks, w2. split; [done|]. split; [done|].
  split; [by rewrite length_map|].
  pose proof (extends_trans _ _ _ _ _ _ _ _ _ _ _ Hext Hext') as Ht.
  by rewrite Nat.add_0_r, !app_nil_r in Ht.
Qed.

Lemma process_batch_v2_each (batch_df : DataFrame) (endpoint : string)
    (hdrs : list (string * string)) (project : string) (workers : Z) (w : world) :
  (forall payload w0, exists fut k w1,
     MainV2.send_request_with_retry server endpoint hdrs payload 3 (3 # 10)%Q w0
     = (inr fut, w1)
     /\ Sub (mkRequest endpoint hdrs payload) k fut
     /\ extends w0 w1 0 (replicate (S k) (mkRequest endpoint hdrs payload)) [] []) ->
  0 < workers ->
  Forall (complete COLUMNS_V2) batch_df ->
  exists futures ks w',
    MainV2.process_batch uuid4_text server as_completed batch_df endpoint hdrs
                         project workers w = (inr tt, w')
    /\ Forall3 Sub
         (requests_of payload_v2 endpoint hdrs project uuid4_text (uuid_next w)
                      batch_df)
         ks futures
    /\ length futures = length batch_df
    /\ extends w w' (length batch_df)
         (wire payload_v2 endpoint hdrs project uuid4_text (uuid_next w)
               batch_df ks)
         (map (outcome_of MainV2.delivered) (as_completed futures)) [].
Proof.
  intros Hsend Hpos Hall. unfold MainV2.process_batch, ThreadPoolExecutor.
  replace (workers <=? 0) with false by (symmetry; apply Z.leb_gt; lia).
  rewrite bind_ret.
  destruct (comprehension_each
              (fun row =>
                 payload <~ MainV2.create_payload uuid4_text row project ;;
                 MainV2.send_request_with_retry server endpoint hdrs
                   payload 3 (3 # 10)%Q)
              (fun f => f) payload_v2 COLUMNS_V2 endpoint hdrs project batch_df w)
    as (futs & ks & w1 & Hcomp & Hlen & Hsubs & Hext); [|done|].
  { intros row w0 Hrow.
    rewrite (bind_inr _ _ _ _ _
               (create_payload_v2_complete row project uuid4_text w0 Hrow)).
    destruct (Hsend (payload_v2 row project (uuid4_text (uuid_next w0)))
                (mkWorld (S (uuid_next w0)) (sent w0) (log w0) (slept w0)))
      as (fut & k & w1 & Hs & Hsub & [E1 E2 E3 E4]).
    exists fut, k, w1. split; [done|]. split; [done|].
    cbn [uuid_next sent log slept] in E1, E2, E3, E4.
    split; [lia|done..]. }
  rewrite (bind_inr _ _ _ _ _ Hcomp). rewrite map_id in Hsubs.
  destruct (for_each_record_outcome_v2 (as_completed futs) w1)
    as (w2 & Hloop & Hext').
  exists futs, ks, w2. split; [done|]. split; [done|]. split; [done|].
  pose proof (extends_trans _ _ _ _ _ _ _ _ _ _ _ Hext Hext') as Ht.
  by rewrite Nat.add_0_r, !app_nil_r in Ht.
Qed.

Lemma batch_loop_each (build : Series -> string -> string -> Payload)
    (delivered : Future -> bool) (body : DataFrame -> M unit)
    (hdrs : list (string * string)) (project : string) (pause : Z)
    (bs : list DataFrame) (w : world) :
  0 <= pause ->
  (forall batch_df w0, batch_df ∈ bs ->
     exists futures ks w',
       body batch_df w0 = (inr tt, w')
       /\ Forall3 Sub
            (requests_of build ENDPOINT hdrs project uuid4_text (uuid_next w0)
                         batch_df)
            ks futures
       /\ length futures = length batch_df
       /\ extends w0 w' (length batch_df)
            (wire build ENDPOINT hdrs project uuid4_text (uuid_next w0)
                  batch_df ks)
            (map (outcome_of delivered) (as_completed futures)) []) ->
  exists futures ks outs w',
    for_each bs (fun batch_df => body batch_df ;;; time_sleep pause) w
    = (inr tt, w')
    /\ Forall3 Sub
         (requests_of build ENDPOINT hdrs project uuid4_text (uuid_next w)
                      (concat bs))
         ks futures
    /\ length futures = length (concat bs)
    /\ outs ≡ₚ map (outcome_of delivered) futures
    /\ extends w w' (length (concat bs))
         (wire build ENDPOINT hdrs project uuid4_text (uuid_next w)
               (concat bs) ks)
         outs (replicate (length bs) pause).
Proof.
  intros Hpause. revert w. induction bs as [|b bs IH]; intros w Hbody.
  - exists [], [], [], w. split; [done|]. split; [constructor|].
    split; [done|]. split; [done|]. apply extends_refl.
  - destruct (Hbody b w ltac:(left)) as (futs1 & ks1 & w1 & Hb & Hsub1 & Hl1 & Hext1).
    set (w1' := mkWorld (uuid_next w1) (sent w1) (log w1) (slept w1 ++ [pause])).
    assert ((body b ;;; time_sleep pause) w = (inr tt, w1')) as Hstep.
    { rewrite (bind_inr _ _ _ _ _ Hb). unfold time_sleep.
      by replace (pause <? 0) with false by (symmetry; apply Z.ltb_ge; lia). }
    destruct (IH w1') as (futs2 & ks2 & outs2 & w2 & Hrest & Hsub2 & Hl2 & Hperm2 & Hext2).
    { intros b' w0 Hin. apply Hbody. by right. }
    exists (futs1 ++ futs2), (ks1 ++ ks2),
      (map (outcome_of delivered) (as_completed futs1) ++ outs2), w2.
    cbn [for_each]. rewrite (bind_inr _ _ _ _ _ Hstep).
    assert (length ks1 = length b) as Hk1.
    { rewrite <- (Forall3_length_lm _ _ _ _ Hsub1). apply length_requests_of. }
    destruct Hext1 as [E1 E2 E3 E4], Hext2 as [E1' E2' E3' E4'].
    subst w1'. cbn [uuid_next sent log slept] in E1', E2', E3', E4', Hsub2.
    split; [done|]. split.
    { cbn [concat]. rewrite requests_of_app. apply Forall3_app; [done|].
      by rewrite <- E1. }
    cbn [concat]. rewrite !length_app. split; [lia|].
    split; [by rewrite map_app, Hperm2, as_completed_perm|].
    rewrite wire_app by done. split.
    + rewrite E1', E1. lia.
    + rewrite E2', E2, E1, <- app_assoc. done.
    + rewrite E3', E3, <- app_assoc. done.
    + rewrite E4', E4, <- !app_assoc. done.
Qed.

End Each.

Section EachRun.

Variable uuid4_text : nat -> string.
Variable server : Request -> nat -> reply.
Variable as_completed : list Future -> list Future.
Hypothesis as_completed_perm : forall l, as_completed l ≡ₚ l.
Variable Sub : Request -> nat -> Future -> Prop.

Lemma main_v1_each (h : Host) (config : Config) (df_root : DataFrame)
    (size : Z) (project token : string) (w : world) :
  let hdrs := [("Authorization", "Token " +:+ token);
               ("Content-Type", "application/json")] in
  (forall payload w0, exists fut k w1,
     Main.send_request_with_retry server ENDPOINT hdrs payload 3 (3 # 10)%Q w0
     = (inr fut, w1)
     /\ Sub (mkRequest ENDPOINT hdrs payload) k fut
     /\ extends w0 w1 0 (replicate (S k) (mkRequest ENDPOINT hdrs payload)) [] []) ->
  setup_v1 h config df_root size project token ->
  Forall (complete COLUMNS_V1) df_root ->
  exists futures ks w',
    Main.main uuid4_text server as_completed h w = (inr tt, w')
    /\ Forall3 Sub
         (requests_of payload_v1 ENDPOINT hdrs project uuid4_text (uuid_next w)
                      (concat (groups_of df_root size)))
         ks futures
    /\ length futures = length df_root
    /\ outcomes (log w') ≡ₚ map (outcome_of Main.delivered) futures
    /\ uuid_next w' = (uuid_next w + length df_root)%nat
    /\ sent w' = sent w
         ++ wire payload_v1 ENDPOINT hdrs project uuid4_text (uuid_next w)
                 (concat (groups_of df_root size)) ks
    /\ slept w' = slept w
         ++ replicate (length (groups_of df_root size))
                      (default 5 (dynamic_sleep_interval config)).
Proof.
  intros hdrs Hsend
    (Hcfg & (path & Hpath & Hbook) & Htok & Hne & Hsize & Hfits
     & (workers & Hworkers & Hpos) & Hproj & Hpause) Hall.
  unfold Main.main.
  set (w0 := mkWorld (uuid_next w) (sent w) [] (slept w)).
  rewrite (bind_inr configure_logging _ w w0 tt eq_refl).
  unfold load_config at 1. rewrite Hcfg, bind_ret.
  rewrite Hpath. cbn [getitem]. rewrite bind_ret.
  unfold read_excel at 1. rewrite Hbook, bind_ret.
  unfold Main.get_api_token. rewrite Htok.
  destruct token as [|c token]; [done|]. rewrite bind_ret.
  rewrite Hsize. cbn [getitem]. rewrite bind_ret.
  rewrite (batches_fits df_root size Hfits). change (lift (inr ?x)) with (ret x).
  rewrite bind_ret.
  destruct (batch_loop_each uuid4_text as_completed as_completed_perm Sub
              payload_v1 Main.delivered
              (fun batch_df => Main.process_batch uuid4_text server as_completed
                                 batch_df config ENDPOINT hdrs)
              hdrs project (default 5 (dynamic_sleep_interval config))
              (groups_of df_root size) w0 Hpause)
    as (futures & ks & outs & w' & Hloop & Hsub & Hlen & Hperm & [E1 E2 E3 E4]).
  { intros batch_df w1 Hin.
    apply (process_batch_v1_each uuid4_text server as_completed Sub batch_df
             config ENDPOINT hdrs project workers w1 Hsend Hworkers Hpos Hproj
             (batches_Forall _ _ _ _ Hall Hin)). }
  assert (length (concat (groups_of df_root size)) = length df_root) as Hcount
    by (by rewrite batches_permutation).
  exists futures, ks, w'. split; [done|]. rewrite Hcount in *.
  cbn [uuid_next sent log slept] in E1, E2, E3, E4.
  split; [done|]. split; [done|]. split; [by rewrite E3|]. done.
Qed.

Lemma main_v2_each (h : Host) (config : Config) (df_root : DataFrame)
    (size : Z) (project : string) (w : world) :
  let hdrs := MainV2.get_headers (MainV2.API_TOKEN h) in
  (forall payload w0, exists fut k w1,
     MainV2.send_request_with_retry server ENDPOINT hdrs payload 3 (3 # 10)%Q w0
     = (inr fut, w1)
     /\ Sub (mkRequest ENDPOINT hdrs payload) k fut
     /\ extends w0 w1 0 (replicate (S k) (mkRequest ENDPOINT hdrs payload)) [] []) ->
  setup_v2 h config df_root size project ->
  Forall (complete COLUMNS_V2) df_root ->
  exists futures ks w',
    MainV2.main uuid4_text server as_completed h w = (inr tt, w')
    /\ Forall3 Sub
         (requests_of payload_v2 ENDPOINT hdrs project uuid4_text (uuid_next w)
                      (concat (groups_of df_root size)))
         ks futures
    /\ length futures = length df_root
    /\ outcomes (log w') ≡ₚ map (outcome_of MainV2.delivered) futures
    /\ uuid_next w' = (uuid_next w + length df_root)%nat
    /\ sent w' = sent w
         ++ wire payload_v2 ENDPOINT hdrs project uuid4_text (uuid_next w)
                 (concat (groups_of df_root size)) ks
    /\ slept w' = slept w
         ++ replicate (length (groups_of df_root size))
                      (default 5 (dynamic_sleep_interval config)).
Proof.
  intros hdrs Hsend
    (Hcfg & (path & Hpath & Hbook) & Hsize & Hfits & Hpos & Hproj & Hpause) Hall.
  unfold MainV2.main.
  set (w0 := mkWorld (uuid_next w) (sent w) [] (slept w)).
  rewrite (bind_inr configure_logging _ w w0 tt eq_refl).
  unfold load_config at 1. rewrite Hcfg, bind_ret.
  rewrite Hproj. cbn [getitem]. rewrite bind_ret.
  rewrite Hpath. cbn [getitem]. rewrite bind_ret.
  unfold read_excel at 1. rewrite Hbook, bind_ret.
  rewrite Hsize. cbn [getitem]. rewrite bind_ret.
  rewrite (batches_fits df_root size Hfits). change (lift (inr ?x)) with (ret x).
  rewrite bind_ret.
  destruct (batch_loop_each uuid4_text as_completed as_completed_perm Sub
              payload_v2 MainV2.delivered
              (fun batch_df => MainV2.process_batch uuid4_text server as_completed
                                 batch_df ENDPOINT hdrs project
                                 (default 5 (concurrency_level config)))
              hdrs project (default 5 (dynamic_sleep_interval config))
              (groups_of df_root size) w0 Hpause)
    as (futures & ks & outs & w' & Hloop & Hsub & Hlen & Hperm & [E1 E2 E3 E4]).
  { intros batch_df w1 Hin.
    apply (process_batch_v2_each uuid4_text server as_completed Sub batch_df
             ENDPOINT hdrs project _ w1 Hsend Hpos
             (batches_Forall _ _ _ _ Hall Hin)). }
  assert (length (concat (groups_of df_root size)) = length df_root) as Hcount
    by (by rewrite batches_permutation).
  exists futures, ks, w'. split; [done|]. rewrite Hcount in *.
  cbn [uuid_next sent log slept] in E1, E2, E3, E4.
  split; [done|]. split; [done|]. split; [by rewrite E3|]. done.
Qed.

End EachRun.

(** What is known of every submission of a run, whatever the request. *)
Lemma Forall3_any_request {A B C : Type} (P : B -> Prop) (Q : C -> Prop)
    (l : list A) (k : list B) (k' : list C) :
  Forall3 (fun _ b c => P b /\ Q c) l k k' ->
  Forall P k /\ Forall Q k' /\ length k = length k'.
Proof.
  induction 1 as [|a b c l k k' [Hb Hc] _ (IH1 & IH2 & IH3)].
  - by repeat split.
  - repeat split; [by constructor..|cbn; lia].
Qed.

(** *** The fate of a request *)

(** What [urlopen] returns does not depend on the state of the process. *)
Lemma urlopen_result (server : Request -> nat -> reply) (r : urllib3.Retry)
    (left : nat) (method : string) (req : Request) (n : nat) (w w' : world) :
  (urllib3.urlopen server r left method req n w).1
  = (urllib3.urlopen server r left method req n w').1.
Proof.
  revert n w w'. induction left as [|left IH]; intros n w w'.
  - rewrite (urlopen_unfold server r 0 method req n w),
      (urlopen_unfold server r 0 method req n w'). cbn zeta.
    destruct (server req n) as [resp|]; [|done].
    by destruct (urllib3.is_retry _ _ _ _ _).
  - rewrite (urlopen_unfold server r (S left) method req n w),
      (urlopen_unfold server r (S left) method req n w'). cbn zeta.
    destruct (server req n) as [resp|]; [|apply IH].
    destruct (urllib3.is_retry _ _ _ _ _); [apply IH|done].
Qed.

(** The outcome recorded for a request is its fate, in both scripts. *)
Lemma send_fate (server : Request -> nat -> reply) (endpoint : string)
    (hdrs : list (string * string)) (payload : Payload) (w : world) :
  exists f1 k1 w1 f2 k2 w2,
    Main.send_request_with_retry server endpoint hdrs payload 3 (3 # 10)%Q w
    = (inr f1, w1)
    /\ outcome_of Main.delivered f1 = fate server (mkRequest endpoint hdrs payload)
    /\ extends w w1 0 (replicate (S k1) (mkRequest endpoint hdrs payload)) [] []
    /\ MainV2.send_request_with_retry server endpoint hdrs payload 3 (3 # 10)%Q w
       = (inr f2, w2)
    /\ outcome_of MainV2.delivered f2 = fate server (mkRequest endpoint hdrs payload)
    /\ extends w w2 0 (replicate (S k2) (mkRequest endpoint hdrs payload)) [] [].
Proof.
  destruct (post_returns server (POLICY 3 (3 # 10)%Q) endpoint hdrs payload w)
    as (res & k & ws & _ & _ & Hpost).
  assert (fate server (mkRequest endpoint hdrs payload) = verdict res) as Hfate.
  { unfold fate. cbn [url headers json].
    assert ((requests.post server (POLICY 3 (3 # 10)%Q) endpoint hdrs payload
               init_world).1 = inr res) as ->; [|done].
    unfold requests.post in *.
    rewrite (urlopen_result _ _ _ _ _ _ init_world w). by rewrite Hpost. }
  destruct (send_v1_verdict server _ _ _ _ _ _ _ _ Hpost)
    as (f1 & w1 & Hs1 & Hv1 & _).
  destruct (send_v2_verdict server _ _ _ _ _ _ _ _ Hpost)
    as (f2 & w2 & Hs2 & Hv2 & _).
  destruct (send_v1_returns server endpoint hdrs payload 3 (3 # 10)%Q w)
    as (f1' & k1 & w1' & _ & Hs1' & Hext1).
  destruct (send_v2_returns server endpoint hdrs payload 3 (3 # 10)%Q w)
    as (f2' & k2 & w2' & _ & Hs2' & Hext2).
  rewrite Hs1 in Hs1'. rewrite Hs2 in Hs2'.
  injection Hs1' as <- <-. injection Hs2' as <- <-.
  exists f1, k1, w1, f2, k2, w2. rewrite Hfate.
  split; [done|]. split; [done|]. split; [done|]. split; [done|]. by split.
Qed.

Lemma Forall3_fates (server : Request -> nat -> reply)
    (delivered : Future -> bool) (reqs : list Request) (ks : list nat)
    (futures : list Future) :
  Forall3 (fun req _ f => outcome_of delivered f = fate server req)
          reqs ks futures ->
  map (outcome_of delivered) futures = map (fate server) reqs.
Proof. induction 1 as [|req k f reqs ks futs Hf _ IH]; [done|]. cbn. by f_equal. Qed.

(** C5: a single submission never raises, and its outcome is recorded:
    after [send_request_with_retry] and the success test, the log holds
    one more outcome, Success exactly when [session.post] ends in a
    response with status 201, Failure for every other terminal status,
    for a used-up retry budget and for a transport failure, in both
    scripts.  A run that passes setup over complete records goes
    through all of them however the endpoint fails (short of a
    redirect, which the model leaves out): it returns, an identifier
    has been drawn for every record, and the outcomes in the log are, up
    to the order of completion, the fates of the requests of the
    records, so every record whose request fails has its Failure
    recorded and the records after it are still submitted.  And
    failures stay per record on any host: whether a run ends in an
    exception, which one, how many records it gets through, how many
    outcomes it records and which pauses it takes are the same for any
    two ways the endpoint may answer. *)
Theorem failures_are_recorded (uuid4_text : nat -> string)
    (s1 s2 : Request -> nat -> reply)
    (ac1 ac2 : list Future -> list Future) :
  (forall l, ac1 l ≡ₚ l) ->
  (forall l, ac2 l ≡ₚ l) ->
  (forall endpoint hdrs payload max_retries bf w,
     exists res w0 f1 w1 w1' f2 w2 w2',
       requests.post s1 (POLICY max_retries bf) endpoint hdrs payload w
       = (inr res, w0)
       /\ Main.send_request_with_retry s1 endpoint hdrs payload max_retries bf w
          = (inr f1, w1)
       /\ Main.record_outcome f1 w1 = (inr tt, w1')
       /\ outcomes (log w1') = outcomes (log w) ++ [verdict res]
       /\ MainV2.send_request_with_retry s1 endpoint hdrs payload max_retries bf w
          = (inr f2, w2)
       /\ MainV2.record_outcome f2 w2 = (inr tt, w2')
       /\ outcomes (log w2') = outcomes (log w) ++ [verdict res])
  /\ (forall h config df_root size project token w,
        never_redirects s1 ->
        setup_v1 h config df_root size project token ->
        Forall (complete COLUMNS_V1) df_root ->
        exists bs w',
          batches df_root size = inr bs
          /\ Main.main uuid4_text s1 ac1 h w = (inr tt, w')
          /\ uuid_next w' = (uuid_next w + length df_root)%nat
          /\ outcomes (log w')
             ≡ₚ fate s1
                  <$> requests_of payload_v1 ENDPOINT
                        [("Authorization", "Token " +:+ token);
                         ("Content-Type", "application/json")]
                        project uuid4_text (uuid_next w) (concat bs))
  /\ (forall h config df_root size project w,
        never_redirects s1 ->
        setup_v2 h config df_root size project ->
        Forall (complete COLUMNS_V2) df_root ->
        exists bs w',
          batches df_root size = inr bs
          /\ MainV2.main uuid4_text s1 ac1 h w = (inr tt, w')
          /\ uuid_next w' = (uuid_next w + length df_root)%nat
          /\ outcomes (log w')
             ≡ₚ fate s1
                  <$> requests_of payload_v2 ENDPOINT
                        (MainV2.get_headers (MainV2.API_TOKEN h))
                        project uuid4_text (uuid_next w) (concat bs))
  /\ (forall h w,
        let run1 := Main.main uuid4_text s1 ac1 h w in
        let run2 := Main.main uuid4_text s2 ac2 h w in
        run1.1 = run2.1 /\ shape run1.2 = shape run2.2)
  /\ (forall h w,
        let run1 := MainV2.main uuid4_text s1 ac1 h w in
        let run2 := MainV2.main uuid4_text s2 ac2 h w in
        run1.1 = run2.1 /\ shape run1.2 = shape run2.2).
Proof.
  intros Hp1 Hp2. split; [|split; [|split; [|split]]].
  - intros endpoint hdrs payload max_retries bf w.
    destruct (post_returns s1 (POLICY max_retries bf) endpoint hdrs payload w)
      as (res & k & ws & _ & _ & Hpost).
    destruct (send_v1_verdict s1 _ _ _ _ _ _ _ _ Hpost) as (f1 & w1 & Hs1 & Hv1 & _).
    destruct (send_v2_verdict s1 _ _ _ _ _ _ _ _ Hpost) as (f2 & w2 & Hs2 & Hv2 & _).
    destruct (send_v1_returns s1 endpoint hdrs payload max_retries bf w)
      as (f1' & k1 & w1'' & _ & Hs1' & [_ _ L1 _]).
    destruct (send_v2_returns s1 endpoint hdrs payload max_retries bf w)
      as (f2' & k2 & w2'' & _ & Hs2' & [_ _ L2 _]).
    rewrite Hs1 in Hs1'. rewrite Hs2 in Hs2'.
    injection Hs1' as <- <-. injection Hs2' as <- <-.
    destruct (record_outcome_v1 f1 w1) as (w1' & Hr1 & [_ _ E1 _]).
    destruct (record_outcome_v2 f2 w2) as (w2' & Hr2 & [_ _ E2 _]).
    eexists res, _, f1, w1, w1', f2, w2, w2'.
    split; [exact Hpost|]. split; [done|]. split; [done|].
    split; [by rewrite E1, L1, app_nil_r, Hv1|].
    split; [done|]. split; [done|]. by rewrite E2, L2, app_nil_r, Hv2.
  - intros h config df_root size project token w _ Hsetup Hall.
    destruct (main_v1_each uuid4_text s1 ac1 Hp1
                (fun req _ f => outcome_of Main.delivered f = fate s1 req)
                h config df_root size project token w) as
      (futs & ks & w' & Hrun & Hsub & _ & Hout & Hu & _); [|done..|].
    { intros payload w0.
      destruct (send_fate s1 ENDPOINT
                  [("Authorization", "Token " +:+ token);
                   ("Content-Type", "application/json")] payload w0)
        as (f1 & k1 & w1 & _ & _ & _ & Hs & Hf & Hext & _).
      by exists f1, k1, w1. }
    exists (groups_of df_root size), w'.
    split; [apply batches_fits, Hsetup|]. split; [done|]. split; [done|].
    by rewrite Hout, (Forall3_fates _ _ _ _ _ Hsub).
  - intros h config df_root size project w _ Hsetup Hall.
    destruct (main_v2_each uuid4_text s1 ac1 Hp1
                (fun req _ f => outcome_of MainV2.delivered f = fate s1 req)
                h config df_root size project w) as
      (futs & ks & w' & Hrun & Hsub & _ & Hout & Hu & _); [|done..|].
    { intros payload w0.
      destruct (send_fate s1 ENDPOINT (MainV2.get_headers (MainV2.API_TOKEN h))
                  payload w0)
        as (f1 & k1 & w1 & f2 & k2 & w2 & _ & _ & _ & Hs & Hf & Hext).
      by exists f2, k2, w2. }
    exists (groups_of df_root size), w'.
    split; [apply batches_fits, Hsetup|]. split; [done|]. split; [done|].
    by rewrite Hout, (Forall3_fates _ _ _ _ _ Hsub).
  - intros h w run1 run2.
    destruct (sim_main_v1 uuid4_text s1 s2 ac1 ac2 Hp1 Hp2 h w w eq_refl)
      as [Hshape Hres].
    split; [|done]. subst run1 run2.
    destruct (Main.main uuid4_text s1 ac1 h w).1 as [e1|[]],
             (Main.main uuid4_text s2 ac2 h w).1 as [e2|[]]; by try subst.
  - intros h w run1 run2.
    destruct (sim_main_v2 uuid4_text s1 s2 ac1 ac2 Hp1 Hp2 h w w eq_refl)
      as [Hshape Hres].
    split; [|done]. subst run1 run2.
    destruct (MainV2.main uuid4_text s1 ac1 h w).1 as [e1|[]],
             (MainV2.main uuid4_text s2 ac2 h w).1 as [e2|[]]; by try subst.
Qed.

Lemma always_500_never_redirects : never_redirects always_500.
Proof.
  intros req n resp [= <-]. cbn.
  apply (bool_decide_unpack _). vm_compute. exact I.
Qed.

Lemma failures_are_recorded_witness :
  (forall l, in_order l ≡ₚ l)
  /\ never_redirects always_500
  /\ (exists bs w',
        batches sample_frame 2 = inr bs
        /\ Main.main serial_uuid always_500 in_order (sample_host 2 sample_frame)
                     init_world = (inr tt, w')
        /\ uuid_next w' = (uuid_next init_world + length sample_frame)%nat
        /\ outcomes (log w')
           ≡ₚ fate always_500
                <$> requests_of payload_v1 ENDPOINT
                      [("Authorization", "Token " +:+ "secret");
                       ("Content-Type", "application/json")]
                      "project" serial_uuid (uuid_next init_world) (concat bs))
  /\ (let run1 := Main.main serial_uuid always_500 in_order
                    (sample_host 2 sample_frame) init_world in
      let run2 := Main.main serial_uuid always_201 in_order
                    (sample_host 2 sample_frame) init_world in
      run1.1 = run2.1 /\ shape run1.2 = shape run2.2).
Proof.
  split; [exact in_order_perm|]. split; [exact always_500_never_redirects|].
  pose proof (failures_are_recorded serial_uuid always_500 always_201
                in_order in_order in_order_perm in_order_perm)
    as (_ & Hrun & _ & Hsim & _).
  split; [|apply Hsim].
  apply (Hrun (sample_host 2 sample_frame) (sample_config 2) sample_frame 2
              "project" "secret" init_world always_500_never_redirects
              (sample_setup_v1 2 sample_frame (fits_int64 2 ltac:(lia)))).
  apply sample_frame_complete.
Defined.

(** The requests of a batch are as many as its records plus the retries
    taken. *)
Lemma length_wire build endpoint hdrs project text u rows ks :
  length ks = length rows ->
  length (wire build endpoint hdrs project text u rows ks)
  = (length rows + sum_list ks)%nat.
Proof.
  revert u ks. induction rows as [|row rows IH]; intros u [|k ks] Hlen; try done.
  cbn [wire]. rewrite length_app, length_replicate.
  rewrite IH by (cbn in Hlen; lia). cbn. lia.
Qed.

(** With no retry taken, the wire holds one request per record, in
    order. *)
Lemma wire_no_retry build endpoint hdrs project text u rows :
  wire build endpoint hdrs project text u rows (replicate (length rows) 0%nat)
  = requests_of build endpoint hdrs project text u rows.
Proof.
  unfold requests_of. revert u. induction rows as [|row rows IH]; intros u; [done|].
  cbn [wire length replicate imap app]. rewrite Nat.add_0_r. f_equal.
  rewrite IH. apply imap_ext. intros i x _. cbn. do 3 f_equal. lia.
Qed.

Lemma Forall_eq_replicate {A : Type} (x : A) (l : list A) :
  Forall (fun y => y = x) l -> l = replicate (length l) x.
Proof. induction 1 as [|y l -> _ IH]; [done|]. cbn. by f_equal. Qed.

Lemma sum_list_bounded (b : nat) (ks : list nat) :
  Forall (fun k => (k <= b)%nat) ks -> (sum_list ks <= length ks * b)%nat.
Proof. induction 1 as [|k ks Hk _ IH]; cbn; [done|lia]. Qed.

(** ** More on a single submission *)

Lemma is_retry_unforced (r : urllib3.Retry) (left : nat) (method : string)
    (status : Z) :
  status ∉ urllib3.status_forcelist r ->
  urllib3.is_retry r left method status false = false.
Proof.
  intros Hout. unfold urllib3.is_retry.
  destruct (negb (bool_decide (method ∈ urllib3.allowed_methods r))); [done|].
  rewrite (bool_decide_eq_false_2 _ Hout). by rewrite andb_false_r.
Qed.

(** A server that fails every transmission of a request, by dropping it
    or by a status of the force list, uses up the retries. *)
Lemma urlopen_fails (server : Request -> nat -> reply) (max_retries : nat)
    (bf : Q) (left : nat) (req : Request) (n : nat) (w : world) :
  (forall i, server req i = Dropped
             \/ exists resp, server req i = Answer resp
                             /\ status_code resp ∈ [500; 502; 503; 504]) ->
  exists e ws,
    outcomes ws = []
    /\ urllib3.urlopen server (POLICY max_retries bf) left "POST" req n w
       = (inr (inl e),
          mkWorld (uuid_next w) (sent w ++ replicate (S left) req)
                  (log w ++ ws) (slept w)).
Proof.
  intros Hsrv. revert n w. induction left as [|left IH]; intros n w;
    rewrite urlopen_unfold; cbn zeta.
  - destruct (Hsrv n) as [->|(resp & -> & Hst)].
    + exists ConnectionError, []. by rewrite app_nil_r.
    + rewrite is_retry_forced by done. exists RetryError, [].
      by rewrite app_nil_r.
  - destruct (Hsrv n) as [->|(resp & -> & Hst)].
    + destruct (IH (S n) (mkWorld (uuid_next w) (sent w ++ [req])
                            (log w ++ [WARNING_retrying req left]) (slept w)))
        as (e & ws & Hws & He).
      exists e, (WARNING_retrying req left :: ws). split; [exact Hws|].
      rewrite He. cbn. by rewrite <- !app_assoc.
    + rewrite is_retry_forced by done.
      destruct (IH (S n) (mkWorld (uuid_next w) (sent w ++ [req]) (log w)
                                  (slept w)))
        as (e & ws & Hws & He).
      exists e, ws. split; [exact Hws|].
      rewrite He. cbn. by rewrite <- app_assoc.
Qed.

(** X1: a response whose status is outside the force list, is not that of
    a redirect and comes without a [Retry-After] header ends the request
    at the first transmission.  [main.py] hands the response on and logs
    nothing; [mainv2.py] does the same unless the status is a 4xx or
    5xx, for which [raise_for_status] raises: then it logs one
    ['Request failed: ...'] error carrying the text of that [HTTPError]
    and leaves [None]. *)
Theorem unforced_status_is_final (server : Request -> nat -> reply)
    (hdrs : list (string * string)) (payload : Payload)
    (max_retries : nat) (bf : Q) (w : world) (resp : Response) :
  let req := mkRequest ENDPOINT hdrs payload in
  server req 0%nat = Answer resp ->
  status_code resp ∉ [500; 502; 503; 504] ->
  status_code resp ∉ requests.REDIRECT_STATI ->
  has_retry_after resp = false ->
  let w1 := mkWorld (uuid_next w) (sent w ++ [req]) (log w) (slept w) in
  Main.send_request_with_retry server ENDPOINT hdrs payload max_retries bf w
  = (inr (Some resp), w1)
  /\ MainV2.send_request_with_retry server ENDPOINT hdrs payload max_retries bf w
     = if (400 <=? status_code resp) && (status_code resp <? 600)
       then (inr None,
             mkWorld (uuid_next w) (sent w ++ [req])
                     (log w ++ [ERROR_request_failed (HTTPError (status_code resp))])
                     (slept w))
       else (inr (Some resp), w1).
Proof.
  intros req Hsrv Hout Hdirect Hra w1.
  assert (requests.post server (POLICY max_retries bf) ENDPOINT hdrs payload w
          = (inr (inr resp), w1)) as Hpost.
  { unfold requests.post. rewrite get_adapter_ENDPOINT, urlopen_unfold.
    cbn zeta. fold req. rewrite Hsrv, Hra. by rewrite is_retry_unforced. }
  split.
  - by rewrite (send_v1_post _ _ _ _ _ _ _ _ _ Hpost).
  - rewrite (send_v2_post _ _ _ _ _ _ _ _ _ Hpost). done.
Qed.

Lemma unforced_status_is_final_witness :
  Main.send_request_with_retry answers_404 ENDPOINT [] sample_payload 3
                               (3 # 10)%Q init_world
  = (inr (Some (mkResponse 404 false)),
     mkWorld 0 [mkRequest ENDPOINT [] sample_payload] [] [])
  /\ MainV2.send_request_with_retry answers_404 ENDPOINT [] sample_payload 3
                                    (3 # 10)%Q init_world
     = (inr None,
        mkWorld 0 [mkRequest ENDPOINT [] sample_payload]
                [ERROR_request_failed (HTTPError 404)] []).
Proof.
  apply (unforced_status_is_final answers_404 [] sample_payload 3
           (3 # 10)%Q init_world (mkResponse 404 false) eq_refl
           ltac:(apply (bool_decide_unpack _); vm_compute; exact I)
           ltac:(apply (bool_decide_unpack _); vm_compute; exact I) eq_refl).
Defined.

Lemma urlopen_dropped (server : Request -> nat -> reply) (r : urllib3.Retry)
    (left : nat) (req : Request) (n : nat) (w : world) :
  (forall i, server req i = Dropped) ->
  urllib3.urlopen server r left "POST" req n w
  = (inr (inl ConnectionError),
     mkWorld (uuid_next w) (sent w ++ replicate (S left) req)
             (log w ++ retry_warnings req left) (slept w)).
Proof.
  intros Hsrv. revert n w. induction left as [|left IH]; intros n w;
    rewrite urlopen_unfold; cbn zeta; rewrite Hsrv.
  - unfold retry_warnings. cbn. by rewrite app_nil_r.
  - rewrite IH, retry_warnings_S. cbn. by rewrite <- !app_assoc.
Qed.

(** X2: against an endpoint that breaks every transmission, both scripts
    try [max_retries + 1] times and leave [None] for the future; the
    transport exception does not leave [send_request_with_retry].  The
    log receives urllib3's warning for each of the [max_retries] retries
    and then the one ['Request failed: ...'] error of the script,
    carrying the text of the exception. *)
Theorem transport_failure_is_absorbed (server : Request -> nat -> reply)
    (hdrs : list (string * string)) (payload : Payload)
    (max_retries : nat) (bf : Q) (w : world) :
  let req := mkRequest ENDPOINT hdrs payload in
  (forall n, server req n = Dropped) ->
  let w1 := mkWorld (uuid_next w)
              (sent w ++ replicate (max_retries + 1) req)
              (log w ++ retry_warnings req max_retries
                     ++ [ERROR_request_failed ConnectionError])
              (slept w) in
  Main.send_request_with_retry server ENDPOINT hdrs payload max_retries bf w
  = (inr None, w1)
  /\ MainV2.send_request_with_retry server ENDPOINT hdrs payload max_retries bf w
     = (inr None, w1).
Proof.
  intros req Hsrv w1.
  assert (requests.post server (POLICY max_retries bf) ENDPOINT hdrs payload w
          = (inr (inl ConnectionError),
             mkWorld (uuid_next w) (sent w ++ replicate (S max_retries) req)
                     (log w ++ retry_warnings req max_retries) (slept w)))
    as Hpost.
  { unfold requests.post. rewrite get_adapter_ENDPOINT.
    by apply urlopen_dropped. }
  subst w1. rewrite Nat.add_1_r, app_assoc. split.
  - by rewrite (send_v1_post _ _ _ _ _ _ _ _ _ Hpost).
  - by rewrite (send_v2_post _ _ _ _ _ _ _ _ _ Hpost).
Qed.

Lemma transport_failure_is_absorbed_witness :
  let req := mkRequest ENDPOINT [] sample_payload in
  Main.send_request_with_retry always_dropped ENDPOINT [] sample_payload 3
                               (3 # 10)%Q init_world
  = (inr None,
     mkWorld 0 [req; req; req; req]
             [WARNING_retrying req 2; WARNING_retrying req 1;
              WARNING_retrying req 0; ERROR_request_failed ConnectionError] []).
Proof.
  apply (proj1 (transport_failure_is_absorbed always_dropped [] sample_payload 3
                  (3 # 10)%Q init_world (fun n => eq_refl))).
Defined.

(** ** Whole runs against particular endpoints *)

Section Endpoints.

Variable server : Request -> nat -> reply.

Lemma send_v1_accepted hdrs payload w :
  (forall req, exists resp, server req 0%nat = Answer resp /\ status_code resp = 201) ->
  exists fut k w1,
    Main.send_request_with_retry server ENDPOINT hdrs payload 3 (3 # 10)%Q w
    = (inr fut, w1)
    /\ (k = 0%nat /\ outcome_of Main.delivered fut = Success)
    /\ extends w w1 0 (replicate (S k) (mkRequest ENDPOINT hdrs payload)) [] [].
Proof.
  intros Hok. destruct (Hok (mkRequest ENDPOINT hdrs payload)) as (resp & Hresp & H201).
  pose proof (post_recovers server hdrs payload 3 (3 # 10)%Q w 0 resp
                ltac:(lia) ltac:(intros; lia) Hresp H201) as Hpost.
  exists (Some resp), 0%nat. eexists.
  rewrite (send_v1_post _ _ _ _ _ _ _ _ _ Hpost). split; [done|]. split.
  - split; [done|]. rewrite delivered_verdict. cbn. by rewrite H201.
  - split; cbn; by rewrite ?Nat.add_0_r, ?app_nil_r.
Qed.

Lemma send_v2_accepted hdrs payload w :
  (forall req, exists resp, server req 0%nat = Answer resp /\ status_code resp = 201) ->
  exists fut k w1,
    MainV2.send_request_with_retry server ENDPOINT hdrs payload 3 (3 # 10)%Q w
    = (inr fut, w1)
    /\ (k = 0%nat /\ outcome_of MainV2.delivered fut = Success)
    /\ extends w w1 0 (replicate (S k) (mkRequest ENDPOINT hdrs payload)) [] [].
Proof.
  intros Hok. destruct (Hok (mkRequest ENDPOINT hdrs payload)) as (resp & Hresp & H201).
  pose proof (post_recovers server hdrs payload 3 (3 # 10)%Q w 0 resp
                ltac:(lia) ltac:(intros; lia) Hresp H201) as Hpost.
  exists (Some resp), 0%nat. eexists.
  rewrite (send_v2_post _ _ _ _ _ _ _ _ _ Hpost). rewrite H201.
  change ((400 <=? 201) && (201 <? 600)) with false. cbn iota.
  split; [done|]. split.
  - split; [done|]. change MainV2.delivered with Main.delivered.
    rewrite delivered_verdict. cbn. by rewrite H201.
  - split; cbn; by rewrite ?Nat.add_0_r, ?app_nil_r.
Qed.

Lemma send_v1_refused hdrs payload w :
  (forall req i, server req i = Dropped
                 \/ exists resp, server req i = Answer resp
                                 /\ status_code resp ∈ [500; 502; 503; 504]) ->
  exists fut k w1,
    Main.send_request_with_retry server ENDPOINT hdrs payload 3 (3 # 10)%Q w
    = (inr fut, w1)
    /\ (k = 3%nat /\ outcome_of Main.delivered fut = Failure)
    /\ extends w w1 0 (replicate (S k) (mkRequest ENDPOINT hdrs payload)) [] [].
Proof.
  intros Hbad.
  destruct (urlopen_fails server 3 (3 # 10)%Q 3 (mkRequest ENDPOINT hdrs payload)
              0 w (Hbad _)) as (e & ws & Hws & Hopen).
  assert (requests.post server (POLICY 3 (3 # 10)%Q) ENDPOINT hdrs payload w
          = (inr (inl e), mkWorld (uuid_next w)
                            (sent w ++ replicate 4 (mkRequest ENDPOINT hdrs payload))
                            (log w ++ ws) (slept w))) as Hpost by exact Hopen.
  exists None, 3%nat. eexists.
  rewrite (send_v1_post _ _ _ _ _ _ _ _ _ Hpost). split; [done|].
  split; [done|]. split; cbn [uuid_next sent log slept];
    rewrite ?outcomes_request_failed, ?(outcomes_silent _ _ Hws), ?Nat.add_0_r,
      ?app_nil_r; done.
Qed.

Lemma send_v2_refused hdrs payload w :
  (forall req i, server req i = Dropped
                 \/ exists resp, server req i = Answer resp
                                 /\ status_code resp ∈ [500; 502; 503; 504]) ->
  exists fut k w1,
    MainV2.send_request_with_retry server ENDPOINT hdrs payload 3 (3 # 10)%Q w
    = (inr fut, w1)
    /\ (k = 3%nat /\ outcome_of MainV2.delivered fut = Failure)
    /\ extends w w1 0 (replicate (S k) (mkRequest ENDPOINT hdrs payload)) [] [].
Proof.
  intros Hbad.
  destruct (urlopen_fails server 3 (3 # 10)%Q 3 (mkRequest ENDPOINT hdrs payload)
              0 w (Hbad _)) as (e & ws & Hws & Hopen).
  assert (requests.post server (POLICY 3 (3 # 10)%Q) ENDPOINT hdrs payload w
          = (inr (inl e), mkWorld (uuid_next w)
                            (sent w ++ replicate 4 (mkRequest ENDPOINT hdrs payload))
                            (log w ++ ws) (slept w))) as Hpost by exact Hopen.
  exists None, 3%nat. eexists.
  rewrite (send_v2_post _ _ _ _ _ _ _ _ _ Hpost). split; [done|].
  split; [done|]. split; cbn [uuid_next sent log slept];
    rewrite ?outcomes_request_failed, ?(outcomes_silent _ _ Hws), ?Nat.add_0_r,
      ?app_nil_r; done.
Qed.

End Endpoints.

Lemma outcomes_all (o : Outcome) (delivered : Future -> bool)
    (futures : list Future) (outs : list Outcome) :
  Forall (fun f => outcome_of delivered f = o) futures ->
  outs ≡ₚ map (outcome_of delivered) futures ->
  outs = replicate (length futures) o.
Proof.
  intros Hall Hperm. symmetry. apply replicate_Permutation. rewrite Hperm.
  apply reflexive_eq. clear Hperm.
  induction Hall as [|f fs Hf _ IH]; [done|]. cbn. by rewrite Hf, IH.
Qed.

(** X4: against an endpoint that accepts every request at the first
    transmission with a 201, a run that passes setup over complete
    records sends exactly one request per record, the record's payload
    with the identifier of its draw, the records being drawn in the
    order the batches hold them, and records Success for every record
    and nothing else.  The order in which the requests reach the wire is
    the thread pool's: the requests are stated up to their order. *)
Theorem run_all_accepted (uuid4_text : nat -> string)
    (server : Request -> nat -> reply)
    (as_completed : list Future -> list Future) :
  (forall l, as_completed l ≡ₚ l) ->
  (forall req, exists resp, server req 0%nat = Answer resp /\ status_code resp = 201) ->
  (forall h config df_root size project token w,
     setup_v1 h config df_root size project token ->
     Forall (complete COLUMNS_V1) df_root ->
     exists bs new w',
       batches df_root size = inr bs
       /\ Main.main uuid4_text server as_completed h w = (inr tt, w')
       /\ outcomes (log w') = replicate (length df_root) Success
       /\ sent w' = sent w ++ new
       /\ new ≡ₚ requests_of payload_v1 ENDPOINT
                   [("Authorization", "Token " +:+ token);
                    ("Content-Type", "application/json")]
                   project uuid4_text (uuid_next w) (concat bs))
  /\ (forall h config df_root size project w,
        setup_v2 h config df_root size project ->
        Forall (complete COLUMNS_V2) df_root ->
        exists bs new w',
          batches df_root size = inr bs
          /\ MainV2.main uuid4_text server as_completed h w = (inr tt, w')
          /\ outcomes (log w') = replicate (length df_root) Success
          /\ sent w' = sent w ++ new
          /\ new ≡ₚ requests_of payload_v2 ENDPOINT
                      (MainV2.get_headers (MainV2.API_TOKEN h))
                      project uuid4_text (uuid_next w) (concat bs)).
Proof.
  intros Hperm Hok. split.
  - intros h config df_root size project token w Hsetup Hall.
    destruct (main_v1_each uuid4_text server as_completed Hperm
                (fun _ k f => k = 0%nat /\ outcome_of Main.delivered f = Success)
                h config df_root size project token w
                (fun payload w0 => send_v1_accepted server _ payload w0 Hok)
                Hsetup Hall)
      as (futs & ks & w' & Hrun & Hsub & Hlen & Hout & _ & Hsent & _).
    apply Forall3_any_request in Hsub as (Hks & Hfs & Hlk).
    apply Forall_eq_replicate in Hks.
    assert (length ks = length (concat (groups_of df_root size))) as Hlk'
      by (by rewrite Hlk, Hlen, batches_permutation).
    exists (groups_of df_root size). eexists _, w'.
    split; [apply batches_fits, Hsetup|]. split; [done|]. split.
    + rewrite <- Hlen. by apply (outcomes_all Success Main.delivered).
    + split; [exact Hsent|]. by rewrite Hks, Hlk', wire_no_retry.
  - intros h config df_root size project w Hsetup Hall.
    destruct (main_v2_each uuid4_text server as_completed Hperm
                (fun _ k f => k = 0%nat /\ outcome_of MainV2.delivered f = Success)
                h config df_root size project w
                (fun payload w0 => send_v2_accepted server _ payload w0 Hok)
                Hsetup Hall)
      as (futs & ks & w' & Hrun & Hsub & Hlen & Hout & _ & Hsent & _).
    apply Forall3_any_request in Hsub as (Hks & Hfs & Hlk).
    apply Forall_eq_replicate in Hks.
    assert (length ks = length (concat (groups_of df_root size))) as Hlk'
      by (by rewrite Hlk, Hlen, batches_permutation).
    exists (groups_of df_root size). eexists _, w'.
    split; [apply batches_fits, Hsetup|]. split; [done|]. split.
    + rewrite <- Hlen. by apply (outcomes_all Success MainV2.delivered).
    + split; [exact Hsent|]. by rewrite Hks, Hlk', wire_no_retry.
Qed.

Lemma run_all_accepted_witness :
  exists bs new w',
    batches sample_frame 2 = inr bs
    /\ Main.main serial_uuid always_201 in_order (sample_host 2 sample_frame)
                 init_world = (inr tt, w')
    /\ outcomes (log w') = replicate (length sample_frame) Success
    /\ sent w' = sent init_world ++ new
    /\ new ≡ₚ requests_of payload_v1 ENDPOINT
                [("Authorization", "Token " +:+ "secret");
                 ("Content-Type", "application/json")]
                "project" serial_uuid (uuid_next init_world) (concat bs).
Proof.
  apply (proj1 (run_all_accepted serial_uuid always_201 in_order in_order_perm
                  (fun req => ex_intro _ (mkResponse 201 false) (conj eq_refl eq_refl)))
           (sample_host 2 sample_frame) (sample_config 2) sample_frame 2
           "project" "secret" init_world
           (sample_setup_v1 2 sample_frame (fits_int64 2 ltac:(lia)))).
  apply sample_frame_complete.
Defined.

(** X5: against an endpoint that fails every transmission, by dropping
    it or by a status of the force list, a run that passes setup over
    complete records still completes: it makes four transmissions per
    record and records Failure for every record. *)
Theorem run_all_refused (uuid4_text : nat -> string)
    (server : Request -> nat -> reply)
    (as_completed : list Future -> list Future) :
  (forall l, as_completed l ≡ₚ l) ->
  (forall req i, server req i = Dropped
                 \/ exists resp, server req i = Answer resp
                                 /\ status_code resp ∈ [500; 502; 503; 504]) ->
  (forall h config df_root size project token w,
     setup_v1 h config df_root size project token ->
     Forall (complete COLUMNS_V1) df_root ->
     exists w',
       Main.main uuid4_text server as_completed h w = (inr tt, w')
       /\ outcomes (log w') = replicate (length df_root) Failure
       /\ length (sent w') = (length (sent w) + 4 * length df_root)%nat)
  /\ (forall h config df_root size project w,
        setup_v2 h config df_root size project ->
        Forall (complete COLUMNS_V2) df_root ->
        exists w',
          MainV2.main uuid4_text server as_completed h w = (inr tt, w')
          /\ outcomes (log w') = replicate (length df_root) Failure
          /\ length (sent w') = (length (sent w) + 4 * length df_root)%nat).
Proof.
  intros Hperm Hbad. split.
  - intros h config df_root size project token w Hsetup Hall.
    destruct (main_v1_each uuid4_text server as_completed Hperm
                (fun _ k f => k = 3%nat /\ outcome_of Main.delivered f = Failure)
                h config df_root size project token w
                (fun payload w0 => send_v1_refused server _ payload w0 Hbad)
                Hsetup Hall)
      as (futs & ks & w' & Hrun & Hsub & Hlen & Hout & _ & Hsent & _).
    apply Forall3_any_request in Hsub as (Hks & Hfs & Hlk').
    apply Forall_eq_replicate in Hks.
    assert (length ks = length df_root) as Hlk by (by rewrite Hlk', Hlen).
    exists w'. split; [done|]. split.
    + rewrite <- Hlen. by apply (outcomes_all Failure Main.delivered).
    + rewrite Hsent, length_app, length_wire
        by (by rewrite Hlk, batches_permutation).
      rewrite batches_permutation, Hks, sum_list_replicate, Hlk. lia.
  - intros h config df_root size project w Hsetup Hall.
    destruct (main_v2_each uuid4_text server as_completed Hperm
                (fun _ k f => k = 3%nat /\ outcome_of MainV2.delivered f = Failure)
                h config df_root size project w
                (fun payload w0 => send_v2_refused server _ payload w0 Hbad)
                Hsetup Hall)
      as (futs & ks & w' & Hrun & Hsub & Hlen & Hout & _ & Hsent & _).
    apply Forall3_any_request in Hsub as (Hks & Hfs & Hlk').
    apply Forall_eq_replicate in Hks.
    assert (length ks = length df_root) as Hlk by (by rewrite Hlk', Hlen).
    exists w'. split; [done|]. split.
    + rewrite <- Hlen. by apply (outcomes_all Failure MainV2.delivered).
    + rewrite Hsent, length_app, length_wire
        by (by rewrite Hlk, batches_permutation).
      rewrite batches_permutation, Hks, sum_list_replicate, Hlk. lia.
Qed.

Lemma run_all_refused_witness :
  exists w',
    MainV2.main serial_uuid always_dropped in_order (sample_host 2 sample_frame)
                init_world = (inr tt, w')
    /\ outcomes (log w') = replicate (length sample_frame) Failure
    /\ length (sent w') = (length (sent init_world) + 4 * length sample_frame)%nat.
Proof.
  apply (proj2 (run_all_refused serial_uuid always_dropped in_order in_order_perm
                  (fun req i => or_introl eq_refl))
           (sample_host 2 sample_frame) (sample_config 2) sample_frame 2
           "project" init_world
           (sample_setup_v2 2 sample_frame (fits_int64 2 ltac:(lia)))).
  apply sample_frame_complete.
Defined.

(** X6: against an endpoint that never answers with the status of a
    redirect and lets every transmission end, a run that passes setup
    over N complete records puts at least N and at most 4 N requests on
    the wire, whatever else the endpoint does: one transmission per
    record plus at most three retries, the default of
    [send_request_with_retry], which [process_batch] never overrides. *)
Theorem run_request_bounds (uuid4_text : nat -> string)
    (server : Request -> nat -> reply)
    (as_completed : list Future -> list Future) :
  (forall l, as_completed l ≡ₚ l) ->
  never_redirects server ->
  (forall h config df_root size project token w,
     setup_v1 h config df_root size project token ->
     Forall (complete COLUMNS_V1) df_root ->
     exists w',
       Main.main uuid4_text server as_completed h w = (inr tt, w')
       /\ (length (sent w) + length df_root <= length (sent w'))%nat
       /\ (length (sent w') <= length (sent w) + 4 * length df_root)%nat)
  /\ (forall h config df_root size project w,
        setup_v2 h config df_root size project ->
        Forall (complete COLUMNS_V2) df_root ->
        exists w',
          MainV2.main uuid4_text server as_completed h w = (inr tt, w')
          /\ (length (sent w) + length df_root <= length (sent w'))%nat
          /\ (length (sent w') <= length (sent w) + 4 * length df_root)%nat).
Proof.
  intros Hperm _. split.
  - intros h config df_root size project token w Hsetup Hall.
    destruct (main_v1_each uuid4_text server as_completed Hperm
                (fun _ k _ => (k <= 3)%nat /\ True)
                h config df_root size project token w) as
      (futs & ks & w' & Hrun & Hsub & Hlen & _ & _ & Hsent & _); [|done..|].
    { intros payload w0.
      destruct (send_v1_returns server ENDPOINT
                  [("Authorization", "Token " +:+ token);
                   ("Content-Type", "application/json")] payload 3 (3 # 10)%Q w0)
        as (fut & k & w1 & Hk & Hs & Hext).
      by exists fut, k, w1. }
    apply Forall3_any_request in Hsub as (Hks & _ & Hlk').
    assert (length ks = length df_root) as Hlk by (by rewrite Hlk', Hlen).
    exists w'. split; [done|].
    rewrite Hsent, length_app, length_wire by (by rewrite Hlk, batches_permutation).
    rewrite batches_permutation. pose proof (sum_list_bounded 3 ks Hks). lia.
  - intros h config df_root size project w Hsetup Hall.
    destruct (main_v2_each uuid4_text server as_completed Hperm
                (fun _ k _ => (k <= 3)%nat /\ True)
                h config df_root size project w) as
      (futs & ks & w' & Hrun & Hsub & Hlen & _ & _ & Hsent & _); [|done..|].
    { intros payload w0.
      destruct (send_v2_returns server ENDPOINT
                  (MainV2.get_headers (MainV2.API_TOKEN h)) payload 3 (3 # 10)%Q w0)
        as (fut & k & w1 & Hk & Hs & Hext).
      by exists fut, k, w1. }
    apply Forall3_any_request in Hsub as (Hks & _ & Hlk').
    assert (length ks = length df_root) as Hlk by (by rewrite Hlk', Hlen).
    exists w'. split; [done|].
    rewrite Hsent, length_app, length_wire by (by rewrite Hlk, batches_permutation).
    rewrite batches_permutation. pose proof (sum_list_bounded 3 ks Hks). lia.
Qed.

Lemma flaky_never_redirects : never_redirects flaky_then_201.
Proof.
  intros req n resp. unfold flaky_then_201.
  destruct (n <? 2)%nat; intros [= <-]; cbn;
    apply (bool_decide_unpack _); vm_compute; exact I.
Qed.

Lemma run_request_bounds_witness :
  exists w',
    Main.main serial_uuid flaky_then_201 in_order (sample_host 2 sample_frame)
              init_world = (inr tt, w')
    /\ (length (sent init_world) + length sample_frame <= length (sent w'))%nat
    /\ (length (sent w') <= length (sent init_world) + 4 * length sample_frame)%nat.
Proof.
  apply (proj1 (run_request_bounds serial_uuid flaky_then_201 in_order in_order_perm
                  flaky_never_redirects)
           (sample_host 2 sample_frame) (sample_config 2) sample_frame 2
           "project" "secret" init_world
           (sample_setup_v1 2 sample_frame (fits_int64 2 ltac:(lia)))).
  apply sample_frame_complete.
Defined.

(** ** What every run puts on the wire *)


Lemma wire_ids build endpoint hdrs project text u rows ks :
  (forall row p t, instanceID (build row p t) = "uuid:" +:+ t) ->
  length ks = length rows ->
  forall x,
    x ∈ map (fun r => instanceID (json r))
            (wire build endpoint hdrs project text u rows ks)
    <-> x ∈ map (fun i => "uuid:" +:+ text i) (seq u (length rows)).
Proof.
  intros Hid. revert u ks. induction rows as [|row rows IH]; intros u [|k ks] Hlen x;
    try done.
  cbn [wire length seq map]. rewrite map_app, elem_of_app, elem_of_cons.
  rewrite (IH (S u) ks) by (cbn in Hlen; lia).
  assert (x ∈ map (fun r => instanceID (json r))
                  (replicate (S k)
                     (mkRequest endpoint hdrs (build row project (text u))))
          <-> x = "uuid:" +:+ text u) as ->; [|done].
  rewrite list_elem_of_fmap. split.
  - intros (r & -> & [-> _]%elem_of_replicate). cbn. apply Hid.
  - intros ->. eexists. split; [|by left]. cbn. by rewrite Hid.
Qed.




(** X8: as long as [uuid4] does not repeat, the instance identifiers seen
    on the wire during a run that passes setup over N complete records
    are exactly N distinct ones, however many retries are made and
    whatever the batch size, among those that fit int64. *)
Theorem run_identifiers_distinct (uuid4_text : nat -> string)
    (server : Request -> nat -> reply)
    (as_completed : list Future -> list Future) :
  (forall l, as_completed l ≡ₚ l) ->
  (forall i j, uuid4_text i = uuid4_text j -> i = j) ->
  (forall h config df_root size project token w,
     setup_v1 h config df_root size project token ->
     Forall (complete COLUMNS_V1) df_root ->
     exists new ids w',
       Main.main uuid4_text server as_completed h w = (inr tt, w')
       /\ sent w' = sent w ++ new
       /\ NoDup ids /\ length ids = length df_root
       /\ forall x, x ∈ map (fun r => instanceID (json r)) new <-> x ∈ ids)
  /\ (forall h config df_root size project w,
        setup_v2 h config df_root size project ->
        Forall (complete COLUMNS_V2) df_root ->
        exists new ids w',
          MainV2.main uuid4_text server as_completed h w = (inr tt, w')
          /\ sent w' = sent w ++ new
          /\ NoDup ids /\ length ids = length df_root
          /\ forall x, x ∈ map (fun r => instanceID (json r)) new <-> x ∈ ids).
Proof.
  intros Hperm Hfresh.
  assert (forall u n, NoDup (map (fun i => "uuid:" +:+ uuid4_text i) (seq u n)))
    as Hnodup.
  { intros u n. apply NoDup_fmap_2_strong; [|apply NoDup_seq].
    intros i j _ _ Heq. apply Hfresh. cbn in Heq. by simplify_eq. }
  split.
  - intros h config df_root size project token w Hsetup Hall.
    destruct (main_v1_spec uuid4_text server as_completed Hperm h config df_root
                size project token w Hsetup Hall)
      as (ks & w' & Hrun & _ & Hlk & _ & Hsent & _).
    eexists _, (map (fun i => "uuid:" +:+ uuid4_text i)
                    (seq (uuid_next w) (length df_root))), w'.
    split; [done|]. split; [exact Hsent|]. split; [apply Hnodup|].
    split; [by rewrite length_map, length_seq|].
    intros x. rewrite wire_ids; [|done|by rewrite batches_permutation].
    by rewrite batches_permutation.
  - intros h config df_root size project w Hsetup Hall.
    destruct (main_v2_spec uuid4_text server as_completed Hperm h config df_root
                size project w Hsetup Hall)
      as (ks & w' & Hrun & _ & Hlk & _ & Hsent & _).
    eexists _, (map (fun i => "uuid:" +:+ uuid4_text i)
                    (seq (uuid_next w) (length df_root))), w'.
    split; [done|]. split; [exact Hsent|]. split; [apply Hnodup|].
    split; [by rewrite length_map, length_seq|].
    intros x. rewrite wire_ids; [|done|by rewrite batches_permutation].
    by rewrite batches_permutation.
Qed.

Lemma run_identifiers_distinct_witness :
  exists new ids w',
    Main.main serial_uuid always_500 in_order (sample_host 2 sample_frame)
              init_world = (inr tt, w')
    /\ sent w' = sent init_world ++ new
    /\ NoDup ids /\ length ids = length sample_frame
    /\ forall x, x ∈ map (fun r => instanceID (json r)) new <-> x ∈ ids.
Proof.
  apply (proj1 (run_identifiers_distinct serial_uuid always_500 in_order
                  in_order_perm (fun i j => inj pretty i j))
           (sample_host 2 sample_frame) (sample_config 2) sample_frame 2
           "project" "secret" init_world (sample_setup_v1 2 sample_frame (fits_int64 2 ltac:(lia)))).
  apply sample_frame_complete.
Defined.




(** ** Edges of [groupby] *)

Lemma batches_nil {A : Type} (B : Z) : groups_of (@nil A) B = [].
Proof. reflexivity. Qed.

Lemma groups_nonempty {A : Type} (records : list A) (B : Z) :
  Forall (fun batch => batch <> []) (groups_of records B).
Proof.
  unfold groups_of, pd.groupby.
  set (keys := map (fun i => i / B) (np.arange (length records))).
  assert (length keys = length records) as Hlen.
  { unfold keys, np.arange. by rewrite !length_map, length_seq. }
  rewrite map_map. cbn [snd]. apply Forall_forall.
  intros batch (k & -> & Hk)%list_elem_of_fmap.
  apply (proj1 (proj2 (unique_sorted_spec keys) k)) in Hk.
  apply list_elem_of_lookup in Hk as [i Hi].
  pose proof (lookup_lt_Some _ _ _ Hi) as Hlt. rewrite Hlen in Hlt.
  destruct (lookup_lt_is_Some_2 records i Hlt) as [r Hr].
  assert ((k, r) ∈ filter (fun kr : Z * A => kr.1 = k) (zip keys records)) as Hin.
  { apply list_elem_of_filter. split; [done|].
    apply list_elem_of_lookup. exists i.
    rewrite lookup_zip_with, Hi. cbn. by rewrite Hr. }
  intros Hnil. apply fmap_nil_inv in Hnil. rewrite Hnil in Hin.
  by apply elem_of_nil in Hin.
Qed.

(** X10: for every batch size that fits int64, zero and negative ones
    included, the loop header raises nothing, the batches hold every
    record exactly once and none of them is empty, so [process_batch]
    is never called on an empty frame. *)
Theorem batches_cover_any_size {A : Type} (records : list A) (B : Z) :
  np.INT64_MIN <= B <= np.INT64_MAX ->
  exists bs,
    batches records B = inr bs
    /\ concat bs ≡ₚ records
    /\ Forall (fun batch => batch <> []) bs.
Proof.
  intros Hfits. exists (groups_of records B).
  split; [by apply batches_fits|].
  split; [apply batches_permutation | apply groups_nonempty].
Qed.

Lemma batches_cover_any_size_witness :
  np.INT64_MIN <= -2 <= np.INT64_MAX
  /\ exists bs,
       batches (seq 0 5) (-2) = inr bs
       /\ concat bs ≡ₚ seq 0 5
       /\ Forall (fun batch => batch <> []) bs.
Proof.
  assert (np.INT64_MIN <= -2 <= np.INT64_MAX) as Hfits
    by (unfold np.INT64_MIN, np.INT64_MAX; lia).
  split; [exact Hfits|]. apply (batches_cover_any_size (seq 0 5) (-2) Hfits).
Defined.

Lemma batches_nonempty {A : Type} (records : list A) (B : Z) :
  records <> [] -> exists batch rest, groups_of records B = batch :: rest.
Proof.
  intros Hne. destruct (groups_of records B) as [|batch rest] eqn:Hb; [|by eauto].
  pose proof (batches_permutation records B) as Hperm. rewrite Hb in Hperm.
  cbn in Hperm. symmetry in Hperm. by apply Permutation_nil_r in Hperm.
Qed.

Lemma batches_first {A : Type} (r : A) (records : list A) (B : Z) :
  1 <= B -> exists batch rest, groups_of (r :: records) B = (r :: batch) :: rest.
Proof.
  intros HB. rewrite batches_windows by done. cbn [length].
  rewrite ceil_div_succ by done. cbn [seq map]. rewrite Nat.mul_0_l, drop_0.
  destruct (Z.to_nat B) as [|b] eqn:Hb; [lia|]. cbn [take]. eauto.
Qed.

(** ** Edges of a run *)

Lemma main_v1_reaches_loop (uuid4_text : nat -> string)
    (server : Request -> nat -> reply) (as_completed : list Future -> list Future)
    (h : Host) (config : Config) (path : string) (df_root : DataFrame)
    (size : Z) (token : string) (w : world) :
  config_json h = Some config ->
  parent_data_path config = Some path ->
  workbooks h !! path = Some df_root ->
  default ∅ (api_token_map config) !! "unhcr_prod" = Some token ->
  token <> "" ->
  batch_size config = Some size ->
  np.INT64_MIN <= size <= np.INT64_MAX ->
  Main.main uuid4_text server as_completed h w
  = for_each (groups_of df_root size) (fun batch_df =>
      Main.process_batch uuid4_text server as_completed batch_df config ENDPOINT
        [("Authorization", "Token " +:+ token);
         ("Content-Type", "application/json")] ;;;
      time_sleep (default 5 (dynamic_sleep_interval config)))
      (mkWorld (uuid_next w) (sent w) [] (slept w)).
Proof.
  intros Hcfg Hpath Hbook Htok Hne Hsize Hfits. unfold Main.main.
  rewrite (bind_inr configure_logging _ w
             (mkWorld (uuid_next w) (sent w) [] (slept w)) tt eq_refl).
  unfold load_config at 1. rewrite Hcfg, bind_ret.
  rewrite Hpath. cbn [getitem]. rewrite bind_ret.
  unfold read_excel at 1. rewrite Hbook, bind_ret.
  unfold Main.get_api_token. rewrite Htok.
  destruct token as [|c token]; [done|]. rewrite bind_ret.
  rewrite Hsize. cbn [getitem]. rewrite bind_ret.
  rewrite (batches_fits df_root size Hfits). change (lift (inr ?x)) with (ret x).
  by rewrite bind_ret.
Qed.

Lemma main_v2_reaches_loop (uuid4_text : nat -> string)
    (server : Request -> nat -> reply) (as_completed : list Future -> list Future)
    (h : Host) (config : Config) (path : string) (df_root : DataFrame)
    (size : Z) (project : string) (w : world) :
  config_json h = Some config ->
  project_uuid config = Some project ->
  parent_data_path config = Some path ->
  workbooks h !! path = Some df_root ->
  batch_size config = Some size ->
  np.INT64_MIN <= size <= np.INT64_MAX ->
  MainV2.main uuid4_text server as_completed h w
  = for_each (groups_of df_root size) (fun batch_df =>
      MainV2.process_batch uuid4_text server as_completed batch_df ENDPOINT
        (MainV2.get_headers (MainV2.API_TOKEN h)) project
        (default 5 (concurrency_level config)) ;;;
      time_sleep (default 5 (dynamic_sleep_interval config)))
      (mkWorld (uuid_next w) (sent w) [] (slept w)).
Proof.
  intros Hcfg Hproj Hpath Hbook Hsize Hfits. unfold MainV2.main.
  rewrite (bind_inr configure_logging _ w
             (mkWorld (uuid_next w) (sent w) [] (slept w)) tt eq_refl).
  unfold load_config at 1. rewrite Hcfg, bind_ret.
  rewrite Hproj. cbn [getitem]. rewrite bind_ret.
  rewrite Hpath. cbn [getitem]. rewrite bind_ret.
  unfold read_excel at 1. rewrite Hbook, bind_ret.
  rewrite Hsize. cbn [getitem]. rewrite bind_ret.
  rewrite (batches_fits df_root size Hfits). change (lift (inr ?x)) with (ret x).
  by rewrite bind_ret.
Qed.

(** X11: an empty workbook, with a batch size that fits int64.  The run
    completes at once: nothing is sent, drawn or slept and the log is
    empty.  [main.py] does not even notice a configuration without
    ['concurrency_level'] or ['project_uuid'], which it reads per batch
    and per record; [mainv2.py] reads ['project_uuid'] before the
    workbook and raises [KeyError] without it. *)
Theorem empty_workbook_run (uuid4_text : nat -> string)
    (server : Request -> nat -> reply) (as_completed : list Future -> list Future)
    (h : Host) (config : Config) (path : string) (size : Z) (w : world) :
  config_json h = Some config ->
  parent_data_path config = Some path ->
  workbooks h !! path = Some [] ->
  batch_size config = Some size ->
  np.INT64_MIN <= size <= np.INT64_MAX ->
  (forall token,
     default ∅ (api_token_map config) !! "unhcr_prod" = Some token ->
     token <> "" ->
     Main.main uuid4_text server as_completed h w
     = (inr tt, mkWorld (uuid_next w) (sent w) [] (slept w)))
  /\ (forall project,
        project_uuid config = Some project ->
        MainV2.main uuid4_text server as_completed h w
        = (inr tt, mkWorld (uuid_next w) (sent w) [] (slept w)))
  /\ (project_uuid config = None ->
      MainV2.main uuid4_text server as_completed h w
      = (inl (KeyError "project_uuid"),
         mkWorld (uuid_next w) (sent w) [] (slept w))).
Proof.
  intros Hcfg Hpath Hbook Hsize Hfits. split; [|split].
  - intros token Htok Hne.
    by rewrite (main_v1_reaches_loop _ _ _ _ _ _ _ _ _ _
                  Hcfg Hpath Hbook Htok Hne Hsize Hfits).
  - intros project Hproj.
    by rewrite (main_v2_reaches_loop _ _ _ _ _ _ _ _ _ _
                  Hcfg Hproj Hpath Hbook Hsize Hfits).
  - intros Hproj. unfold MainV2.main.
    rewrite (bind_inr configure_logging _ w
               (mkWorld (uuid_next w) (sent w) [] (slept w)) tt eq_refl).
    unfold load_config at 1. rewrite Hcfg, bind_ret. by rewrite Hproj.
Qed.

Lemma empty_workbook_run_witness :
  Main.main serial_uuid always_500 in_order bare_host init_world
  = (inr tt, mkWorld (uuid_next init_world) (sent init_world) []
                     (slept init_world))
  /\ MainV2.main serial_uuid always_500 in_order bare_host init_world
     = (inl (KeyError "project_uuid"),
        mkWorld (uuid_next init_world) (sent init_world) []
                (slept init_world)).
Proof.
  pose proof (empty_workbook_run serial_uuid always_500 in_order bare_host
                bare_config "data.xlsx" 5 init_world
                eq_refl eq_refl eq_refl eq_refl (fits_int64 5 ltac:(lia)))
    as (Hv1 & _ & Hv2).
  split; [by apply (Hv1 "secret") | by apply Hv2].
Defined.

Lemma for_each_first_raises {A : Type} (body : A -> M unit) (pause : Z)
    (a : A) (rest : list A) (w w' : world) (e : exn) :
  body a w = (inl e, w') ->
  for_each (a :: rest) (fun x => body x ;;; time_sleep pause) w = (inl e, w').
Proof.
  intros Hbody. cbn [for_each].
  by rewrite (bind_inl _ _ _ _ _ (bind_inl _ _ _ _ _ Hbody)).
Qed.

(** X12: a worker count the thread pool refuses.  On a workbook with at
    least one record and with a batch size that fits int64, a
    ['concurrency_level'] of zero or less ends either run with
    [ValueError] at the first batch, before any payload is built or
    request sent; in [main.py] an absent key ends it with [KeyError] at
    the same point, while [mainv2.py] falls back to 5. *)
Theorem refused_worker_count (uuid4_text : nat -> string)
    (server : Request -> nat -> reply) (as_completed : list Future -> list Future)
    (h : Host) (config : Config) (path : string) (df_root : DataFrame)
    (size : Z) (w : world) :
  df_root <> [] ->
  config_json h = Some config ->
  parent_data_path config = Some path ->
  workbooks h !! path = Some df_root ->
  batch_size config = Some size ->
  np.INT64_MIN <= size <= np.INT64_MAX ->
  let w0 := mkWorld (uuid_next w) (sent w) [] (slept w) in
  (forall token,
     default ∅ (api_token_map config) !! "unhcr_prod" = Some token ->
     token <> "" ->
     (concurrency_level config = None ->
      Main.main uuid4_text server as_completed h w
      = (inl (KeyError "concurrency_level"), w0))
     /\ (forall workers,
           concurrency_level config = Some workers -> workers <= 0 ->
           Main.main uuid4_text server as_completed h w
           = (inl (ValueError "max_workers must be greater than 0"), w0)))
  /\ (forall project,
        project_uuid config = Some project ->
        default 5 (concurrency_level config) <= 0 ->
        MainV2.main uuid4_text server as_completed h w
        = (inl (ValueError "max_workers must be greater than 0"), w0)).
Proof.
  intros Hne Hcfg Hpath Hbook Hsize Hfits w0.
  destruct (batches_nonempty df_root size Hne) as (batch & rest & Hb).
  split.
  - intros token Htok Htokne.
    rewrite (main_v1_reaches_loop _ _ _ _ _ _ _ _ _ _
               Hcfg Hpath Hbook Htok Htokne Hsize Hfits), Hb.
    split.
    + intros Hcl. apply for_each_first_raises.
      unfold Main.process_batch. by rewrite Hcl.
    + intros workers Hcl Hw. apply for_each_first_raises.
      unfold Main.process_batch, ThreadPoolExecutor.
      rewrite Hcl. cbn [getitem]. rewrite bind_ret.
      by replace (workers <=? 0) with true by (symmetry; apply Z.leb_le; lia).
  - intros project Hproj Hworkers.
    rewrite (main_v2_reaches_loop _ _ _ _ _ _ _ _ _ _
               Hcfg Hproj Hpath Hbook Hsize Hfits), Hb.
    apply for_each_first_raises.
    unfold MainV2.process_batch, ThreadPoolExecutor.
    by replace (default 5 (concurrency_level config) <=? 0) with true
      by (symmetry; apply Z.leb_le; lia).
Qed.

Lemma refused_worker_count_witness :
  MainV2.main serial_uuid always_201 in_order lazy_host init_world
  = (inl (ValueError "max_workers must be greater than 0"),
     mkWorld (uuid_next init_world) (sent init_world) [] (slept init_world)).
Proof.
  apply (proj2 (refused_worker_count serial_uuid always_201 in_order lazy_host
                  lazy_config "data.xlsx" [sample_row] 5 init_world
                  ltac:(discriminate) eq_refl eq_refl eq_refl eq_refl
                  (fits_int64 5 ltac:(lia)))
           "project" eq_refl ltac:(vm_compute; discriminate)).
Defined.

(** X13: a negative ['dynamic_sleep_interval'].  [time.sleep] refuses it
    after the first batch has been processed in full: the run ends with
    [ValueError], the records of the first batch have their outcomes
    recorded, and no record of a later batch is touched. *)
Theorem negative_pause_stops_after_first_batch (uuid4_text : nat -> string)
    (server : Request -> nat -> reply) (as_completed : list Future -> list Future)
    (h : Host) (config : Config) (path : string) (df_root : DataFrame)
    (size : Z) (project : string) (pause : Z)
    (batch : DataFrame) (rest : list DataFrame) (w : world) :
  (forall l, as_completed l ≡ₚ l) ->
  config_json h = Some config ->
  parent_data_path config = Some path ->
  workbooks h !! path = Some df_root ->
  batch_size config = Some size ->
  project_uuid config = Some project ->
  dynamic_sleep_interval config = Some pause -> pause < 0 ->
  batches df_root size = inr (batch :: rest) ->
  (forall token workers,
     default ∅ (api_token_map config) !! "unhcr_prod" = Some token ->
     token <> "" ->
     concurrency_level config = Some workers -> 0 < workers ->
     Forall (complete COLUMNS_V1) df_root ->
     exists w',
       Main.main uuid4_text server as_completed h w
       = (inl (ValueError "sleep length must be non-negative"), w')
       /\ length (outcomes (log w')) = length batch
       /\ uuid_next w' = (uuid_next w + length batch)%nat
       /\ slept w' = slept w)
  /\ (0 < default 5 (concurrency_level config) ->
      Forall (complete COLUMNS_V2) df_root ->
      exists w',
        MainV2.main uuid4_text server as_completed h w
        = (inl (ValueError "sleep length must be non-negative"), w')
        /\ length (outcomes (log w')) = length batch
        /\ uuid_next w' = (uuid_next w + length batch)%nat
        /\ slept w' = slept w).
Proof.
  intros Hperm Hcfg Hpath Hbook Hsize Hproj Hpause Hneg Hbs.
  apply batches_inr in Hbs as [Hfits Hb]. symmetry in Hb.
  assert (batch ∈ groups_of df_root size) as Hin by (rewrite Hb; by left).
  assert (forall w1, time_sleep (default 5 (dynamic_sleep_interval config)) w1
                     = (inl (ValueError "sleep length must be non-negative"), w1))
    as Hsleep.
  { intros w1. unfold time_sleep. rewrite Hpause.
    change (default 5 (Some pause)) with pause.
    by replace (pause <? 0) with true by (symmetry; apply Z.ltb_lt; lia). }
  split.
  - intros token workers Htok Hne Hcl Hpos Hall.
    rewrite (main_v1_reaches_loop _ _ _ _ _ _ _ _ _ _
               Hcfg Hpath Hbook Htok Hne Hsize Hfits), Hb.
    destruct (process_batch_v1_spec uuid4_text server as_completed batch config
                ENDPOINT [("Authorization", "Token " +:+ token);
                          ("Content-Type", "application/json")]
                project workers (mkWorld (uuid_next w) (sent w) [] (slept w))
                Hcl Hpos Hproj (batches_Forall _ _ _ _ Hall Hin))
      as (futs & ks & w1 & Hrun & Hlf & _ & [E1 _ E3 E4]).
    exists w1. cbn [for_each].
    rewrite (bind_inl _ _ _ w1 _
               (eq_trans (bind_inr _ _ _ _ _ Hrun) (Hsleep w1))).
    split; [done|]. cbn [uuid_next sent log slept] in E1, E3, E4.
    rewrite E3, E4, app_nil_r. cbn. rewrite length_map, Hperm. by rewrite Hlf.
  - intros Hpos Hall.
    rewrite (main_v2_reaches_loop _ _ _ _ _ _ _ _ _ _
               Hcfg Hproj Hpath Hbook Hsize Hfits), Hb.
    destruct (process_batch_v2_spec uuid4_text server as_completed batch
                ENDPOINT (MainV2.get_headers (MainV2.API_TOKEN h))
                project _ (mkWorld (uuid_next w) (sent w) [] (slept w))
                Hpos (batches_Forall _ _ _ _ Hall Hin))
      as (futs & ks & w1 & Hrun & Hlf & _ & [E1 _ E3 E4]).
    exists w1. cbn [for_each].
    rewrite (bind_inl _ _ _ w1 _
               (eq_trans (bind_inr _ _ _ _ _ Hrun) (Hsleep w1))).
    split; [done|]. cbn [uuid_next sent log slept] in E1, E3, E4.
    rewrite E3, E4, app_nil_r. cbn. rewrite length_map, Hperm. by rewrite Hlf.
Qed.

Lemma negative_pause_stops_after_first_batch_witness :
  exists w',
    MainV2.main serial_uuid always_201 in_order hasty_host init_world
    = (inl (ValueError "sleep length must be non-negative"), w')
    /\ length (outcomes (log w')) = length [sample_row; sample_row]
    /\ uuid_next w' = (uuid_next init_world + length [sample_row; sample_row])%nat
    /\ slept w' = slept init_world.
Proof.
  apply (proj2 (negative_pause_stops_after_first_batch serial_uuid always_201
                  in_order hasty_host hasty_config "data.xlsx" sample_frame 2
                  "project" (-1) [sample_row; sample_row] [[sample_row]]
                  init_world in_order_perm
                  eq_refl eq_refl eq_refl eq_refl eq_refl eq_refl
                  ltac:(lia) eq_refl));
    [vm_compute; reflexivity | apply sample_frame_complete].
Defined.

Ltac absent_or row c :=
  destruct (row !! c); [cbn beta iota|by intros [= <-]].

(** A row that lacks a mapped column makes [create_payload] raise
    [KeyError] for the first such column, in the order of the dict
    literal. *)
Lemma create_payload_v1_absent (row : Series) (project c : string)
    (uuid4_text : nat -> string) (w : world) :
  first_absent COLUMNS_V1 row = Some c ->
  Main.create_payload uuid4_text row project w = (inl (KeyError c), w).
Proof.
  unfold COLUMNS_V1, Main.create_payload, bind, getitem, ret, raise.
  cbn [first_absent].
  absent_or row "Process_Status". absent_or row "Reception_ID".
  absent_or row "Full_Name". absent_or row "Sex".
  absent_or row "Date_of_Birth". absent_or row "Arrival_Date".
  absent_or row "Ethnicity". absent_or row "Group_Size".
  absent_or row "Reception_Location". done.
Qed.

Lemma create_payload_v2_absent (row : Series) (project c : string)
    (uuid4_text : nat -> string) (w : world) :
  first_absent COLUMNS_V2 row = Some c ->
  MainV2.create_payload uuid4_text row project w = (inl (KeyError c), w).
Proof.
  unfold COLUMNS_V2, MainV2.create_payload, bind, getitem, ret, raise.
  cbn [first_absent].
  absent_or row "Reception_ID". absent_or row "Type".
  absent_or row "Group_Size". done.
Qed.

(** X14: a workbook whose first row lacks a mapped column, with a batch
    size of at least one that fits int64.  The run ends with [KeyError]
    for the first column the row lacks, in the order [create_payload]
    reads the columns, at the first record: nothing has been sent, drawn
    or recorded. *)
Theorem absent_column_stops_before_sending (uuid4_text : nat -> string)
    (server : Request -> nat -> reply) (as_completed : list Future -> list Future)
    (h : Host) (config : Config) (path : string) (row : Series)
    (rows : DataFrame) (size : Z) (project : string) (w : world) :
  config_json h = Some config ->
  parent_data_path config = Some path ->
  workbooks h !! path = Some (row :: rows) ->
  batch_size config = Some size -> 1 <= size <= np.INT64_MAX ->
  project_uuid config = Some project ->
  let w0 := mkWorld (uuid_next w) (sent w) [] (slept w) in
  (forall token workers c,
     default ∅ (api_token_map config) !! "unhcr_prod" = Some token ->
     token <> "" ->
     concurrency_level config = Some workers -> 0 < workers ->
     first_absent COLUMNS_V1 row = Some c ->
     Main.main uuid4_text server as_completed h w = (inl (KeyError c), w0))
  /\ (forall c,
        0 < default 5 (concurrency_level config) ->
        first_absent COLUMNS_V2 row = Some c ->
        MainV2.main uuid4_text server as_completed h w = (inl (KeyError c), w0)).
Proof.
  intros Hcfg Hpath Hbook Hsize [Hone Hmax] Hproj w0.
  assert (np.INT64_MIN <= size <= np.INT64_MAX) as Hfits
    by (unfold np.INT64_MIN; lia).
  destruct (batches_first row rows size Hone) as (batch & rest & Hb).
  split.
  - intros token workers c Htok Hne Hcl Hpos Hbad.
    rewrite (main_v1_reaches_loop _ _ _ _ _ _ _ _ _ _
               Hcfg Hpath Hbook Htok Hne Hsize Hfits), Hb.
    apply for_each_first_raises.
    unfold Main.process_batch, ThreadPoolExecutor.
    rewrite Hcl. cbn [getitem]. rewrite bind_ret.
    replace (workers <=? 0) with false by (symmetry; apply Z.leb_gt; lia).
    rewrite bind_ret. cbn [comprehension]. rewrite Hproj. cbn [getitem].
    apply bind_inl, bind_inl. rewrite bind_ret.
    by apply bind_inl, create_payload_v1_absent.
  - intros c Hpos Hbad.
    rewrite (main_v2_reaches_loop _ _ _ _ _ _ _ _ _ _
               Hcfg Hproj Hpath Hbook Hsize Hfits), Hb.
    apply for_each_first_raises.
    unfold MainV2.process_batch, ThreadPoolExecutor.
    replace (default 5 (concurrency_level config) <=? 0) with false
      by (symmetry; apply Z.leb_gt; lia).
    rewrite bind_ret. cbn [comprehension].
    by apply bind_inl, bind_inl, bind_inl, create_payload_v2_absent.
Qed.

Lemma absent_column_stops_before_sending_witness :
  first_absent COLUMNS_V1 (delete "Ethnicity" sample_row_without_sex) = Some "Sex"
  /\ Main.main serial_uuid always_201 in_order
       (sample_host 5 [delete "Ethnicity" sample_row_without_sex; sample_row])
       init_world
     = (inl (KeyError "Sex"),
        mkWorld (uuid_next init_world) (sent init_world) []
                (slept init_world)).
Proof.
  split; [reflexivity|].
  apply (proj1 (absent_column_stops_before_sending serial_uuid always_201
                  in_order
                  (sample_host 5 [delete "Ethnicity" sample_row_without_sex;
                                  sample_row])
                  (sample_config 5) "data.xlsx"
                  (delete "Ethnicity" sample_row_without_sex)
                  [sample_row] 5 "project" init_world
                  eq_refl eq_refl eq_refl eq_refl
                  ltac:(unfold np.INT64_MAX; lia) eq_refl)
           "secret" 5 "Sex" eq_refl ltac:(discriminate) eq_refl ltac:(lia)
           eq_refl).
Defined.

(** ** Credentials and payloads, function by function *)

(** X15: [get_api_token] resolves a key to its token exactly when the
    configuration maps it to a non-empty one, and then touches nothing.
    A key that is absent, a configuration without ['api_token_map'] and
    an empty token all go the same way: one error line is logged and
    [ValueError] raised.  In [main.py] that ends the run after the
    workbook is read and before any identifier is drawn or request
    sent. *)
Theorem token_resolution (config : Config) (user_value : string) (w : world) :
  let failed :=
    (inl (ValueError ("Unknown user value: " +:+ user_value)),
     mkWorld (uuid_next w) (sent w)
             (log w ++ [ERROR ("Unknown user value: " +:+ user_value)])
             (slept w)) in
  (forall token,
     default ∅ (api_token_map config) !! user_value = Some token ->
     token <> "" ->
     Main.get_api_token config user_value w = (inr token, w))
  /\ (default ∅ (api_token_map config) !! user_value = None ->
      Main.get_api_token config user_value w = failed)
  /\ (api_token_map config = None ->
      Main.get_api_token config user_value w = failed)
  /\ (default ∅ (api_token_map config) !! user_value = Some "" ->
      Main.get_api_token config user_value w = failed)
  /\ (forall uuid4_text server as_completed h path df_root,
        config_json h = Some config ->
        parent_data_path config = Some path ->
        workbooks h !! path = Some df_root ->
        default ∅ (api_token_map config) !! "unhcr_prod" = None
        \/ default ∅ (api_token_map config) !! "unhcr_prod" = Some "" ->
        Main.main uuid4_text server as_completed h w
        = (inl (ValueError "Unknown user value: unhcr_prod"),
           mkWorld (uuid_next w) (sent w)
                   [ERROR "Unknown user value: unhcr_prod"] (slept w))).
Proof.
  intros failed. unfold Main.get_api_token.
  split; [|split; [|split; [|split]]].
  - intros token -> Hne. by destruct token.
  - by intros ->.
  - intros ->. cbn [default]. by rewrite lookup_empty.
  - by intros ->.
  - intros uuid4_text server as_completed h path df_root Hcfg Hpath Hbook Htok.
    unfold Main.main.
    rewrite (bind_inr configure_logging _ w
               (mkWorld (uuid_next w) (sent w) [] (slept w)) tt eq_refl).
    unfold load_config at 1. rewrite Hcfg, bind_ret.
    rewrite Hpath. cbn [getitem]. rewrite bind_ret.
    unfold read_excel at 1. rewrite Hbook, bind_ret.
    unfold Main.get_api_token. by destruct Htok as [-> | ->].
Qed.

Lemma token_resolution_witness :
  Main.get_api_token (sample_config 5) "unhcr_prod" init_world
  = (inr "secret", init_world)
  /\ Main.get_api_token (sample_config 5) "unhcr_test" init_world
     = (inl (ValueError ("Unknown user value: " +:+ "unhcr_test")),
        mkWorld (uuid_next init_world) (sent init_world)
                (log init_world ++ [ERROR ("Unknown user value: " +:+ "unhcr_test")])
                (slept init_world)).
Proof.
  pose proof (token_resolution (sample_config 5) "unhcr_prod" init_world)
    as (Hok & _).
  pose proof (token_resolution (sample_config 5) "unhcr_test" init_world)
    as (_ & Hnone & _).
  split; [by apply Hok | by apply Hnone].
Defined.

(** X16: [create_payload] does nothing but build a payload.  On success
    it has drawn exactly one identifier and left the log, the wire and
    the pauses alone; the payload has the project id, the mapped columns
    as its keys, in order, and ["uuid:"] followed by the drawn
    identifier.  On failure the exception is a [KeyError] for a mapped
    column the row lacks and the state is untouched. *)
Theorem create_payload_effects (uuid4_text : nat -> string) (row : Series)
    (project : string) (w : world) :
  match Main.create_payload uuid4_text row project w with
  | (inr p, w') =>
      w' = mkWorld (S (uuid_next w)) (sent w) (log w) (slept w)
      /\ payload_id p = project
      /\ map fst (answers p) = COLUMNS_V1
      /\ instanceID p = "uuid:" +:+ uuid4_text (uuid_next w)
  | (inl e, w') =>
      w' = w /\ exists c, e = KeyError c /\ c ∈ COLUMNS_V1 /\ row !! c = None
  end
  /\ match MainV2.create_payload uuid4_text row project w with
     | (inr p, w') =>
         w' = mkWorld (S (uuid_next w)) (sent w) (log w) (slept w)
         /\ payload_id p = project
         /\ map fst (answers p) = COLUMNS_V2
         /\ instanceID p = "uuid:" +:+ uuid4_text (uuid_next w)
     | (inl e, w') =>
         w' = w /\ exists c, e = KeyError c /\ c ∈ COLUMNS_V2 /\ row !! c = None
     end.
Proof.
  split.
  - destruct (create_payload_v1_cases row project)
      as [[_ H]|(c & Hin & Hnone & H)]; rewrite H; [done|].
    split; [done|]. by exists c.
  - destruct (create_payload_v2_cases row project)
      as [[_ H]|(c & Hin & Hnone & H)]; rewrite H; [done|].
    split; [done|]. by exists c.
Qed.

(** ** The edge of the retry budget *)

Lemma urlopen_exhausted_upto (server : Request -> nat -> reply)
    (max_retries : nat) (bf : Q) (left : nat) (req : Request) (n : nat)
    (w : world) :
  (forall i, (i <= left)%nat ->
     exists resp, server req (n + i)%nat = Answer resp
                  /\ status_code resp ∈ [500; 502; 503; 504]) ->
  urllib3.urlopen server (POLICY max_retries bf) left "POST" req n w
  = (inr (inl RetryError),
     mkWorld (uuid_next w) (sent w ++ replicate (S left) req) (log w) (slept w)).
Proof.
  revert n w. induction left as [|left IH]; intros n w Hsrv;
    rewrite urlopen_unfold; cbn zeta;
    destruct (Hsrv 0%nat ltac:(lia)) as (resp & Hresp & Hst);
    rewrite Nat.add_0_r in Hresp; rewrite Hresp, is_retry_forced by done;
    [done|].
  rewrite IH; [cbn; by rewrite <- app_assoc|].
  intros i Hi. destruct (Hsrv (S i) ltac:(lia)) as (resp' & Hresp' & Hst').
  exists resp'. split; [|done]. rewrite <- Hresp'. f_equal. lia.
Qed.

(** X17: the retry budget is exact.  Against an endpoint that answers 503
    to the first [K] transmissions of a request and 201 to the next, the
    record is delivered when [K <= max_retries], the 201 arriving on the
    last permitted attempt included, after [K + 1] transmissions; when
    [K > max_retries] the 201 is never asked for: [max_retries + 1]
    transmissions are made and the outcome is Failure. *)
Theorem retry_budget_is_exact (server : Request -> nat -> reply)
    (hdrs : list (string * string)) (payload : Payload)
    (max_retries : nat) (bf : Q) (K : nat) (r201 : Response) (w : world) :
  let req := mkRequest ENDPOINT hdrs payload in
  (forall i, (i < K)%nat ->
     exists resp, server req i = Answer resp /\ status_code resp = 503) ->
  server req K = Answer r201 ->
  status_code r201 = 201 ->
  exists w1 w2,
    submit_v1 server hdrs payload max_retries bf w = (inr tt, w1)
    /\ submit_v2 server hdrs payload max_retries bf w = (inr tt, w2)
    /\ sent w1 = sent w ++ replicate (S (Nat.min K max_retries)) req
    /\ sent w2 = sent w ++ replicate (S (Nat.min K max_retries)) req
    /\ outcomes (log w1)
       = outcomes (log w) ++ [if (K <=? max_retries)%nat then Success else Failure]
    /\ outcomes (log w2)
       = outcomes (log w) ++ [if (K <=? max_retries)%nat then Success else Failure].
Proof.
  intros req Hfail Hok H201.
  assert (forall i, (i < K)%nat ->
            exists resp, server req (0 + i)%nat = Answer resp
                         /\ status_code resp ∈ [500; 502; 503; 504]) as Hforced.
  { intros i Hi. destruct (Hfail i Hi) as (resp & Hresp & Hst).
    exists resp. split; [done|]. rewrite Hst. set_solver. }
  destruct (Nat.leb_spec K max_retries) as [Hle|Hgt].
  - rewrite Nat.min_l by done.
    assert (requests.post server (POLICY max_retries bf) ENDPOINT hdrs payload w
            = (inr (inr r201),
               mkWorld (uuid_next w) (sent w ++ replicate (S K) req)
                       (log w) (slept w))) as Hpost.
    { unfold requests.post. rewrite get_adapter_ENDPOINT.
      by apply urlopen_recovers. }
    pose proof (send_v1_post _ _ _ _ _ _ _ _ _ Hpost) as Hv1.
    pose proof (send_v2_post _ _ _ _ _ _ _ _ _ Hpost) as Hv2.
    cbn beta iota in Hv1, Hv2. rewrite H201 in Hv2.
    change ((400 <=? 201) && (201 <? 600)) with false in Hv2. cbn iota in Hv2.
    unfold submit_v1, submit_v2.
    rewrite (bind_inr _ _ _ _ _ Hv1), (bind_inr _ _ _ _ _ Hv2).
    unfold Main.record_outcome, MainV2.record_outcome, Main.delivered,
      MainV2.delivered, requests.ok. rewrite H201. cbn.
    do 2 eexists. do 2 (split; [reflexivity|]). cbn.
    by rewrite !outcomes_app.
  - rewrite Nat.min_r by lia.
    assert (requests.post server (POLICY max_retries bf) ENDPOINT hdrs payload w
            = (inr (inl RetryError),
               mkWorld (uuid_next w) (sent w ++ replicate (S max_retries) req)
                       (log w) (slept w))) as Hpost.
    { unfold requests.post. rewrite get_adapter_ENDPOINT.
      apply urlopen_exhausted_upto. intros i Hi. apply Hforced. lia. }
    unfold submit_v1, submit_v2.
    rewrite (bind_inr _ _ _ _ _ (send_v1_post _ _ _ _ _ _ _ _ _ Hpost)).
    rewrite (bind_inr _ _ _ _ _ (send_v2_post _ _ _ _ _ _ _ _ _ Hpost)).
    do 2 eexists. do 2 (split; [reflexivity|]). cbn.
    rewrite !outcomes_app. cbn. by rewrite app_nil_r.
Qed.

Lemma retry_budget_is_exact_witness :
  exists w1 w2,
    submit_v1 flaky_then_201 [] sample_payload 2 (3 # 10)%Q init_world = (inr tt, w1)
    /\ submit_v2 flaky_then_201 [] sample_payload 2 (3 # 10)%Q init_world = (inr tt, w2)
    /\ sent w1 = sent init_world
         ++ replicate (S (Nat.min 2 2)) (mkRequest ENDPOINT [] sample_payload)
    /\ sent w2 = sent init_world
         ++ replicate (S (Nat.min 2 2)) (mkRequest ENDPOINT [] sample_payload)
    /\ outcomes (log w1)
       = outcomes (log init_world) ++ [if (2 <=? 2)%nat then Success else Failure]
    /\ outcomes (log w2)
       = outcomes (log init_world) ++ [if (2 <=? 2)%nat then Success else Failure].
Proof.
  apply (retry_budget_is_exact flaky_then_201 [] sample_payload 2 (3 # 10)%Q
           2%nat (mkResponse 201 false) init_world);
    [|reflexivity|reflexivity].
  intros [|[|i]] Hi; [by eexists..|lia].
Defined.
